(** * TILseg post-processing ([tilseg/seg.py]): a shallow embedding

    The development follows the post-processing half of [seg.py]:
    [gen_base_arrays], [result_image_generator], [filter_boolean],
    [contour_generator], [csv_results_compiler], [immune_cluster_analyzer],
    [base_results_generator], [generate_image_series] and
    [image_postprocessing]; and, above it, the checks of
    [cluster_model_fit] and the loop of [segment_TILs].

    - Python exceptions are an error monad ([Py.result]); the functions that
      touch the file system thread a trace of the calls made to the outside
      world ([io]).
    - Python floats are IEEE binary64 numbers: Rocq's primitive [float].
    - numpy arrays are nested lists ([np.ndarray]) read and written by index
      paths, with numpy's negative-index wrap-around and [IndexError].
    - OpenCV and [os.path] are outside the repository; they are the fields of
      the interfaces [cv2.api] and [os.api]; scikit-learn, [plt.imread] and
      the reads of the file system are the fields of [host.api]. *)

From Stdlib Require Import ZArith List String Floats Uint63 Lia Bool DecimalString.
From stdpp Require Import base list.

Local Open Scope Z_scope.

(* ================================================================= *)
(** ** Python: exceptions and effects *)

Module Py.

(** The exceptions [seg.py] can raise on arrays and floats. The messages of
    Python and numpy are shortened where they quote sizes and indices. *)
Inductive exn : Type :=
| ValueError (msg : string)
| IndexError (msg : string)
| TypeError (msg : string)
| ZeroDivisionError (msg : string).

Inductive result (A : Type) : Type :=
| Ok (a : A)
| Raise (e : exn).
Arguments Ok {A} a.
Arguments Raise {A} e.

Definition bind {A B : Type} (r : result A) (k : A -> result B) : result B :=
  match r with
  | Ok a => k a
  | Raise e => Raise e
  end.

(** [for x in xs: acc = body(acc, x)], stopping at the first exception. *)
Fixpoint for_each {A S : Type} (body : S -> A -> result S) (xs : list A) (acc : S)
  : result S :=
  match xs with
  | [] => Ok acc
  | x :: xs' => bind (body acc x) (for_each body xs')
  end.

(** [enumerate(xs)] *)
Definition enumerate {A : Type} (xs : list A) : list (nat * A) :=
  zip (seq 0 (length xs)) xs.

(** [range(n)]; empty when [n <= 0]. *)
Definition range (n : Z) : list nat := seq 0 (Z.to_nat n).

(** [str(n)] for a non-negative integer, as an f-string prints it. *)
Definition str (n : nat) : string := NilEmpty.string_of_uint (Nat.to_uint n).

(** [xs[i]] on a list or a tuple, without negative indices. *)
Definition list_getitem {A : Type} (xs : list A) (i : nat) (what : string) : result A :=
  match xs !! i with
  | Some x => Ok x
  | None => Raise (IndexError (what ++ " index out of range")%string)
  end.

(** [all([...])] *)
Definition all (bs : list bool) : bool := forallb id bs.

(** Python [float] comparisons and true division. *)
Definition float_ne (x y : float) : bool := negb (x =? y)%float.
Definition float_gt (x y : float) : bool := (y <? x)%float.
Definition float_lt (x y : float) : bool := (x <? y)%float.

(** [x / y] on floats raises [ZeroDivisionError] when [y] is [0.0] or [-0.0]. *)
Definition float_truediv (x y : float) : result float :=
  if (y =? 0)%float then Raise (ZeroDivisionError "float division by zero")
  else Ok (x / y)%float.

(** [x ** 2] on floats, taken as the correctly rounded square. (The
    [OverflowError] of float powers needs a finite [x] of magnitude [2^512]
    or more; no length or radius measured on an image comes near it, and
    it is left out.) *)
Definition float_pow2 (x : float) : float := (x * x)%float.

End Py.

Export Py.

Declare Scope py_scope.
Delimit Scope py_scope with py.
Notation "'do' x <- r ; k" := (Py.bind r (fun x => k))
  (at level 10, x name, r at level 100, k at level 200) : py_scope.
Notation "'do' ' p <- r ; k" := (Py.bind r (fun x => let 'p := x in k))
  (at level 10, p pattern, r at level 100, k at level 200) : py_scope.
Local Open Scope py_scope.

(* ================================================================= *)
(** ** numpy *)

Module np.

(** [np.pi], the binary64 number nearest to pi. *)
Definition pi : float := 0x1.921fb54442d18p+1%float.

(** An array is a number (a 0-d array, or one element) or a sequence of
    arrays along its first axis. The elements of the arrays of [seg.py]
    (labels, 8-bit colour channels, and the 0.0/1.0/255.0 of the float64
    masks) are integers. numpy arrays are rectangular; [has_shape] says so
    where a statement needs it. *)
#[warnings="-register-all"]
Inductive ndarray : Type :=
| Num (v : Z)
| Arr (items : list ndarray).

(** [a.shape], read along the first element of each axis. *)
Fixpoint shape (a : ndarray) : list nat :=
  match a with
  | Num _ => []
  | Arr items => length items :: match items with [] => [] | x :: _ => shape x end
  end.

(** [a.ndim] *)
Definition ndim (a : ndarray) : nat := length (shape a).

Fixpoint has_shape (s : list nat) (a : ndarray) : bool :=
  match s, a with
  | [], Num _ => true
  | n :: s', Arr items => (length items =? n)%nat && forallb (has_shape s') items
  | _, _ => false
  end.

(** [np.zeros(shape)] *)
Fixpoint full (v : Z) (s : list nat) : ndarray :=
  match s with
  | [] => Num v
  | n :: s' => Arr (replicate n (full v s'))
  end.

Definition zeros (dims : list Z) : result ndarray :=
  if forallb (fun d => 0 <=? d) dims then Ok (full 0 (Z.to_nat <$> dims))
  else Raise (ValueError "negative dimensions are not allowed").

(** An index into an axis of length [n]: negative indices count from
    the end, anything outside [-n, n) is an [IndexError]. *)
Definition index (n : nat) (i : Z) : result nat :=
  if (0 <=? i) && (i <? Z.of_nat n) then Ok (Z.to_nat i)
  else if (- Z.of_nat n <=? i) && (i <? 0) then Ok (Z.to_nat (i + Z.of_nat n))
  else Raise (IndexError "index is out of bounds for axis 0").

(** [a[i]] *)
Definition getitem (a : ndarray) (i : Z) : result ndarray :=
  match a with
  | Num _ => Raise (IndexError "invalid index to scalar variable.")
  | Arr items =>
      do k <- index (length items) i;
      list_getitem items k "array"
  end.

(** [a[i1]...[in] = value]: the indexing steps yield views, so the
    assignment at the end of the path writes into [a]. [assign] is what
    the assignment makes of the sub-array it targets. *)
Fixpoint setitem (a : ndarray) (path : list Z) (assign : ndarray -> result ndarray)
  : result ndarray :=
  match path with
  | [] => assign a
  | i :: path' =>
      match a with
      | Num _ => Raise (IndexError "invalid index to scalar variable.")
      | Arr items =>
          do k <- index (length items) i;
          do x <- list_getitem items k "array";
          do x' <- setitem x path' assign;
          Ok (Arr (<[k := x']> items))
      end
  end.

(** Every element of [a] replaced by [v]. *)
Fixpoint fill (v : Z) (a : ndarray) : ndarray :=
  match a with
  | Num _ => Num v
  | Arr items => Arr (fill v <$> items)
  end.

(** [... = v] for a number [v]: broadcast over the target. *)
Definition assign_scalar (v : Z) (target : ndarray) : result ndarray :=
  Ok (fill v target).

(** Every row along the last axis of [a] replaced by [vs]. *)
Fixpoint tile (vs : list Z) (a : ndarray) : ndarray :=
  match a with
  | Num v => Num v
  | Arr items =>
      match items with
      | Num _ :: _ => Arr (Num <$> vs)
      | _ => Arr (tile vs <$> items)
      end
  end.

(** [... = value] for a 1-d array [value] of more than one element: the
    last axis of the target must have its length. *)
Definition assign_vector (vs : list Z) (target : ndarray) : result ndarray :=
  match last (shape target) with
  | None => Raise (ValueError "setting an array element with a sequence.")
  | Some n =>
      if (n =? length vs)%nat then Ok (tile vs target)
      else Raise (ValueError "could not broadcast input array")
  end.

(** [int(a)] *)
Definition int (a : ndarray) : result Z :=
  match a with
  | Num v => Ok v
  | Arr _ => Raise (TypeError "only length-1 arrays can be converted to Python scalars")
  end.

Fixpoint flatten (a : ndarray) : list Z :=
  match a with
  | Num v => [v]
  | Arr items => concat (flatten <$> items)
  end.

(** [a.max()] *)
Definition max (a : ndarray) : result Z :=
  match flatten a with
  | [] => Raise (ValueError "zero-size array to reduction operation maximum which has no identity")
  | v :: vs => Ok (fold_left Z.max vs v)
  end.

(** [np.expand_dims(a, 0)] *)
Definition expand_dims0 (a : ndarray) : ndarray := Arr [a].

(** [np.vstack((a, b))] for arrays of two or more dimensions. *)
Definition vstack (a b : ndarray) : result ndarray :=
  match a, b with
  | Arr xs, Arr ys => Ok (Arr (xs ++ ys))
  | _, _ => Raise (ValueError "all the input arrays must have same number of dimensions")
  end.

(** [a * k] *)
Fixpoint mul (a : ndarray) (k : Z) : ndarray :=
  match a with
  | Num v => Num (v * k)
  | Arr items => Arr ((fun x => mul x k) <$> items)
  end.

(** [a.astype(np.int32)], on the integer-valued arrays of this file. *)
Definition astype_int32 (a : ndarray) : ndarray := a.

(** No element of [a] is nonzero. *)
Definition all_zero (a : ndarray) : bool := forallb (Z.eqb 0) (flatten a).

(** [np.array([...])] of a list of numbers, and of a list of rows. *)
Definition array1 (vs : list Z) : ndarray := Arr (Num <$> vs).
Definition array2 (rows : list (list Z)) : ndarray := Arr (array1 <$> rows).

(** Iterating an array goes along its first axis. *)
Definition iter (a : ndarray) : result (list ndarray) :=
  match a with
  | Num _ => Raise (TypeError "iteration over a 0-d array")
  | Arr items => Ok items
  end.

(** Reading along a path of in-range indices, and writing there; the pure
    counterparts of [getitem] and [setitem], used to state properties. *)
Fixpoint get (a : ndarray) (path : list nat) : option ndarray :=
  match path with
  | [] => Some a
  | i :: path' =>
      match a with
      | Num _ => None
      | Arr items => match items !! i with Some x => get x path' | None => None end
      end
  end.

Fixpoint set (a : ndarray) (path : list nat) (y : ndarray) : ndarray :=
  match path with
  | [] => y
  | i :: path' =>
      match a with
      | Num v => Num v
      | Arr items =>
          match items !! i with
          | Some x => Arr (<[i := set x path' y]> items)
          | None => Arr items
          end
      end
  end.

(** [a.reshape((-1, 3))]: the elements of [a] in rows of three. *)
Definition reshape_rows3 (a : ndarray) : result ndarray :=
  let vs := flatten a in
  if (length vs mod 3 =? 0)%nat then
    Ok (Arr ((fun i => array1 (take 3 (drop (i * 3) vs))) <$> seq 0 (length vs / 3)))
  else Raise (ValueError "cannot reshape array into shape (3)").

(** [a.reshape(h, w)] *)
Definition reshape2 (a : ndarray) (h w : nat) : result ndarray :=
  let vs := flatten a in
  if (length vs =? h * w)%nat then
    Ok (Arr ((fun i => array1 (take w (drop (i * w) vs))) <$> seq 0 h))
  else Raise (ValueError "cannot reshape array into the shape given").

(** [len(np.unique(a))] *)
Definition unique_count (a : ndarray) : nat := length (remove_dups (flatten a)).

End np.

Abbreviation ndarray := np.ndarray.

(* ================================================================= *)
(** ** The outside world: OpenCV, pandas, matplotlib, [os] *)

(** A contour is the sequence of its integer points [(x, y)]. *)
Definition contour : Type := list (Z * Z).

(** [pd.DataFrame(data, columns=...)] *)
Record DataFrame : Type := {
  columns : list string;
  values : list (list float);
}.

(** The calls that change the world, in the order they are made. *)
Inductive event : Type :=
| os_mkdir (path : string)
| os_chdir (path : string)
| cv2_imwrite (filename : string) (img : ndarray)
| plt_imsave (fname : string) (arr : ndarray)
| to_csv (df : DataFrame) (path : string) (index : bool).

Module cv2.

Inductive RetrievalModes : Type := RETR_FLOODFILL.
Inductive ContourApproximationModes : Type := CHAIN_APPROX_NONE.

Class api : Type := {
  (** [cv2.arcLength(curve, closed)] *)
  arcLength : contour -> bool -> float;
  (** [cv2.contourArea(contour)] *)
  contourArea : contour -> float;
  (** [cv2.minEnclosingCircle(points)]: centre and radius *)
  minEnclosingCircle : contour -> (float * float) * float;
  (** [cv2.findContours(image, mode, method)]: the contours; the
      hierarchy, which [seg.py] discards, is left out *)
  findContours : ndarray -> RetrievalModes -> ContourApproximationModes -> list contour;
}.

End cv2.

Module os.

Class api : Type := {
  (** [os.path.join(a, b)] *)
  path_join : string -> string -> string;
  (** [os.path.exists(path)], after the calls made so far *)
  path_exists : list event -> string -> bool;
}.

End os.

(** Code that raises and acts on the world: the trace of the calls made so
    far goes in, the trace extended by the calls made comes out, with the
    value returned or the exception raised. *)
Definition io (A : Type) : Type := list event -> list event * result A.

Definition io_ret {A : Type} (a : A) : io A := fun tr => (tr, Ok a).

Definition io_bind {A B : Type} (m : io A) (k : A -> io B) : io B :=
  fun tr =>
    match m tr with
    | (tr', Ok a) => k a tr'
    | (tr', Raise e) => (tr', Raise e)
    end.

Definition io_lift {A : Type} (r : result A) : io A := fun tr => (tr, r).

Definition io_raise {A : Type} (e : exn) : io A := fun tr => (tr, Raise e).

Definition emit (ev : event) : io unit := fun tr => (tr ++ [ev], Ok tt).

Fixpoint io_for_each {A : Type} (body : A -> io unit) (xs : list A) : io unit :=
  match xs with
  | [] => io_ret tt
  | x :: xs' => io_bind (body x) (fun _ => io_for_each body xs')
  end.

Notation "'run' x <- m ; k" := (io_bind m (fun x => k))
  (at level 10, x name, m at level 100, k at level 200) : py_scope.
Notation "'run' ' p <- m ; k" := (io_bind m (fun x => let 'p := x in k))
  (at level 10, p pattern, m at level 100, k at level 200) : py_scope.
Notation "m ;; k" := (io_bind m (fun _ => k))
  (at level 100, k at level 200, right associativity) : py_scope.

(* ================================================================= *)
(** ** [seg.py] *)

Section Seg.

Context {CV : cv2.api} {OS : os.api}.

(** [base_results_generator(original_image, all_clust_image, filepath)] *)
Definition base_results_generator (original_image all_clust_image : ndarray)
    (filepath : string) : io unit :=
  let ori_shape := np.shape original_image in
  let all_clust_shape := np.shape all_clust_image in
  (if negb (np.ndim original_image =? 3)%nat then
     io_raise (ValueError ("Original image has 3 dimensions but "
                           ++ str (np.ndim original_image) ++ " were input")%string)
   else io_ret tt) ;;
  (if negb (np.ndim all_clust_image =? 3)%nat then
     io_raise (ValueError ("All cluster image has 3 dimensions but "
                           ++ str (np.ndim all_clust_image) ++ " were input")%string)
   else io_ret tt) ;;
  run ori_c <- io_lift (list_getitem ori_shape 2 "tuple");
  run bad <- (if negb (ori_c =? 3)%nat then io_ret true
              else run all_c <- io_lift (list_getitem all_clust_shape 2 "tuple");
                   io_ret (negb (all_c =? 3)%nat));
  (if bad : bool then io_raise (ValueError "Images should have 3 channels for RGB")
   else io_ret tt) ;;
  (fun tr => (if negb (os.path_exists tr filepath) then emit (os_mkdir filepath)
              else io_ret tt) tr) ;;
  let ori_filepath := os.path_join filepath "Original.jpg" in
  let all_clust_filepath := os.path_join filepath "AllClusters.jpg" in
  emit (cv2_imwrite ori_filepath original_image) ;;
  emit (cv2_imwrite all_clust_filepath all_clust_image).

(** [generate_image_series(image_array, filepath, prefix)] *)
Definition generate_image_series (image_array : ndarray) (filepath prefix : string)
  : io unit :=
  (if negb (np.ndim image_array =? 4)%nat then
     io_raise (ValueError ("All cluster image has 3 dimensions but "
                           ++ str (np.ndim image_array) ++ " were input")%string)
   else io_ret tt) ;;
  let image_array_shape := np.shape image_array in
  run channels <- io_lift (list_getitem image_array_shape 3 "tuple");
  (if negb (channels =? 3)%nat then
     io_raise (ValueError "Images should have 3 channels for RGB")
   else io_ret tt) ;;
  let dims := np.shape image_array in
  let path := os.path_join filepath prefix in
  (fun tr => (if negb (os.path_exists tr path) then emit (os_mkdir path)
              else io_ret tt) tr) ;;
  emit (os_chdir path) ;;
  run dims0 <- io_lift (list_getitem dims 0 "tuple");
  io_for_each
    (fun count =>
       run img <- io_lift (np.getitem image_array (Z.of_nat count));
       emit (plt_imsave ("Image" ++ str (count + 1) ++ ".jpg")%string img))
    (range (Z.of_nat dims0)).

(** [gen_base_arrays(ori_image, num_clusts)]. [np.expand_dims] returns a
    view of [ori_image], and [np.vstack] a fresh array: the first array
    returned shares its memory with [ori_image] exactly when the loop
    body never runs ([final_array_is_view]). *)
Definition gen_base_arrays (ori_image : ndarray) (num_clusts : Z)
  : result (ndarray * ndarray * ndarray) :=
  let dims := np.shape ori_image in
  let four_dim_array := np.expand_dims0 ori_image in
  do dims0 <- list_getitem dims 0 "tuple";
  do dims1 <- list_getitem dims 1 "tuple";
  do binary_array <- np.zeros [num_clusts; Z.of_nat dims0; Z.of_nat dims1];
  do all_mask_array <- np.zeros [Z.of_nat dims0; Z.of_nat dims1; 3];
  let final_array := four_dim_array in
  do final_array <- for_each (fun final_array _ => np.vstack final_array four_dim_array)
                      (range (num_clusts - 1)) final_array;
  Ok (final_array, binary_array, all_mask_array).

Definition final_array_is_view (num_clusts : Z) : bool :=
  match range (num_clusts - 1) with [] => true | _ => false end.

Definition black : ndarray := np.array1 [0; 0; 0].

Definition colors_overlay : ndarray :=
  np.array2 [[0; 0; 0]; [255; 0; 0]; [0; 255; 0]; [0; 0; 255]].

(** [value] assigned to a sub-array: a number is broadcast, a 1-d array
    must fit the last axis. *)
Definition assign (value : ndarray) (target : ndarray) : result ndarray :=
  match value with
  | np.Num v => np.assign_scalar v target
  | np.Arr _ => np.assign_vector (np.flatten value) target
  end.

(** The body of the two loops of [result_image_generator], at pixel
    [(j, k)]. *)
Definition paint_pixel (img_clust : ndarray) (j k : nat)
    (arrays : ndarray * ndarray * ndarray) : result (ndarray * ndarray * ndarray) :=
  let '(final_arrays, binary_arrays, all_masks) := arrays in
  do row <- np.getitem img_clust (Z.of_nat j);
  do label <- np.getitem row (Z.of_nat k);
  do key <- np.int label;
  do final_arrays <- np.setitem final_arrays [key; Z.of_nat j; Z.of_nat k] (assign black);
  do binary_arrays <- np.setitem binary_arrays [key; Z.of_nat j; Z.of_nat k]
                        (assign (np.Num 1));
  do all_masks <-
    for_each
      (fun all_masks count =>
         do color <- np.getitem colors_overlay key;
         do channel <- np.getitem color (Z.of_nat count);
         np.setitem all_masks [Z.of_nat j; Z.of_nat k; Z.of_nat count] (assign channel))
      (range 3) all_masks;
  Ok (final_arrays, binary_arrays, all_masks).

(** [result_image_generator(img_clust, original_image)]: the three arrays
    returned, and the contents of [original_image] after the call (the
    overlays are written through to it when they are a view of it). *)
Definition result_image_generator (img_clust original_image : ndarray)
  : result ((ndarray * ndarray * ndarray) * ndarray) :=
  let dims := np.shape img_clust in
  do top <- np.max img_clust;
  let num_clust := top + 1 in
  do arrays <- gen_base_arrays original_image num_clust;
  do dims0 <- list_getitem dims 0 "tuple";
  do '(final_arrays, binary_arrays, all_masks) <-
    for_each
      (fun arrays j =>
         do dims1 <- list_getitem dims 1 "tuple";
         for_each (fun arrays k => paint_pixel img_clust j k arrays)
           (range (Z.of_nat dims1)) arrays)
      (range (Z.of_nat dims0)) arrays;
  do original_image <-
    (if final_array_is_view num_clust then np.getitem final_arrays 0
     else Ok original_image);
  Ok ((final_arrays, binary_arrays, all_masks), original_image).

(** What the arrays hold at pixel [(r, c)], for the statements about
    [result_image_generator]: the label, the pixel of the image, and the
    colour [colors_overlay] gives a label. *)
Definition label_at (img_clust : ndarray) (r c : nat) : Z :=
  match np.get img_clust [r; c] with
  | Some (np.Num v) => v
  | _ => 0
  end.

Definition pixel_at (image : ndarray) (r c : nat) : ndarray :=
  default (np.Num 0) (np.get image [r; c]).

Definition color_of (label : Z) : ndarray :=
  default (np.Num 0) (np.get colors_overlay [Z.to_nat label]).

(** Pixel [(r, c)] comes before pixel [(j, k)] in the order of the loops. *)
Definition before (j k r c : nat) : bool :=
  (r <? j)%nat || ((r =? j)%nat && (c <? k)%nat).

(** The two loops of [result_image_generator] up to pixel [(j, k)]
    excluded, on an [H x W] label map with labels below [K]: every mask has
    1 exactly at the pixels painted so far that carry its label, every
    overlay is black there and the image elsewhere, and the combined
    overlay has the colour of the label at every pixel painted so far. *)
Definition painted (img_clust original_image : ndarray) (H W K j k : nat)
    (arrays : ndarray * ndarray * ndarray) : Prop :=
  let '(final_arrays, binary_arrays, all_masks) := arrays in
  np.has_shape [K; H; W; 3%nat] final_arrays = true /\
  np.has_shape [K; H; W] binary_arrays = true /\
  np.has_shape [H; W; 3%nat] all_masks = true /\
  (forall q r c, (q < K)%nat -> (r < H)%nat -> (c < W)%nat ->
     np.get final_arrays [q; r; c] =
       Some (if before j k r c && (label_at img_clust r c =? Z.of_nat q) then black
             else pixel_at original_image r c) /\
     np.get binary_arrays [q; r; c] =
       Some (np.Num (if before j k r c && (label_at img_clust r c =? Z.of_nat q) then 1
                     else 0))) /\
  (forall r c, (r < H)%nat -> (c < W)%nat ->
     np.get all_masks [r; c] =
       Some (if before j k r c then color_of (label_at img_clust r c) else black)).

(** [filter_boolean(contour)] *)
Definition filter_boolean (contour : contour) : result bool :=
  let meets_crit := false in
  let perimeter := cv2.arcLength contour true in
  let area := cv2.contourArea contour in
  if float_ne area 0 && float_ne perimeter 0 then
    do roundness <- float_truediv (float_pow2 perimeter) (4 * np.pi * area)%float;
    Ok (all [float_gt area 200; float_lt area 2000; float_lt roundness 3.0])
  else
    Ok meets_crit.

(** The roundness of a contour as [filter_boolean] computes it,
    [perimeter**2 / (4 * np.pi * area)], as a plain binary64 quotient. *)
Definition roundness (c : contour) : float :=
  (float_pow2 (cv2.arcLength c true) / (4 * np.pi * cv2.contourArea c))%float.

(** [pi * r**2] for the radius [r] of the minimal enclosing circle. *)
Definition bounding_circle_area (c : contour) : float :=
  (np.pi * float_pow2 (snd (cv2.minEnclosingCircle c)))%float.

(** The row of the metrics table for one contour: area, perimeter,
    roundness, bounding circle area. *)
Definition metrics_row (c : contour) : list float :=
  [cv2.contourArea c; cv2.arcLength c true; roundness c; bounding_circle_area c].

(** [contour_generator(img_mask)] *)
Definition contour_generator (img_mask : ndarray) : result (list contour * nat) :=
  let contours := cv2.findContours (np.astype_int32 img_mask)
                    cv2.RETR_FLOODFILL cv2.CHAIN_APPROX_NONE in
  do contours_mod <-
    for_each
      (fun contours_mod (ele : nat * contour) =>
         do c <- list_getitem contours (fst ele) "list";
         do keep <- filter_boolean c;
         if keep then
           do c <- list_getitem contours (fst ele) "list";
           Ok (contours_mod ++ [c])
         else Ok contours_mod)
      (enumerate contours) [];
  Ok (contours_mod, length contours_mod).

(** [data_sum[i][:] = row] *)
Definition setrow (data_sum : list (list float)) (i : nat) (row : list float)
  : result (list (list float)) :=
  do _ <- list_getitem data_sum i "array";
  Ok (<[i := row]> data_sum).

(** The four numbers [csv_results_compiler] computes for one contour. *)
Definition contour_metrics (c : contour) : result (list float) :=
  let temp_area := cv2.contourArea c in
  let temp_per := cv2.arcLength c true in
  let '(_, temp_radius) := cv2.minEnclosingCircle c in
  do temp_roundness <- float_truediv (float_pow2 temp_per) (4 * np.pi * temp_area)%float;
  let temp_circle_area := (np.pi * float_pow2 temp_radius)%float in
  Ok [temp_area; temp_per; temp_roundness; temp_circle_area].

(** The body of the loop of [csv_results_compiler]: the row of contour
    [ele[0]] is computed and stored. *)
Definition store_metrics (cont_list : list contour) (data_sum : list (list float))
    (ele : nat * contour) : result (list (list float)) :=
  do c <- list_getitem cont_list (fst ele) "list";
  do row <- contour_metrics c;
  setrow data_sum (fst ele) row.

(** The table [csv_results_compiler] builds before it writes it. *)
Definition compile_table (cont_list : list contour) : result DataFrame :=
  let data_sum := replicate (length cont_list) [0; 0; 0; 0]%float in
  do data_sum <- for_each (store_metrics cont_list) (enumerate cont_list) data_sum;
  Ok {| values := data_sum;
        columns := ["Area"; "Perimeter"; "Roundness"; "Bounding Circle Area"]%string |}.

(** [csv_results_compiler(cont_list, filepath)] *)
Definition csv_results_compiler (cont_list : list contour) (filepath : string)
  : io unit :=
  run dataframe <- io_lift (compile_table cont_list);
  let path := os.path_join filepath "Compiled_Data.csv" in
  emit (to_csv dataframe path false).

(** The body of the loop of [immune_cluster_analyzer], on the lists of
    contours and of counts and the index of the best mask so far. *)
Definition scan_step (masks : list ndarray)
    (state : list (list contour) * list nat * nat) (ele : nat * ndarray)
  : result (list (list contour) * list nat * nat) :=
  let '(contour_list, count_list, count_index) := state in
  do mask <- list_getitem masks (fst ele) "list";
  do '(contour_temp, contour_count) <- contour_generator mask;
  let contour_list := contour_list ++ [contour_temp] in
  let count_list := count_list ++ [contour_count] in
  do best <- list_getitem count_list count_index "list";
  if (best <? contour_count)%nat then
    Ok (contour_list, count_list, fst ele)
  else
    Ok (contour_list, count_list, count_index).

(** The loop of [immune_cluster_analyzer]: the contours and the count of
    every mask, and the index of the mask picked. *)
Definition scan_clusters (masks : list ndarray)
  : result (list (list contour) * list nat * nat) :=
  let contour_list := [] in
  let count_list := [] in
  let count_index := 0%nat in
  for_each (scan_step masks) (enumerate masks) (contour_list, count_list, count_index).

(** [idx] is the first position of the greatest number of [counts]
    (position 0 when there is none). *)
Definition first_max (counts : list nat) (idx : nat) : Prop :=
  (counts = [] /\ idx = 0%nat) \/
  exists v, counts !! idx = Some v /\
    (forall j w, counts !! j = Some w -> (w <= v)%nat) /\
    (forall j w, (j < idx)%nat -> counts !! j = Some w -> (w < v)%nat).

(** [immune_cluster_analyzer(masks, filepath)] *)
Definition immune_cluster_analyzer (masks : list ndarray) (filepath : string)
  : io unit :=
  run '(contour_list, count_list, count_index) <- io_lift (scan_clusters masks);
  run winner <- io_lift (list_getitem contour_list count_index "list");
  csv_results_compiler winner filepath.

(** [image_postprocessing(clusters, ori_img, filepath, gen_overlays,
    gen_masks, gen_csv)] *)
Definition image_postprocessing (clusters ori_img : ndarray) (filepath : string)
    (gen_overlays gen_masks gen_csv : bool) : io unit :=
  run '((masked_images, masks, all_masks), ori_img) <-
    io_lift (result_image_generator clusters ori_img);
  let mod_filepath := filepath in
  base_results_generator ori_img all_masks mod_filepath ;;
  (if gen_overlays then
     generate_image_series masked_images mod_filepath "Overlaid Images"
   else io_ret tt) ;;
  (if gen_masks then
     let masks_imgs := np.mul masks 255 in
     generate_image_series masks_imgs mod_filepath "Masks"
   else io_ret tt) ;;
  (if gen_csv then
     run masks <- io_lift (np.iter masks);
     immune_cluster_analyzer masks mod_filepath
   else io_ret tt).

(** The image is not [H x W x 3]: it has not 3 dimensions, or not 3
    channels. *)
Definition bad_shape (image : ndarray) : Prop :=
  np.ndim image <> 3%nat \/ np.shape image !! 2%nat <> Some 3%nat.

(** The errors of the shape checks of [base_results_generator]. *)
Definition shape_validation_error (e : exn) : Prop :=
  (exists n, e = ValueError ("Original image has 3 dimensions but "
                             ++ str n ++ " were input")%string) \/
  (exists n, e = ValueError ("All cluster image has 3 dimensions but "
                             ++ str n ++ " were input")%string) \/
  e = ValueError "Images should have 3 channels for RGB".

End Seg.

(* ================================================================= *)
(** ** What the writers leave in the trace *)

Section Traces.

Context {CV : cv2.api} {OS : os.api}.

(** What [if not os.path.exists(path): os.mkdir(path)] adds to the trace
    [tr]. *)
Definition made_dir (tr : list event) (path : string) : list event :=
  if os.path_exists tr path then [] else [os_mkdir path].

(** The files [generate_image_series] saves for the images [items]:
    [Image1.jpg], [Image2.jpg], ... *)
Definition image_files (items : list ndarray) : list event :=
  imap (fun i img => plt_imsave ("Image" ++ str (i + 1) ++ ".jpg")%string img) items.

(** What [base_results_generator] and [generate_image_series] add to the
    trace [tr] when they accept their arrays. *)
Definition base_results (tr : list event) (original_image all_clust_image : ndarray)
    (filepath : string) : list event :=
  made_dir tr filepath
  ++ [cv2_imwrite (os.path_join filepath "Original.jpg") original_image;
      cv2_imwrite (os.path_join filepath "AllClusters.jpg") all_clust_image].

Definition image_series (tr : list event) (items : list ndarray)
    (filepath prefix : string) : list event :=
  made_dir tr (os.path_join filepath prefix)
  ++ [os_chdir (os.path_join filepath prefix)] ++ image_files items.

(** [filter_boolean] accepts the contour. *)
Definition accepted (c : contour) : bool :=
  match filter_boolean c with
  | Ok true => true
  | _ => false
  end.

(** The table [csv_results_compiler] writes for contours it can measure. *)
Definition metrics_table (cont_list : list contour) : DataFrame :=
  {| values := metrics_row <$> cont_list;
     columns := ["Area"; "Perimeter"; "Roundness"; "Bounding Circle Area"]%string |}.

End Traces.

(* ================================================================= *)
(** ** The entry points: [cluster_model_fit] and [segment_TILs] *)

(** The values the entry points inspect by type: [None], an [int], a [str],
    and any other object. *)
Inductive pyobj : Type :=
| PyNone
| PyInt (z : Z)
| PyStr (s : string)
| PyOther.

(** What the entry points raise: the exceptions of [exn], the
    [RuntimeError] of a [raise] without an active exception, and the
    exceptions of any other class ([FileExistsError], [NotFittedError],
    [UnidentifiedImageError], ...), by the name of the class. *)
Inductive raised : Type :=
| Builtin (e : exn)
| RuntimeError (msg : string)
| OtherError (class msg : string).

Inductive outcome (A : Type) : Type :=
| Done (a : A)
| Failed (e : raised).
Arguments Done {A} a.
Arguments Failed {A} e.

Definition outcome_bind {A B : Type} (r : outcome A) (k : A -> outcome B) : outcome B :=
  match r with
  | Done a => k a
  | Failed e => Failed e
  end.

Definition of_result {A : Type} (r : result A) : outcome A :=
  match r with
  | Ok a => Done a
  | Raise e => Failed (Builtin e)
  end.

(** The entry points thread the trace as [io] does. (What they [print] is
    not part of it.) *)
Definition prog (A : Type) : Type := list event -> list event * outcome A.

Definition prog_ret {A : Type} (a : A) : prog A := fun tr => (tr, Done a).

Definition prog_bind {A B : Type} (m : prog A) (k : A -> prog B) : prog B :=
  fun tr =>
    match m tr with
    | (tr', Done a) => k a tr'
    | (tr', Failed e) => (tr', Failed e)
    end.

Definition prog_lift {A : Type} (r : outcome A) : prog A := fun tr => (tr, r).

Definition prog_raise {A : Type} (e : raised) : prog A := fun tr => (tr, Failed e).

Definition of_io {A : Type} (m : io A) : prog A :=
  fun tr => let '(tr', r) := m tr in (tr', of_result r).

(** [try: body except: pass] *)
Definition try_pass (body : prog unit) : prog unit :=
  fun tr => let '(tr', _) := body tr in (tr', Done tt).

Fixpoint prog_for_each {A : Type} (body : A -> prog unit) (xs : list A) : prog unit :=
  match xs with
  | [] => prog_ret tt
  | x :: xs' => prog_bind (body x) (fun _ => prog_for_each body xs')
  end.

Notation "'call' x <- m ; k" := (prog_bind m (fun x => k))
  (at level 10, x name, m at level 100, k at level 200) : py_scope.

(** scikit-learn, [plt.imread] and the reads of the file system; a read
    sees the calls made so far. *)
Module host.

Class api : Type := {
  (** an estimator of scikit-learn, or what is passed for one *)
  model : Type;
  (** [sklearn.cluster.KMeans(n_clusters, max_iter=20, n_init=3, tol=1e-3)] *)
  KMeans : Z -> model;
  (** [model.fit(X)], on the rows [X] of three channels, scaled to
      [[0, 1]] as [np.float32]: the model fitted, or what [fit] raises *)
  fit : model -> ndarray -> outcome model;
  (** [sklearn.utils.validation.check_is_fitted(model)] *)
  check_is_fitted : model -> outcome unit;
  (** [model.predict(X)], on rows scaled as for [fit]: one label per row *)
  predict : model -> ndarray -> outcome ndarray;
  (** [plt.imread(path)] *)
  imread : list event -> string -> outcome ndarray;
  (** [pathlib.Path(path).is_file()] *)
  is_file : list event -> string -> bool;
  (** [os.path.isdir(path)] *)
  isdir : list event -> string -> bool;
  (** [os.listdir(path)] *)
  listdir : list event -> string -> outcome (list string);
}.

End host.

Section Entry.

Context {CV : cv2.api} {OS : os.api} {HOST : host.api}.

(** [x == 'KMeans'] and [x == None] *)
Definition is_KMeans (x : pyobj) : bool :=
  match x with
  | PyStr s => String.eqb s "KMeans"
  | _ => false
  end.

Definition is_None (x : pyobj) : bool :=
  match x with
  | PyNone => true
  | _ => false
  end.

(** [if cond: raise e] *)
Definition raise_if (cond : bool) (e : exn) : prog unit :=
  if cond then prog_raise (Builtin e) else prog_ret tt.

(** [cluster_model_fit(patch_path, algorithm, n_clusters)]; the value
    returned is the model, or [None]. *)
Definition cluster_model_fit (patch_path algorithm n_clusters : pyobj)
  : prog (option host.model) :=
  call patch_path <- prog_lift (match patch_path with
                                | PyStr s => Done s
                                | _ => Failed (Builtin (TypeError
                                                 "patch_path must be a string"))
                                end);
  call _ <- (fun tr => raise_if (negb (host.is_file tr patch_path))
                         (ValueError "Please input a path to a file that exists") tr);
  call _ <- raise_if (negb (is_KMeans algorithm))
              (ValueError "Please enter a valid clustering algorithm");
  call _ <- raise_if (is_KMeans algorithm && is_None n_clusters)
              (ValueError "Please enter a number of clusters for KMeans clustering");
  call _ <- raise_if (negb (is_KMeans algorithm) && negb (is_None n_clusters))
              (ValueError "Can only specify number of clusters for KMeans clustering");
  call n_clusters <- prog_lift (match n_clusters with
                                | PyInt n =>
                                    if n >? 8 then
                                      Failed (Builtin (ValueError
                                        "Please enter an integer less than 9 for n_clusters"))
                                    else Done n
                                | _ =>
                                    Failed (Builtin (ValueError
                                      "Please enter an integer less than 9 for n_clusters"))
                                end);
  if is_KMeans algorithm then
    let model := host.KMeans n_clusters in
    call fit_patch <- (fun tr => prog_lift (host.imread tr patch_path) tr);
    call fit_patch_n <- prog_lift (of_result (np.reshape_rows3 fit_patch));
    call model <- prog_lift (host.fit model fit_patch_n);
    prog_ret (Some model)
  else
    prog_ret None.

(** [file[:-4]] *)
Definition drop_last4 (file : string) : string :=
  String.substring 0 (String.length file - 4) file.

(** [os.path.join(out_dir_path, name)] where [out_dir_path] may be [None]. *)
Definition join_out (out_dir_path : option string) (name : string) : outcome string :=
  match out_dir_path with
  | Some dir => Done (os.path_join dir name)
  | None =>
      Failed (Builtin (TypeError
                "expected str, bytes or os.PathLike object, not NoneType"))
  end.

(** [os.mkdir(path)], which fails on a path that exists. *)
Definition os_mkdir_call (path : string) : prog unit :=
  fun tr =>
    if os.path_exists tr path then
      (tr, Failed (OtherError "FileExistsError" path))
    else (tr ++ [os_mkdir path], Done tt).

(** The body of the loop of [segment_TILs], for the patch [file]. *)
Definition segment_patch (model : host.model) (in_dir_path : string)
    (out_dir_path : option string)
    (save_cluster_masks save_cluster_overlays save_csv : bool) (file : string)
  : prog unit :=
  call _ <- try_pass (call path <- prog_lift (join_out out_dir_path (drop_last4 file));
                      os_mkdir_call path);
  call _ <- prog_lift (host.check_is_fitted model);
  call pred_patch <- (fun tr => prog_lift (host.imread tr (os.path_join in_dir_path file)) tr);
  call pred_patch_n <- prog_lift (of_result (np.reshape_rows3 pred_patch));
  call labels <- prog_lift (host.predict model pred_patch_n);
  call _ <- (if (np.unique_count labels <=? 8)%nat then prog_ret tt
             else prog_raise (RuntimeError "No active exception to reraise"));
  call height <- prog_lift (of_result (list_getitem (np.shape pred_patch) 0 "tuple"));
  call width <- prog_lift (of_result (list_getitem (np.shape pred_patch) 1 "tuple"));
  call clusters <- prog_lift (of_result (np.reshape2 labels height width));
  call filepath <- prog_lift (join_out out_dir_path (drop_last4 file));
  of_io (image_postprocessing clusters pred_patch filepath
           save_cluster_overlays save_cluster_masks save_csv).

(** [segment_TILs(model, in_dir_path, out_dir_path, algorithm,
    save_cluster_masks, save_composite_cluster_mask, save_cluster_overlays,
    save_csv)]; [algorithm] and [save_composite_cluster_mask] are not
    used. *)
Definition segment_TILs (model : host.model) (in_dir_path : string)
    (out_dir_path : option string) (algorithm : pyobj)
    (save_cluster_masks save_composite_cluster_mask save_cluster_overlays
       save_csv : bool) : prog unit :=
  call _ <- (fun tr => raise_if (negb (host.isdir tr in_dir_path))
                         (ValueError "Please enter a valid input directory") tr);
  call _ <- (match out_dir_path with
             | Some out_dir_path =>
                 fun tr => raise_if (negb (host.isdir tr out_dir_path))
                             (ValueError "Please enter a valid output directory") tr
             | None => prog_ret tt
             end);
  call files <- (fun tr => prog_lift (host.listdir tr in_dir_path) tr);
  prog_for_each
    (segment_patch model in_dir_path out_dir_path
       save_cluster_masks save_cluster_overlays save_csv)
    files.

(** The reads of [segment_TILs] for one patch go well: the model is fitted,
    the file read at [path] is an [H x W] RGB image, and the model predicts
    one label for each of its pixels. *)
Definition patch_predicted (model : host.model) (tr : list event) (path : string)
    (pred_patch labels : ndarray) (H W : nat) : Prop :=
  host.check_is_fitted model = Done tt /\
  host.imread tr path = Done pred_patch /\
  np.has_shape [H; W; 3%nat] pred_patch = true /\ (0 < H)%nat /\ (0 < W)%nat /\
  exists pred_patch_n,
    np.reshape_rows3 pred_patch = Ok pred_patch_n /\
    host.predict model pred_patch_n = Done labels /\
    length (np.flatten labels) = (H * W)%nat.

End Entry.

(* ================================================================= *)
(** ** A small world to run the code in

    [Example.cv] measures polygons the way OpenCV does (shoelace area, sum
    of the side lengths) and encloses them in the circle around the centre
    of their bounding box, which is the minimal one for the axis-parallel
    rectangles used here; its [findContours] draws one 20 x 20 square for
    every foreground pixel. [Example.fs] is an empty file system with
    POSIX paths. They instantiate [cv2.api] and [os.api] in the examples. *)

Module Example.

Definition float_of_Z (z : Z) : float :=
  if z <? 0 then PrimFloat.opp (of_uint63 (Uint63.of_Z (- z)))
  else of_uint63 (Uint63.of_Z z).

Definition rotate1 {A : Type} (l : list A) : list A :=
  match l with
  | [] => []
  | x :: l' => l' ++ [x]
  end.

Definition cross (p q : Z * Z) : Z := fst p * snd q - snd p * fst q.

Definition contourArea (c : contour) : float :=
  let twice := Z.abs (foldr Z.add 0 (zip_with cross c (rotate1 c))) in
  (float_of_Z twice * 0.5)%float.

Definition dist2 (p q : Z * Z) : Z :=
  (fst q - fst p) * (fst q - fst p) + (snd q - snd p) * (snd q - snd p).

Definition arcLength (c : contour) (closed : bool) : float :=
  let sides := zip_with dist2 c (if closed then rotate1 c else tail c) in
  foldr (fun d acc => (PrimFloat.sqrt (float_of_Z d) + acc)%float) 0%float sides.

Definition minEnclosingCircle (c : contour) : (float * float) * float :=
  match c with
  | [] => ((0, 0), 0)%float
  | (x0, y0) :: _ =>
      let xs := fst <$> c in
      let ys := snd <$> c in
      let xmin := foldr Z.min x0 xs in
      let xmax := foldr Z.max x0 xs in
      let ymin := foldr Z.min y0 ys in
      let ymax := foldr Z.max y0 ys in
      let cx := (float_of_Z (xmin + xmax) * 0.5)%float in
      let cy := (float_of_Z (ymin + ymax) * 0.5)%float in
      let d2 := (xmax - xmin) * (xmax - xmin) + (ymax - ymin) * (ymax - ymin) in
      ((cx, cy), (PrimFloat.sqrt (float_of_Z d2) * 0.5)%float)
  end.

Definition square (x y : Z) : contour :=
  [(20 * x, 20 * y); (20 * x + 20, 20 * y); (20 * x + 20, 20 * y + 20);
   (20 * x, 20 * y + 20)].

Definition foreground_cell (y x : nat) (cell : ndarray) : list contour :=
  if np.all_zero cell then [] else [square (Z.of_nat x) (Z.of_nat y)].

Definition foreground_row (y : nat) (row : ndarray) : list contour :=
  match row with
  | np.Arr cells => concat (imap (foreground_cell y) cells)
  | np.Num _ => []
  end.

Definition findContours (image : ndarray) (mode : cv2.RetrievalModes)
    (method : cv2.ContourApproximationModes) : list contour :=
  match image with
  | np.Arr rows => concat (imap foreground_row rows)
  | np.Num _ => []
  end.

#[export] Instance cv : cv2.api := {|
  cv2.arcLength := arcLength;
  cv2.contourArea := contourArea;
  cv2.minEnclosingCircle := minEnclosingCircle;
  cv2.findContours := findContours;
|}.

#[export] Instance fs : os.api := {|
  os.path_join := fun a b => (a ++ "/" ++ b)%string;
  os.path_exists := fun tr path =>
    existsb (fun ev => match ev with
                       | os_mkdir made => String.eqb made path
                       | _ => false
                       end) tr;
|}.

(** [Example.lab]: the patches of three directories, and a model that
    labels a pixel by its red channel. *)
Definition patch (reds : list (list Z)) : ndarray :=
  np.Arr ((fun row => np.Arr ((fun v => np.array1 [v; 100; 200]) <$> row)) <$> reds).

Definition red (row : ndarray) : Z :=
  match row with
  | np.Arr (np.Num v :: _) => v
  | _ => 0
  end.

Definition predict (model : Z) (rows : ndarray) : outcome ndarray :=
  match rows with
  | np.Arr items => Done (np.array1 (red <$> items))
  | np.Num _ => Failed (Builtin (ValueError "Expected 2D array, got scalar array instead"))
  end.

Definition imread (tr : list event) (path : string) : outcome ndarray :=
  if String.eqb path "four/cells.jpg" then Done (patch [[0; 1]; [2; 3]])
  else if String.eqb path "five/cells.jpg" then Done (patch [[0; 1; 2]; [3; 4; 4]])
  else if String.eqb path "nine/cells.jpg" then Done (patch [[0; 1; 2]; [3; 4; 5]; [6; 7; 8]])
  else Failed (OtherError "FileNotFoundError" path).

Definition listdir (tr : list event) (path : string) : outcome (list string) :=
  if String.eqb path "four" || String.eqb path "five" || String.eqb path "nine"
  then Done ["cells.jpg"%string]
  else if String.eqb path "out" then Done []
  else Failed (OtherError "FileNotFoundError" path).

#[export] Instance lab : host.api := {|
  host.model := Z;
  host.KMeans := fun n_clusters => n_clusters;
  host.fit := fun model rows => Done model;
  host.check_is_fitted := fun model => Done tt;
  host.predict := predict;
  host.imread := imread;
  host.is_file := fun tr path => match imread tr path with Done _ => true | Failed _ => false end;
  host.isdir := fun tr path => match listdir tr path with Done _ => true | Failed _ => false end;
  host.listdir := listdir;
|}.

End Example.

(* ================================================================= *)
(** * Properties *)

(** ** Binary64 facts *)

Module F64.

Local Open Scope Z_scope.

Lemma digits2_pos_bounds (p : positive) :
  2 ^ (Zpos (digits2_pos p) - 1) <= Zpos p < 2 ^ Zpos (digits2_pos p).
Proof.
  induction p as [p IH | p IH |]; cbn [digits2_pos].
  - rewrite Pos2Z.inj_succ.
    replace (Z.succ (Zpos (digits2_pos p)) - 1) with (Z.succ (Zpos (digits2_pos p) - 1)) by lia.
    rewrite !Z.pow_succ_r by lia. lia.
  - rewrite Pos2Z.inj_succ.
    replace (Z.succ (Zpos (digits2_pos p)) - 1) with (Z.succ (Zpos (digits2_pos p) - 1)) by lia.
    rewrite !Z.pow_succ_r by lia. lia.
  - cbn. lia.
Qed.

Lemma shr_1_m (mrs : shr_record) :
  0 <= shr_m mrs -> shr_m (shr_1 mrs) = shr_m mrs / 2.
Proof.
  destruct mrs as [m r s]; cbn [shr_m]; intros Hm.
  destruct m as [| p | p]; [reflexivity | | lia].
  destruct p as [p | p |]; cbn [shr_1 shr_m].
  - rewrite Pos2Z.inj_xI. apply Z.div_unique with 1; lia.
  - rewrite Pos2Z.inj_xO. apply Z.div_unique with 0; lia.
  - reflexivity.
Qed.

Lemma iter_shr_1_m (n : positive) :
  forall mrs, 0 <= shr_m mrs ->
    shr_m (SpecFloat.iter_pos shr_1 n mrs) = shr_m mrs / 2 ^ Zpos n.
Proof.
  induction n as [n IH | n IH |]; intros mrs Hm; cbn [SpecFloat.iter_pos].
  - assert (H1 : 0 <= shr_m (shr_1 mrs)).
    { rewrite shr_1_m by assumption. apply Z.div_pos; lia. }
    assert (H2 : 0 <= shr_m (SpecFloat.iter_pos shr_1 n (shr_1 mrs))).
    { rewrite IH by assumption. apply Z.div_pos; [assumption | apply Z.pow_pos_nonneg; lia]. }
    rewrite IH, IH, shr_1_m by assumption.
    rewrite !Z.div_div by (try apply Z.pow_pos_nonneg; lia).
    f_equal. change 2 with (2 ^ 1) at 1.
    rewrite <- !Z.pow_add_r by lia. f_equal. lia.
  - assert (H2 : 0 <= shr_m (SpecFloat.iter_pos shr_1 n mrs)).
    { rewrite IH by assumption. apply Z.div_pos; [assumption | apply Z.pow_pos_nonneg; lia]. }
    rewrite IH, IH by assumption.
    rewrite !Z.div_div by (try apply Z.pow_pos_nonneg; lia).
    f_equal. rewrite <- !Z.pow_add_r by lia. f_equal. lia.
  - rewrite shr_1_m by assumption. reflexivity.
Qed.

Lemma shr_record_of_loc_m (m : Z) (l : location) :
  shr_m (shr_record_of_loc m l) = m.
Proof. destruct l as [| []]; reflexivity. Qed.

Lemma round_nearest_even_ge (m : Z) (l : location) :
  m <= round_nearest_even m l.
Proof.
  destruct l as [| []]; cbn [round_nearest_even]; try lia.
  destruct (Z.even m); lia.
Qed.

(** Shifting a mantissa down to its canonical exponent keeps it positive
    as long as the number is not below half the smallest subnormal. *)
Lemma shr_fexp_pos (m e : Z) (l : location) :
  0 < m -> -1073 <= Zdigits2 m + e ->
  0 < shr_m (fst (shr_fexp prec emax m e l)) /\
  -1074 <= snd (shr_fexp prec emax m e l).
Proof.
  intros Hm Hd. unfold shr_fexp, shr.
  destruct m as [| p | p]; try lia. cbn [Zdigits2] in *.
  pose proof (digits2_pos_bounds p) as [Hlo _].
  set (d := Zpos (digits2_pos p)) in *.
  assert (Hf : fexp prec emax (d + e) = Z.max (d + e - 53) (-1074)) by reflexivity.
  destruct (fexp prec emax (d + e) - e) as [| q | q] eqn:Hn; cbn [fst snd];
    rewrite ?shr_record_of_loc_m; try lia.
  rewrite iter_shr_1_m by (rewrite shr_record_of_loc_m; lia).
  rewrite shr_record_of_loc_m. split; [| lia].
  apply Z.div_str_pos. split; [apply Z.pow_pos_nonneg; lia |].
  transitivity (2 ^ (d - 1)); [| assumption].
  apply Z.pow_le_mono_r; lia.
Qed.

Lemma binary_round_aux_not_zero (s s' : bool) (m e : Z) (l : location) :
  0 < m -> -1073 <= Zdigits2 m + e ->
  binary_round_aux prec emax s m e l <> S754_zero s'.
Proof.
  intros Hm Hd. unfold binary_round_aux.
  pose proof (shr_fexp_pos m e l Hm Hd) as [H1 He1].
  destruct (shr_fexp prec emax m e l) as [mrs1 e1]; cbn [fst snd] in *.
  pose proof (round_nearest_even_ge (shr_m mrs1) (loc_of_shr_record mrs1)) as Hr.
  set (m2 := round_nearest_even (shr_m mrs1) (loc_of_shr_record mrs1)) in *.
  assert (Hd2 : -1073 <= Zdigits2 m2 + e1).
  { destruct m2 as [| p | p]; try lia. cbn [Zdigits2]. lia. }
  pose proof (shr_fexp_pos m2 e1 loc_Exact ltac:(lia) Hd2) as [H3 _].
  destruct (shr_fexp prec emax m2 e1 loc_Exact) as [mrs3 e3]; cbn [fst] in *.
  destruct (shr_m mrs3) as [| p | p]; try lia.
  destruct (e3 <=? emax - prec); discriminate.
Qed.

Lemma valid_binary_exponent (s : bool) (m : positive) (e : Z) :
  valid_binary (S754_finite s m e) = true -> -1074 <= e.
Proof.
  cbn [SpecFloat.valid_binary]. unfold bounded, canonical_mantissa.
  intros H. apply andb_prop in H as [H _]. apply Z.eqb_eq in H.
  revert H. change (fexp prec emax ?x) with (Z.max (x - 53) (-1074)). lia.
Qed.

(** A product with a normal number of exponent at least [-49] vanishes
    only when the other factor does. *)
Lemma SF64mul_normal_not_zero (mc : positive) (ec : Z) (y : spec_float) (s' : bool) :
  2 ^ 52 <= Zpos mc -> -49 <= ec ->
  valid_binary y = true ->
  (forall s, y <> S754_zero s) ->
  SF64mul (S754_finite false mc ec) y <> S754_zero s'.
Proof.
  intros Hmc Hec Hv Hnz. destruct y as [s | s | | s m e]; cbn.
  - exfalso. exact (Hnz s eq_refl).
  - discriminate.
  - discriminate.
  - apply valid_binary_exponent in Hv.
    apply binary_round_aux_not_zero; [lia |].
    cbn [Zdigits2].
    pose proof (digits2_pos_bounds (mc * m)) as [_ Hhi].
    assert (Hp : 2 ^ 52 < 2 ^ Zpos (digits2_pos (mc * m))).
    { eapply Z.le_lt_trans; [| exact Hhi]. rewrite Pos2Z.inj_mul. nia. }
    apply Z.pow_lt_mono_r_iff in Hp; lia.
Qed.

Lemma SFeqb_zero_false (x : spec_float) :
  SFeqb x (S754_zero false) = false <-> forall s, x <> S754_zero s.
Proof.
  destruct x as [s | s | | s m e]; cbn.
  - split; [discriminate | intros H; exfalso; exact (H s eq_refl)].
  - destruct s; split; intros; discriminate || reflexivity.
  - split; intros; discriminate || reflexivity.
  - destruct s; split; intros; discriminate || reflexivity.
Qed.

Lemma Prim2SF_zero : Prim2SF 0 = S754_zero false.
Proof. reflexivity. Qed.

Lemma eqb_zero_false (x : float) :
  (x =? 0)%float = false <-> forall s, Prim2SF x <> S754_zero s.
Proof. rewrite FloatAxioms.eqb_spec, Prim2SF_zero. apply SFeqb_zero_false. Qed.

(** [4 * np.pi * x] is zero only when [x] is. *)
Lemma four_pi_mul_ne_zero (x : float) :
  (x =? 0)%float = false -> (4 * np.pi * x =? 0)%float = false.
Proof.
  intros Hx. apply eqb_zero_false. intros s.
  pose proof (proj1 (eqb_zero_false x) Hx) as Hx'.
  rewrite FloatAxioms.mul_spec.
  change (Prim2SF (4 * np.pi)) with (S754_finite false 7074237752028440 (-49)).
  apply SF64mul_normal_not_zero; [lia | lia | apply Prim2SF_valid | exact Hx'].
Qed.

(** A float above [200] is not zero. *)
Lemma gt_200_ne_zero (x : float) :
  (200 <? x)%float = true -> (x =? 0)%float = false.
Proof.
  rewrite FloatAxioms.ltb_spec, FloatAxioms.eqb_spec.
  change (Prim2SF 200) with (S754_finite false 7036874417766400 (-45)).
  rewrite Prim2SF_zero.
  destruct (Prim2SF x) as [s | s | | s m e]; cbn; try discriminate; try reflexivity.
  - destruct s; reflexivity.
  - destruct s; reflexivity.
Qed.

Lemma SFeqb_finite_true (x : spec_float) (s : bool) (m : positive) (e : Z) :
  SFeqb x (S754_finite s m e) = true -> x = S754_finite s m e.
Proof.
  unfold SFeqb. destruct x as [s1 | s1 | | s1 m1 e1]; cbn.
  - destruct s; discriminate.
  - destruct s1; discriminate.
  - discriminate.
  - destruct s1, s; try discriminate;
      (destruct (e1 ?= e) eqn:He; try discriminate);
      (destruct (Pos.compare_cont Eq m1 m) eqn:Hm; try discriminate);
      intros _; apply Z.compare_eq in He; apply Pos.compare_eq in Hm;
      congruence.
Qed.

(** [x == y] for a finite nonzero [y] holds only of [y] itself. *)
Lemma eqb_finite_true (x y : float) (s : bool) (m : positive) (e : Z) :
  Prim2SF y = S754_finite s m e -> (x =? y)%float = true -> x = y.
Proof.
  intros Hy H. rewrite FloatAxioms.eqb_spec, Hy in H.
  apply SFeqb_finite_true in H. apply Prim2SF_inj. congruence.
Qed.

End F64.

(* ================================================================= *)
(** ** [filter_boolean] *)

Section FilterBoolean.

Context {CV : cv2.api}.

Local Open Scope float_scope.

Lemma filter_boolean_unfold (c : contour) :
  filter_boolean c =
    if float_ne (cv2.contourArea c) 0 && float_ne (cv2.arcLength c true) 0 then
      if (4 * np.pi * cv2.contourArea c =? 0) then
        Raise (ZeroDivisionError "float division by zero")
      else Ok ((200 <? cv2.contourArea c) && ((cv2.contourArea c <? 2000)
                && ((roundness c <? 3) && true)))
    else Ok false.
Proof.
  unfold filter_boolean, float_truediv, roundness.
  destruct (float_ne _ _ && float_ne _ _); [| reflexivity].
  destruct (_ =? 0); reflexivity.
Qed.

(** [filter_boolean] never raises: its guard keeps the divisor away
    from zero. *)
Lemma filter_boolean_total (c : contour) :
  exists b, filter_boolean c = Ok b.
Proof.
  rewrite filter_boolean_unfold. unfold float_ne.
  destruct (cv2.contourArea c =? 0) eqn:Ha; cbn [negb andb]; [eauto |].
  destruct (cv2.arcLength c true =? 0); cbn [negb]; [eauto |].
  rewrite (F64.four_pi_mul_ne_zero _ Ha). eauto.
Qed.

Lemma filter_boolean_true (c : contour) :
  filter_boolean c = Ok true ->
  (cv2.contourArea c =? 0) = false /\ (cv2.arcLength c true =? 0) = false /\
  (200 <? cv2.contourArea c) = true /\ (cv2.contourArea c <? 2000) = true /\
  (roundness c <? 3) = true.
Proof.
  rewrite filter_boolean_unfold. unfold float_ne.
  destruct (cv2.contourArea c =? 0); cbn [negb andb]; [discriminate |].
  destruct (cv2.arcLength c true =? 0); cbn [negb]; [discriminate |].
  destruct (_ =? 0); [discriminate |].
  intros [= H]. repeat (apply andb_prop in H as [? H]). auto.
Qed.

(** C1. [filter_boolean] accepts a contour exactly when its area lies
    strictly between 200 and 2000 and its roundness
    [perimeter**2 / (4 * np.pi * area)] is below 3.0; it returns [False],
    raising nothing, when the area or the perimeter is zero; and a contour
    of area exactly 200 or exactly 2000 is rejected. A closed curve of
    length zero encloses no area, which is what the first hypothesis says
    of the two OpenCV measurements of [c]. *)
Theorem filter_boolean_accept_iff (c : contour) :
  ((cv2.arcLength c true =? 0) = true -> (cv2.contourArea c =? 0) = true) ->
  (filter_boolean c = Ok true <->
     (200 <? cv2.contourArea c) = true /\ (cv2.contourArea c <? 2000) = true /\
     (roundness c <? 3.0) = true) /\
  ((cv2.contourArea c =? 0) = true \/ (cv2.arcLength c true =? 0) = true ->
     filter_boolean c = Ok false) /\
  ((cv2.contourArea c =? 200) = true \/ (cv2.contourArea c =? 2000) = true ->
     filter_boolean c = Ok false).
Proof.
  intros Hdeg. split; [split | split].
  - intros H. apply filter_boolean_true in H. tauto.
  - intros (Hlo & Hhi & Hr).
    pose proof (F64.gt_200_ne_zero _ Hlo) as Ha.
    assert (Hp : (cv2.arcLength c true =? 0) = false).
    { destruct (cv2.arcLength c true =? 0); [| reflexivity].
      specialize (Hdeg eq_refl). congruence. }
    rewrite filter_boolean_unfold. unfold float_ne.
    rewrite Ha, Hp, (F64.four_pi_mul_ne_zero _ Ha), Hlo, Hhi, Hr. reflexivity.
  - intros H. rewrite filter_boolean_unfold. unfold float_ne.
    destruct H as [-> | ->]; [reflexivity |].
    destruct (cv2.contourArea c =? 0); reflexivity.
  - intros H. rewrite filter_boolean_unfold. unfold float_ne.
    destruct H as [H | H];
      [apply (F64.eqb_finite_true _ 200 false 7036874417766400 (-45) eq_refl) in H
      |apply (F64.eqb_finite_true _ 2000 false 8796093022208000 (-42) eq_refl) in H];
      rewrite H; destruct (cv2.arcLength c true =? 0); reflexivity.
Qed.

End FilterBoolean.

(** The 20 x 20 square of the example world: area 400, perimeter 80,
    roundness about 1.27; it is accepted. *)
Lemma filter_boolean_accept_iff_witness :
  let CV := Example.cv in
  let c := Example.square 0 0 in
  ((cv2.arcLength c true =? 0)%float = true -> (cv2.contourArea c =? 0)%float = true) /\
  (filter_boolean c = Ok true <->
     (200 <? cv2.contourArea c)%float = true /\ (cv2.contourArea c <? 2000)%float = true /\
     (roundness c <? 3.0)%float = true) /\
  filter_boolean c = Ok true.
Proof.
  intros CV c.
  assert (Hdeg : (cv2.arcLength c true =? 0)%float = true ->
                 (cv2.contourArea c =? 0)%float = true) by (vm_compute; discriminate).
  split; [exact Hdeg |].
  split; [exact (proj1 (filter_boolean_accept_iff c Hdeg)) |].
  vm_compute. reflexivity.
Defined.

(* ================================================================= *)
(** ** Loops over [enumerate] *)

Lemma enumerate_cons {A : Type} (n : nat) (x : A) (xs : list A) :
  zip (seq n (length (x :: xs))) (x :: xs) = (n, x) :: zip (seq (S n) (length xs)) xs.
Proof. reflexivity. Qed.

Lemma list_getitem_Some {A : Type} (xs : list A) (i : nat) (x : A) (what : string) :
  xs !! i = Some x -> list_getitem xs i what = Ok x.
Proof. unfold list_getitem. intros ->. reflexivity. Qed.

(* ================================================================= *)
(** ** [contour_generator] *)

Section ContourGenerator.

Context {CV : cv2.api}.

(** The loop of [contour_generator] keeps the contours [filter_boolean]
    accepts, in order. *)
Lemma contour_generator_loop (contours : list contour) :
  forall (suf pre kept : list contour),
    contours = pre ++ suf ->
    exists kept',
      for_each
        (fun contours_mod (ele : nat * contour) =>
           do c <- list_getitem contours (fst ele) "list";
           do keep <- filter_boolean c;
           if keep then
             do c <- list_getitem contours (fst ele) "list";
             Ok (contours_mod ++ [c])
           else Ok contours_mod)
        (zip (seq (length pre) (length suf)) suf) kept = Ok (kept ++ kept') /\
      Forall (fun c => filter_boolean c = Ok true) kept' /\
      (forall c, c ∈ kept' <-> c ∈ suf /\ filter_boolean c = Ok true).
Proof.
  induction suf as [| c suf IH]; intros pre kept Hc.
  - exists []. cbn. rewrite app_nil_r. split; [reflexivity |].
    split; [constructor |]. intros c. rewrite !elem_of_nil. tauto.
  - rewrite enumerate_cons. cbn [for_each fst].
    assert (Hget : list_getitem contours (length pre) "list" = Ok c).
    { apply list_getitem_Some. subst contours. by apply list_lookup_middle. }
    destruct (filter_boolean_total c) as [b Hb].
    specialize (IH (pre ++ [c])).
    rewrite length_app, Nat.add_1_r in IH.
    destruct b.
    + destruct (IH (kept ++ [c])) as (kept' & Hrun & Hall & Hin).
      { rewrite <- app_assoc. exact Hc. }
      exists (c :: kept'). rewrite Hget. cbn [bind]. rewrite Hb. cbn [bind].
      rewrite Hrun, <- app_assoc.
      split; [reflexivity |]. split; [by constructor |].
      intros c'. rewrite !elem_of_cons, Hin. split.
      * intros [-> | [? ?]]; auto.
      * intros [[-> | ?] ?]; auto.
    + destruct (IH kept) as (kept' & Hrun & Hall & Hin).
      { rewrite <- app_assoc. exact Hc. }
      exists kept'. rewrite Hget. cbn [bind]. rewrite Hb. cbn [bind].
      split; [exact Hrun |]. split; [exact Hall |].
      intros c'. rewrite elem_of_cons, Hin. split.
      * intros [? ?]; auto.
      * intros [[-> | ?] ?]; [congruence | auto].
Qed.

(** [contour_generator] always returns: the accepted contours among those
    OpenCV found, and how many they are. *)
Lemma contour_generator_returns (img_mask : ndarray) :
  exists kept,
    contour_generator img_mask = Ok (kept, length kept) /\
    Forall (fun c => filter_boolean c = Ok true) kept /\
    (forall c, c ∈ kept <->
       c ∈ cv2.findContours (np.astype_int32 img_mask)
             cv2.RETR_FLOODFILL cv2.CHAIN_APPROX_NONE /\
       filter_boolean c = Ok true).
Proof.
  unfold contour_generator, enumerate.
  set (contours := cv2.findContours _ _ _).
  destruct (contour_generator_loop contours contours [] [] eq_refl)
    as (kept & Hrun & Hall & Hin).
  cbn [length] in Hrun. rewrite Hrun. cbn. eauto.
Qed.

(** C6. On an all-zero mask [contour_generator] returns no contour and the
    count 0. What OpenCV finds is outside the repository: the hypothesis is
    that [cv2.findContours] finds no contour in an image without
    foreground. *)
Theorem contour_generator_all_zero (img_mask : ndarray) :
  (forall image, np.all_zero image = true ->
     cv2.findContours image cv2.RETR_FLOODFILL cv2.CHAIN_APPROX_NONE = []) ->
  np.all_zero img_mask = true ->
  contour_generator img_mask = Ok ([], 0%nat).
Proof.
  intros Hcv Hzero. unfold contour_generator.
  rewrite (Hcv (np.astype_int32 img_mask) Hzero). reflexivity.
Qed.

End ContourGenerator.

(** The example world keeps the hypothesis of [contour_generator_all_zero]. *)
Lemma all_zero_items (items : list ndarray) :
  np.all_zero (np.Arr items) = true ->
  forall x, x ∈ items -> np.all_zero x = true.
Proof.
  unfold np.all_zero. cbn [np.flatten].
  induction items as [| y items IH]; intros Hz x Hx.
  - by apply elem_of_nil in Hx.
  - rewrite fmap_cons in Hz. cbn [concat] in Hz.
    rewrite forallb_app in Hz. apply andb_prop in Hz as [Hy Hrest].
    apply elem_of_cons in Hx as [-> | Hx]; [exact Hy | by apply IH].
Qed.

Lemma concat_imap_nil {A B : Type} (l : list A) :
  forall f : nat -> A -> list B,
    (forall i x, x ∈ l -> f i x = []) -> concat (imap f l) = [].
Proof.
  induction l as [| x l IH]; intros f Hf; [reflexivity |].
  rewrite imap_cons. cbn [concat].
  rewrite (Hf 0%nat x) by (apply elem_of_cons; by left).
  apply IH. intros i y Hy. apply Hf. apply elem_of_cons; by right.
Qed.

Lemma Example_findContours_all_zero (image : ndarray) :
  np.all_zero image = true ->
  cv2.findContours (api := Example.cv) image cv2.RETR_FLOODFILL cv2.CHAIN_APPROX_NONE = [].
Proof.
  intros Hz. cbn. destruct image as [v | rows]; [reflexivity |].
  cbn [Example.findContours]. apply concat_imap_nil. intros y row Hrow.
  pose proof (all_zero_items rows Hz row Hrow) as Hr.
  destruct row as [v | cells]; [reflexivity |].
  cbn [Example.foreground_row]. apply concat_imap_nil. intros x cell Hcell.
  unfold Example.foreground_cell.
  by rewrite (all_zero_items cells Hr cell Hcell).
Qed.

(** An empty 2 x 3 mask in the example world. *)
Lemma contour_generator_all_zero_witness :
  let CV := Example.cv in
  let img_mask := np.array2 [[0; 0; 0]; [0; 0; 0]] in
  np.all_zero img_mask = true /\ contour_generator img_mask = Ok ([], 0%nat).
Proof.
  intros CV img_mask. split; [reflexivity |].
  apply (contour_generator_all_zero img_mask Example_findContours_all_zero).
  reflexivity.
Defined.

(* ================================================================= *)
(** ** [csv_results_compiler] *)

Section CsvResultsCompiler.

Context {CV : cv2.api} {OS : os.api}.

Lemma contour_metrics_ok (c : contour) :
  (4 * np.pi * cv2.contourArea c =? 0)%float = false ->
  contour_metrics c = Ok (metrics_row c).
Proof.
  intros Hd. unfold contour_metrics, metrics_row, bounding_circle_area, roundness.
  destruct (cv2.minEnclosingCircle c) as [centre radius].
  unfold float_truediv. rewrite Hd. reflexivity.
Qed.

(** An accepted contour has a nonzero divisor [4 * np.pi * area]. *)
Lemma accepted_divisor (c : contour) :
  filter_boolean c = Ok true ->
  (4 * np.pi * cv2.contourArea c =? 0)%float = false.
Proof.
  intros H. apply filter_boolean_true in H as (_ & _ & Hlo & _).
  apply F64.four_pi_mul_ne_zero, F64.gt_200_ne_zero, Hlo.
Qed.

(** The loop fills the rows from the top: after the contours [pre], the
    rows [done] of [pre] are followed by the zero rows still to fill. *)
Lemma store_metrics_loop (cont_list : list contour) :
  forall (suf pre : list contour) (done : list (list float)),
    cont_list = pre ++ suf ->
    length done = length pre ->
    Forall (fun c => (4 * np.pi * cv2.contourArea c =? 0)%float = false) suf ->
    for_each (store_metrics cont_list) (zip (seq (length pre) (length suf)) suf)
      (done ++ replicate (length suf) [0; 0; 0; 0]%float)
    = Ok (done ++ (metrics_row <$> suf)).
Proof.
  induction suf as [| c suf IH]; intros pre done Hc Hlen Hall.
  - reflexivity.
  - rewrite enumerate_cons. cbn [for_each length replicate].
    apply Forall_cons in Hall as [Hd Hall].
    unfold store_metrics at 1. cbn [fst].
    rewrite (list_getitem_Some cont_list (length pre) c)
      by (subst cont_list; by apply list_lookup_middle).
    cbn [bind]. rewrite (contour_metrics_ok c Hd). cbn [bind].
    unfold setrow.
    rewrite (list_getitem_Some _ (length pre) [0; 0; 0; 0]%float)
      by (by apply list_lookup_middle).
    cbn [bind].
    rewrite <- Hlen, <- (Nat.add_0_r (length done)), insert_app_r. cbn [insert list_insert].
    specialize (IH (pre ++ [c]) (done ++ [metrics_row c])).
    rewrite !length_app in IH. cbn [length] in IH.
    rewrite !Nat.add_1_r, <- !app_assoc in IH. cbn [app] in IH.
    rewrite Nat.add_0_r, Hlen, fmap_cons.
    apply IH; [exact Hc | lia | exact Hall].
Qed.

Lemma compile_table_ok (cont_list : list contour) :
  Forall (fun c => (4 * np.pi * cv2.contourArea c =? 0)%float = false) cont_list ->
  compile_table cont_list =
    Ok {| values := metrics_row <$> cont_list;
          columns := ["Area"; "Perimeter"; "Roundness"; "Bounding Circle Area"]%string |}.
Proof.
  intros Hall. unfold compile_table, enumerate.
  pose proof (store_metrics_loop cont_list cont_list [] [] eq_refl eq_refl Hall) as H.
  cbn [app length] in H. rewrite H. reflexivity.
Qed.

(** C4. For a list of accepted contours, [csv_results_compiler] writes one
    table: its columns are named Area, Perimeter, Roundness and Bounding
    Circle Area, and it has one row per contour, in the order of the list,
    holding the contour's area, perimeter, roundness
    [perimeter**2 / (4 * np.pi * area)] and [pi * r**2] for the radius [r]
    of its minimal enclosing circle. For the empty list the table has the
    four columns and no row. *)
Theorem csv_results_compiler_table (cont_list : list contour) (filepath : string)
    (tr : list event) :
  Forall (fun c => filter_boolean c = Ok true) cont_list ->
  exists df,
    csv_results_compiler cont_list filepath tr =
      (tr ++ [to_csv df (os.path_join filepath "Compiled_Data.csv") false], Ok tt) /\
    columns df = ["Area"; "Perimeter"; "Roundness"; "Bounding Circle Area"]%string /\
    values df = metrics_row <$> cont_list /\
    length (values df) = length cont_list /\
    (forall i c, cont_list !! i = Some c ->
       values df !! i =
         Some [cv2.contourArea c; cv2.arcLength c true;
               (float_pow2 (cv2.arcLength c true) / (4 * np.pi * cv2.contourArea c))%float;
               (np.pi * float_pow2 (snd (cv2.minEnclosingCircle c)))%float]) /\
    (cont_list = [] -> values df = []).
Proof.
  intros Hacc.
  assert (Hall : Forall (fun c => (4 * np.pi * cv2.contourArea c =? 0)%float = false)
                   cont_list).
  { eapply Forall_impl; [exact Hacc |]. intros c. apply accepted_divisor. }
  exists {| values := metrics_row <$> cont_list;
            columns := ["Area"; "Perimeter"; "Roundness"; "Bounding Circle Area"]%string |}.
  unfold csv_results_compiler, io_bind, io_lift, emit.
  rewrite (compile_table_ok cont_list Hall). cbn [columns values].
  split; [reflexivity |]. split; [reflexivity |]. split; [reflexivity |].
  split; [apply length_fmap |]. split.
  - intros i c Hi. rewrite list_lookup_fmap, Hi. reflexivity.
  - intros ->. reflexivity.
Qed.

End CsvResultsCompiler.

(** Two squares of the example world, both accepted. *)
Lemma csv_results_compiler_table_witness :
  let CV := Example.cv in
  let OS := Example.fs in
  let cont_list := [Example.square 0 0; Example.square 3 1] in
  Forall (fun c => filter_boolean c = Ok true) cont_list /\
  exists df,
    csv_results_compiler cont_list "out" [] = ([to_csv df "out/Compiled_Data.csv" false], Ok tt) /\
    columns df = ["Area"; "Perimeter"; "Roundness"; "Bounding Circle Area"]%string /\
    length (values df) = 2%nat.
Proof.
  intros CV OS cont_list.
  assert (Hacc : Forall (fun c => filter_boolean c = Ok true) cont_list).
  { repeat constructor; vm_compute; reflexivity. }
  split; [exact Hacc |].
  destruct (csv_results_compiler_table cont_list "out" [] Hacc)
    as (df & Hrun & Hcols & _ & Hlen & _).
  exists df. split; [exact Hrun |]. split; [exact Hcols | exact Hlen].
Defined.

(* ================================================================= *)
(** ** [immune_cluster_analyzer] *)

Lemma first_max_snoc (counts : list nat) (idx n : nat) :
  first_max counts idx ->
  exists best,
    (counts ++ [n]) !! idx = Some best /\
    first_max (counts ++ [n]) (if (best <? n)%nat then length counts else idx).
Proof.
  intros [[-> ->] | (v & Hv & Hmax & Hfirst)].
  - exists n. split; [reflexivity |]. rewrite Nat.ltb_irrefl.
    right. exists n. split; [reflexivity |]. split.
    + intros [| j] w; cbn; [intros [= ->]; lia | discriminate].
    + intros j w Hj. lia.
  - exists v. split; [by apply lookup_app_l_Some |].
    destruct (Nat.ltb_spec v n) as [Hlt | Hge].
    + right. exists n. split; [by apply list_lookup_middle |]. split.
      * intros j w Hj. apply lookup_snoc_Some in Hj as [[_ Hj] | [_ ->]]; [| lia].
        specialize (Hmax j w Hj). lia.
      * intros j w Hj Hw. rewrite lookup_app_l in Hw by exact Hj.
        specialize (Hmax j w Hw). lia.
    + right. exists v. split; [by apply lookup_app_l_Some |]. split.
      * intros j w Hj. apply lookup_snoc_Some in Hj as [[_ Hj] | [_ ->]]; [| lia].
        exact (Hmax j w Hj).
      * intros j w Hj Hw. apply lookup_lt_Some in Hv.
        rewrite lookup_app_l in Hw by lia. exact (Hfirst j w Hj Hw).
Qed.

Section ImmuneClusterAnalyzer.

Context {CV : cv2.api} {OS : os.api}.

(** One pass of the loop: after the masks [pre], [contour_list] holds what
    [contour_generator] returned for each of them, [count_list] their
    counts, and [count_index] the first greatest count. *)
Lemma scan_loop (masks : list ndarray) :
  forall (suf pre : list ndarray) (contour_list : list (list contour)) (idx : nat),
    masks = pre ++ suf ->
    length contour_list = length pre ->
    first_max (length <$> contour_list) idx ->
    exists found idx',
      for_each (scan_step masks) (zip (seq (length pre) (length suf)) suf)
        (contour_list, length <$> contour_list, idx)
      = Ok (contour_list ++ found, length <$> (contour_list ++ found), idx') /\
      Forall2 (fun mask kept => contour_generator mask = Ok (kept, length kept)) suf found /\
      first_max (length <$> (contour_list ++ found)) idx'.
Proof.
  induction suf as [| mask suf IH]; intros pre contour_list idx Hm Hlen Hbest.
  - exists [], idx. rewrite app_nil_r. split; [reflexivity |]. split; [constructor | exact Hbest].
  - destruct (contour_generator_returns mask) as (kept & Hgen & _).
    destruct (first_max_snoc _ _ (length kept) Hbest) as (best & Hlook & Hbest').
    set (idx1 := if (best <? length kept)%nat then length pre else idx).
    specialize (IH (pre ++ [mask]) (contour_list ++ [kept]) idx1).
    rewrite !length_app in IH. cbn [length] in IH. rewrite !Nat.add_1_r in IH.
    destruct IH as (found & idx' & Hrun & Hall & Hfin).
    { rewrite <- app_assoc. exact Hm. }
    { lia. }
    { rewrite fmap_app. cbn [fmap list_fmap]. subst idx1.
      rewrite length_fmap, Hlen in Hbest'. exact Hbest'. }
    exists (kept :: found), idx'.
    rewrite enumerate_cons. cbn [for_each]. unfold scan_step at 1. cbn [fst].
    rewrite (list_getitem_Some masks (length pre) mask)
      by (subst masks; by apply list_lookup_middle).
    cbn [bind]. rewrite Hgen. cbn [bind].
    rewrite (list_getitem_Some _ idx best) by exact Hlook. cbn [bind].
    rewrite <- app_assoc in Hrun, Hfin. cbn [app] in Hrun, Hfin.
    rewrite fmap_app in Hrun. cbn [fmap list_fmap] in Hrun.
    split; [| split; [by constructor | exact Hfin]].
    subst idx1. destruct (best <? length kept)%nat; cbn [bind]; exact Hrun.
Qed.

(** The loop of [immune_cluster_analyzer] always runs to its end. *)
Lemma scan_clusters_returns (masks : list ndarray) :
  exists contour_list idx,
    scan_clusters masks = Ok (contour_list, length <$> contour_list, idx) /\
    Forall2 (fun mask kept => contour_generator mask = Ok (kept, length kept))
      masks contour_list /\
    first_max (length <$> contour_list) idx.
Proof.
  destruct (scan_loop masks masks [] [] 0%nat eq_refl eq_refl) as (found & idx & H).
  { left. split; reflexivity. }
  exists found, idx. exact H.
Qed.

(** C3. [immune_cluster_analyzer] scans the masks in index order from the
    best index 0 and picks the first mask whose number of accepted contours
    is the greatest: no mask has more, every earlier mask has strictly
    fewer, so of two masks with equal counts the later one is never
    picked. *)
Theorem immune_cluster_analyzer_first_max (masks : list ndarray) :
  exists contour_list idx,
    scan_clusters masks = Ok (contour_list, length <$> contour_list, idx) /\
    Forall2 (fun mask kept => contour_generator mask = Ok (kept, length kept))
      masks contour_list /\
    (masks = [] -> idx = 0%nat) /\
    (masks <> [] ->
     exists winner,
       contour_list !! idx = Some winner /\
       (forall j kept, contour_list !! j = Some kept ->
          (length kept <= length winner)%nat) /\
       (forall j kept, (j < idx)%nat -> contour_list !! j = Some kept ->
          (length kept < length winner)%nat) /\
       (forall i j a b, (i < j)%nat -> contour_list !! i = Some a ->
          contour_list !! j = Some b -> length a = length b -> idx <> j) /\
       (forall filepath tr,
          immune_cluster_analyzer masks filepath tr =
            csv_results_compiler winner filepath tr)).
Proof.
  destruct (scan_clusters_returns masks) as (contour_list & idx & Hrun & Hall & Hbest).
  exists contour_list, idx. split; [exact Hrun |]. split; [exact Hall |].
  pose proof (Forall2_length _ _ _ Hall) as Hlen.
  destruct Hbest as [[Hnil ->] | (v & Hv & Hmax & Hfirst)].
  - apply fmap_nil_inv in Hnil. subst contour_list.
    destruct masks; [| discriminate]. split; [reflexivity | congruence].
  - split.
    { intros ->. destruct contour_list; [| discriminate].
      destruct idx; discriminate. }
    intros _. rewrite list_lookup_fmap in Hv.
    destruct (contour_list !! idx) as [winner |] eqn:Hw; [| discriminate].
    injection Hv as <-. exists winner. split; [reflexivity |].
    assert (Hle : forall j kept, contour_list !! j = Some kept ->
                    (length kept <= length winner)%nat).
    { intros j kept Hj. apply (Hmax j). by rewrite list_lookup_fmap, Hj. }
    assert (Hlt : forall j kept, (j < idx)%nat -> contour_list !! j = Some kept ->
                    (length kept < length winner)%nat).
    { intros j kept Hji Hj. apply (Hfirst j); [exact Hji |].
      by rewrite list_lookup_fmap, Hj. }
    split; [exact Hle |]. split; [exact Hlt |]. split.
    + intros i j a b Hij Hi Hj Hab ->.
      rewrite Hw in Hj. injection Hj as <-.
      specialize (Hlt i a Hij Hi). lia.
    + intros filepath tr. unfold immune_cluster_analyzer, io_bind, io_lift.
      rewrite Hrun. cbn. unfold list_getitem. rewrite Hw. reflexivity.
Qed.

Lemma contour_generator_accepted (mask : ndarray) (kept : list contour) (n : nat) :
  contour_generator mask = Ok (kept, n) ->
  Forall (fun c => filter_boolean c = Ok true) kept.
Proof.
  destruct (contour_generator_returns mask) as (kept' & Hgen & Hall & _).
  rewrite Hgen. intros [= <- _]. exact Hall.
Qed.

(** C10. [csv_results_compiler] divides by [4 * np.pi * area] unguarded.
    On a list of contours that [filter_boolean] accepts the divisor is
    never zero: the table is built and no [ZeroDivisionError] is raised.
    The list [immune_cluster_analyzer] passes is such a list, so it raises
    no [ZeroDivisionError] either. *)
Theorem csv_results_compiler_divisor_nonzero :
  (forall cont_list : list contour,
     Forall (fun c => filter_boolean c = Ok true) cont_list ->
     Forall (fun c => (4 * np.pi * cv2.contourArea c =? 0)%float = false) cont_list /\
     (exists df, compile_table cont_list = Ok df) /\
     (forall filepath tr msg,
        snd (csv_results_compiler cont_list filepath tr) <> Raise (ZeroDivisionError msg))) /\
  (forall masks contour_list count_list idx winner,
     scan_clusters masks = Ok (contour_list, count_list, idx) ->
     contour_list !! idx = Some winner ->
     Forall (fun c => filter_boolean c = Ok true) winner) /\
  (forall masks filepath tr msg,
     snd (immune_cluster_analyzer masks filepath tr) <> Raise (ZeroDivisionError msg)).
Proof.
  assert (Hcsv : forall cont_list : list contour,
     Forall (fun c => filter_boolean c = Ok true) cont_list ->
     Forall (fun c => (4 * np.pi * cv2.contourArea c =? 0)%float = false) cont_list /\
     (exists df, compile_table cont_list = Ok df) /\
     (forall filepath tr msg,
        snd (csv_results_compiler cont_list filepath tr) <> Raise (ZeroDivisionError msg))).
  { intros cont_list Hacc.
    assert (Hall : Forall (fun c => (4 * np.pi * cv2.contourArea c =? 0)%float = false)
                     cont_list).
    { eapply Forall_impl; [exact Hacc |]. intros c. apply accepted_divisor. }
    split; [exact Hall |]. split.
    - eexists. apply compile_table_ok, Hall.
    - intros filepath tr msg.
      unfold csv_results_compiler, io_bind, io_lift, emit.
      rewrite (compile_table_ok cont_list Hall). cbn. discriminate. }
  assert (Hwin : forall masks contour_list count_list idx winner,
     scan_clusters masks = Ok (contour_list, count_list, idx) ->
     contour_list !! idx = Some winner ->
     Forall (fun c => filter_boolean c = Ok true) winner).
  { intros masks contour_list count_list idx winner Hrun Hw.
    destruct (scan_clusters_returns masks) as (cl & idx' & Hrun' & Hall & _).
    rewrite Hrun' in Hrun. injection Hrun as <- _ _.
    destruct (Forall2_lookup_r _ _ _ _ _ Hall Hw) as (mask & _ & Hgen).
    exact (contour_generator_accepted _ _ _ Hgen). }
  split; [exact Hcsv |]. split; [exact Hwin |].
  intros masks filepath tr msg.
  unfold immune_cluster_analyzer, io_bind, io_lift.
  destruct (scan_clusters masks) as [[[contour_list count_list] idx] | e] eqn:Hrun.
  - unfold list_getitem. destruct (contour_list !! idx) as [winner |] eqn:Hw.
    + apply Hcsv. exact (Hwin _ _ _ _ _ Hrun Hw).
    + cbn. discriminate.
  - destruct (scan_clusters_returns masks) as (cl & idx' & Hrun' & _). congruence.
Qed.

End ImmuneClusterAnalyzer.

Lemma csv_results_compiler_divisor_nonzero_witness :
  let CV := Example.cv in
  let OS := Example.fs in
  let cont_list := [Example.square 0 0; Example.square 3 1] in
  Forall (fun c => filter_boolean c = Ok true) cont_list /\
  Forall (fun c => (4 * np.pi * cv2.contourArea c =? 0)%float = false) cont_list.
Proof.
  intros CV OS cont_list.
  assert (Hacc : Forall (fun c => filter_boolean c = Ok true) cont_list).
  { repeat constructor; vm_compute; reflexivity. }
  split; [exact Hacc |].
  exact (proj1 (proj1 (csv_results_compiler_divisor_nonzero (OS := OS)) cont_list Hacc)).
Defined.

(** Two masks of the example world with one blob each: the counts tie at
    1 and mask 0 is picked. With two blobs in the second mask, mask 1 is. *)
Lemma immune_cluster_analyzer_first_max_witness :
  let CV := Example.cv in
  let masks := [np.array2 [[1; 0]; [0; 0]]; np.array2 [[0; 0]; [0; 1]]] in
  masks <> [] /\
  exists contour_list idx,
    scan_clusters masks = Ok (contour_list, length <$> contour_list, idx) /\
    length <$> contour_list = [1; 1]%nat /\ idx = 0%nat.
Proof.
  intros CV masks. split; [discriminate |].
  destruct (immune_cluster_analyzer_first_max (OS := Example.fs) masks)
    as (contour_list & idx & Hrun & _).
  exists contour_list, idx. split; [exact Hrun |].
  assert (Hval : scan_clusters masks =
                 Ok ([[Example.square 0 0]; [Example.square 1 1]], [1; 1]%nat, 0%nat))
    by (vm_compute; reflexivity).
  rewrite Hval in Hrun. injection Hrun as H1 _ H3. subst contour_list idx.
  split; reflexivity.
Defined.

Example immune_cluster_analyzer_later_wins :
  scan_clusters (CV := Example.cv)
    [np.array2 [[1; 0]; [0; 0]]; np.array2 [[0; 1]; [0; 1]]; np.array2 [[1; 1]; [0; 0]]]
  = Ok ([[Example.square 0 0];
         [Example.square 1 0; Example.square 1 1];
         [Example.square 0 0; Example.square 1 0]], [1; 2; 2]%nat, 1%nat).
Proof. vm_compute. reflexivity. Qed.

(* ================================================================= *)
(** ** Arrays read and written by index paths *)

Lemma index_in_range (n i : nat) :
  (i < n)%nat -> np.index n (Z.of_nat i) = Ok i.
Proof.
  intros Hi. unfold np.index.
  assert (H1 : (0 <=? Z.of_nat i) = true) by (apply Z.leb_le; lia).
  assert (H2 : (Z.of_nat i <? Z.of_nat n) = true) by (apply Z.ltb_lt; lia).
  rewrite H1, H2. cbn. by rewrite Nat2Z.id.
Qed.

Lemma get_nil (a : ndarray) : np.get a [] = Some a.
Proof. destruct a; reflexivity. Qed.

Lemma get_cons (items : list ndarray) (i : nat) (path : list nat) :
  np.get (np.Arr items) (i :: path) =
    match items !! i with Some x => np.get x path | None => None end.
Proof. reflexivity. Qed.

Lemma get_app (path path' : list nat) :
  forall a, np.get a (path ++ path') =
              match np.get a path with Some x => np.get x path' | None => None end.
Proof.
  induction path as [| i path IH]; intros a.
  - cbn [app]. by rewrite get_nil.
  - destruct a as [v | items]; [reflexivity |].
    cbn [app]. rewrite !get_cons. destruct (items !! i); [apply IH | reflexivity].
Qed.

Lemma getitem_get (a : ndarray) (i : nat) (x : ndarray) :
  np.get a [i] = Some x -> np.getitem a (Z.of_nat i) = Ok x.
Proof.
  destruct a as [v | items]; [discriminate |].
  rewrite get_cons. destruct (items !! i) as [y |] eqn:Hy; [| discriminate].
  rewrite get_nil. intros [= ->]. unfold np.getitem.
  rewrite index_in_range by (by eapply lookup_lt_Some). cbn [bind].
  by apply list_getitem_Some.
Qed.

(** Writing along a path of in-range indices. *)
Lemma setitem_set (path : list nat) (assign : ndarray -> result ndarray) :
  forall (a x y : ndarray),
    np.get a path = Some x -> assign x = Ok y ->
    np.setitem a (Z.of_nat <$> path) assign = Ok (np.set a path y).
Proof.
  induction path as [| i path IH]; intros a x y Hget Hassign.
  - rewrite get_nil in Hget. injection Hget as ->. exact Hassign.
  - destruct a as [v | items]; [discriminate |].
    rewrite get_cons in Hget. destruct (items !! i) as [z |] eqn:Hz; [| discriminate].
    cbn [fmap list_fmap np.setitem np.set]. rewrite Hz.
    rewrite index_in_range by (by eapply lookup_lt_Some). cbn [bind].
    rewrite (list_getitem_Some _ _ _ _ Hz). cbn [bind].
    rewrite (IH z x y Hget Hassign). reflexivity.
Qed.

(** Reading after writing: below the place written, and elsewhere. *)
Lemma get_set_prefix (path rest : list nat) (y : ndarray) :
  forall a, np.get (np.set a (path ++ rest) y) path =
              (fun x => np.set x rest y) <$> np.get a path.
Proof.
  induction path as [| i path IH]; intros a.
  - cbn [app]. by rewrite !get_nil.
  - destruct a as [v | items]; [reflexivity |].
    cbn [app np.set]. rewrite get_cons.
    destruct (items !! i) as [z |] eqn:Hz.
    + rewrite get_cons, list_lookup_insert_eq by (by eapply lookup_lt_Some). apply IH.
    + rewrite get_cons, Hz. reflexivity.
Qed.

Lemma get_set_eq (path : list nat) (a x y : ndarray) :
  np.get a path = Some x -> np.get (np.set a path y) path = Some y.
Proof.
  intros Hx. rewrite <- (app_nil_r path) at 1.
  rewrite get_set_prefix, Hx. reflexivity.
Qed.

Lemma get_set_ne (path : list nat) :
  forall (other rest : list nat) (a y : ndarray),
    length other = length path -> other <> path ->
    np.get (np.set a (path ++ rest) y) other = np.get a other.
Proof.
  induction path as [| i path IH]; intros other rest a y Hlen Hne.
  - destruct other; [congruence | discriminate].
  - destruct other as [| j other]; [discriminate |].
    destruct a as [v | items]; [reflexivity |].
    cbn [app np.set]. destruct (items !! i) as [z |] eqn:Hz; [| reflexivity].
    rewrite !get_cons. destruct (decide (i = j)) as [-> | Hij].
    + rewrite list_lookup_insert_eq by (by eapply lookup_lt_Some). rewrite Hz.
      apply IH; [by injection Hlen | congruence].
    + by rewrite list_lookup_insert_ne.
Qed.

(** Rectangular arrays. *)
Lemma has_shape_inv (n : nat) (s : list nat) (a : ndarray) :
  np.has_shape (n :: s) a = true ->
  exists items, a = np.Arr items /\ length items = n /\
                Forall (fun x => np.has_shape s x = true) items.
Proof.
  destruct a as [v | items]; [discriminate |]. cbn [np.has_shape].
  intros H. apply andb_prop in H as [Hn Hall].
  exists items. split; [reflexivity |]. split; [by apply Nat.eqb_eq |].
  apply Forall_forall. intros x Hx. rewrite forallb_forall in Hall.
  apply Hall. by apply list_elem_of_In.
Qed.

Lemma has_shape_intro (n : nat) (s : list nat) (items : list ndarray) :
  length items = n -> Forall (fun x => np.has_shape s x = true) items ->
  np.has_shape (n :: s) (np.Arr items) = true.
Proof.
  intros Hn Hall. cbn [np.has_shape]. apply andb_true_intro. split.
  - by apply Nat.eqb_eq.
  - apply forallb_forall. intros x Hx. rewrite Forall_forall in Hall.
    apply Hall. by apply list_elem_of_In.
Qed.

Lemma has_shape_get (n : nat) (s : list nat) (a : ndarray) (i : nat) :
  np.has_shape (n :: s) a = true -> (i < n)%nat ->
  exists x, np.get a [i] = Some x /\ np.has_shape s x = true.
Proof.
  intros Ha Hi. apply has_shape_inv in Ha as (items & -> & Hn & Hall).
  destruct (lookup_lt_is_Some_2 items i) as [x Hx]; [lia |].
  exists x. rewrite get_cons, Hx, get_nil. split; [reflexivity |].
  rewrite Forall_forall in Hall. apply Hall. by eapply list_elem_of_lookup_2.
Qed.

Lemma has_shape_num (a : ndarray) :
  np.has_shape [] a = true -> exists v, a = np.Num v.
Proof. destruct a as [v | items]; [eauto | discriminate]. Qed.

Lemma has_shape_shape (s : list nat) :
  forall a, Forall (fun n => (0 < n)%nat) s -> np.has_shape s a = true -> np.shape a = s.
Proof.
  induction s as [| n s IH]; intros a Hpos Ha.
  - apply has_shape_num in Ha as [v ->]. reflexivity.
  - apply Forall_cons in Hpos as [Hn Hpos].
    apply has_shape_inv in Ha as (items & -> & Hlen & Hall).
    destruct items as [| x items]; [cbn in Hlen; lia |].
    cbn [np.shape]. apply Forall_cons in Hall as [Hx _].
    by rewrite Hlen, (IH x Hpos Hx).
Qed.

Lemma has_shape_full (v : Z) (s : list nat) :
  np.has_shape s (np.full v s) = true.
Proof.
  induction s as [| n s IH]; [reflexivity |].
  cbn [np.full]. apply has_shape_intro; [apply length_replicate |].
  apply Forall_forall. intros x Hx. apply elem_of_replicate in Hx as [-> _]. exact IH.
Qed.

Lemma get_full (v : Z) (n : nat) (s : list nat) (i : nat) :
  (i < n)%nat -> np.get (np.full v (n :: s)) [i] = Some (np.full v s).
Proof.
  intros Hi. cbn [np.full]. rewrite get_cons, lookup_replicate_2 by exact Hi.
  apply get_nil.
Qed.

(** Writing a sub-array of the right shape keeps the shape. *)
Lemma has_shape_set (path : list nat) (y : ndarray) :
  forall (a : ndarray) (s : list nat),
    np.has_shape s a = true ->
    np.has_shape (drop (length path) s) y = true ->
    np.has_shape s (np.set a path y) = true.
Proof.
  induction path as [| i path IH]; intros a s Ha Hy.
  - exact Hy.
  - destruct a as [v | items]; [exact Ha |].
    destruct s as [| n s]; [discriminate |].
    apply has_shape_inv in Ha as (items' & [= <-] & Hlen & Hall).
    cbn [np.set]. destruct (items !! i) as [x |] eqn:Hx.
    + apply has_shape_intro; [by rewrite length_insert |].
      apply Forall_insert; [exact Hall |].
      apply IH; [| exact Hy].
      rewrite Forall_forall in Hall. apply Hall. by eapply list_elem_of_lookup_2.
    + by apply has_shape_intro.
Qed.

(** The numbers of an array. *)
Lemma flatten_get (path : list nat) :
  forall (a : ndarray) (v : Z), np.get a path = Some (np.Num v) -> v ∈ np.flatten a.
Proof.
  induction path as [| i path IH]; intros a v Hget.
  - rewrite get_nil in Hget. injection Hget as ->. cbn. by apply list_elem_of_singleton.
  - destruct a as [w | items]; [discriminate |].
    rewrite get_cons in Hget. destruct (items !! i) as [x |] eqn:Hx; [| discriminate].
    cbn [np.flatten]. apply list_elem_of_In, in_concat. exists (np.flatten x).
    split; [| by apply list_elem_of_In, IH].
    apply list_elem_of_In, list_elem_of_fmap. exists x.
    split; [reflexivity | by eapply list_elem_of_lookup_2].
Qed.

Lemma fold_left_max_spec (vs : list Z) :
  forall v, (forall w, w ∈ v :: vs -> w <= fold_left Z.max vs v) /\
            fold_left Z.max vs v ∈ v :: vs.
Proof.
  induction vs as [| x vs IH]; intros v; cbn [fold_left].
  - split; [| by apply list_elem_of_singleton].
    intros w Hw. apply list_elem_of_singleton in Hw. lia.
  - destruct (IH (Z.max v x)) as [Hle Hin]. split.
    + intros w Hw. apply elem_of_cons in Hw as [-> | Hw].
      * specialize (Hle (Z.max v x)). rewrite elem_of_cons in Hle.
        specialize (Hle (or_introl eq_refl)). lia.
      * apply elem_of_cons in Hw as [-> | Hw].
        -- specialize (Hle (Z.max v x)). rewrite elem_of_cons in Hle.
           specialize (Hle (or_introl eq_refl)). lia.
        -- apply Hle. rewrite elem_of_cons. by right.
    + apply elem_of_cons in Hin as [Hin | Hin].
      * rewrite Hin. destruct (Z.max_spec v x) as [[_ ->] | [_ ->]];
          rewrite !elem_of_cons; auto.
      * rewrite !elem_of_cons. auto.
Qed.

Lemma max_spec (a : ndarray) (top : Z) :
  np.max a = Ok top ->
  (forall v, v ∈ np.flatten a -> v <= top) /\ top ∈ np.flatten a.
Proof.
  unfold np.max. destruct (np.flatten a) as [| v vs]; [discriminate |].
  intros [= <-]. apply fold_left_max_spec.
Qed.

Lemma max_returns (a : ndarray) (v : Z) :
  v ∈ np.flatten a -> exists top, np.max a = Ok top.
Proof.
  unfold np.max. destruct (np.flatten a) as [| w ws]; [| eauto].
  intros H. by apply elem_of_nil in H.
Qed.

(* ================================================================= *)
(** ** [result_image_generator] *)

Lemma before_next (j k r c : nat) :
  before j (S k) r c = before j k r c || ((r =? j)%nat && (c =? k)%nat).
Proof.
  unfold before.
  destruct (Nat.ltb_spec r j), (Nat.eqb_spec r j), (Nat.ltb_spec c (S k)),
    (Nat.ltb_spec c k), (Nat.eqb_spec c k); cbn; try reflexivity; lia.
Qed.

Lemma before_self (j k : nat) : before j k j k = false.
Proof. unfold before. rewrite !Nat.ltb_irrefl, andb_false_r. reflexivity. Qed.

Lemma before_row (W j r c : nat) :
  (c < W)%nat -> before (S j) 0 r c = before j W r c.
Proof.
  intros Hc. unfold before.
  destruct (Nat.ltb_spec r (S j)), (Nat.ltb_spec r j), (Nat.eqb_spec r j),
    (Nat.eqb_spec r (S j)), (Nat.ltb_spec c W); cbn; try reflexivity; lia.
Qed.

Lemma before_start (r c : nat) : before 0 0 r c = false.
Proof. unfold before. destruct r; reflexivity. Qed.

Lemma before_end (H r c : nat) : (r < H)%nat -> before H 0 r c = true.
Proof. intros Hr. unfold before. apply Nat.ltb_lt in Hr. by rewrite Hr. Qed.

(** Black written over an RGB pixel. *)
Lemma assign_black (cell : ndarray) :
  np.has_shape [3%nat] cell = true -> assign black cell = Ok black.
Proof.
  intros Hc. apply has_shape_inv in Hc as (items & -> & Hlen & Hall).
  destruct items as [| x [| y [| z [| ? ?]]]]; try discriminate.
  apply Forall_cons in Hall as [Hx _].
  apply has_shape_num in Hx as [v ->]. reflexivity.
Qed.

Lemma color_of_spec (q : nat) :
  (q < 4)%nat ->
  exists c0 c1 c2,
    color_of (Z.of_nat q) = np.array1 [c0; c1; c2] /\
    np.getitem colors_overlay (Z.of_nat q) = Ok (np.array1 [c0; c1; c2]).
Proof.
  intros Hq. destruct q as [| [| [| [| q]]]]; [| | | | lia];
    do 3 eexists; split; reflexivity.
Qed.

Lemma get_set_other (path other : list nat) (a y : ndarray) :
  length other = length path -> other <> path ->
  np.get (np.set a path y) other = np.get a other.
Proof.
  intros Hlen Hne. rewrite <- (app_nil_r path) at 1. by apply get_set_ne.
Qed.

Lemma range_of_nat (n : nat) : range (Z.of_nat n) = seq 0 n.
Proof. unfold range. by rewrite Nat2Z.id. Qed.

Section Painting.

Variables (img_clust original_image : ndarray) (H W K : nat).
Hypothesis Hlabels : np.has_shape [H; W] img_clust = true.
Hypothesis Himage : np.has_shape [H; W; 3%nat] original_image = true.
Hypothesis Hrange : forall v, v ∈ np.flatten img_clust -> 0 <= v < Z.of_nat K.
Hypothesis HK : (K <= 4)%nat.

Lemma label_lookup (r c : nat) :
  (r < H)%nat -> (c < W)%nat ->
  exists row,
    np.get img_clust [r] = Some row /\
    np.get row [c] = Some (np.Num (label_at img_clust r c)) /\
    0 <= label_at img_clust r c < Z.of_nat K.
Proof.
  intros Hr Hc.
  destruct (has_shape_get _ _ _ r Hlabels Hr) as (row & Hrow & Hrs).
  destruct (has_shape_get _ _ _ c Hrs Hc) as (cell & Hcell & Hcs).
  apply has_shape_num in Hcs as [v ->].
  assert (Hget : np.get img_clust [r; c] = Some (np.Num v)).
  { change [r; c] with ([r] ++ [c]). by rewrite get_app, Hrow. }
  exists row. unfold label_at. rewrite Hget.
  split; [exact Hrow |]. split; [exact Hcell |].
  apply Hrange. by eapply flatten_get.
Qed.

Lemma pixel_lookup (r c : nat) :
  (r < H)%nat -> (c < W)%nat ->
  np.get original_image [r; c] = Some (pixel_at original_image r c) /\
  np.has_shape [3%nat] (pixel_at original_image r c) = true.
Proof.
  intros Hr Hc.
  destruct (has_shape_get _ _ _ r Himage Hr) as (row & Hrow & Hrs).
  destruct (has_shape_get _ _ _ c Hrs Hc) as (cell & Hcell & Hcs).
  assert (Hget : np.get original_image [r; c] = Some cell).
  { change [r; c] with ([r] ++ [c]). by rewrite get_app, Hrow. }
  unfold pixel_at. rewrite Hget. split; [reflexivity | exact Hcs].
Qed.

Lemma paint_pixel_step (j k : nat) (arrays : ndarray * ndarray * ndarray) :
  (j < H)%nat -> (k < W)%nat ->
  painted img_clust original_image H W K j k arrays ->
  exists arrays',
    paint_pixel img_clust j k arrays = Ok arrays' /\
    painted img_clust original_image H W K j (S k) arrays'.
Proof.
  intros Hj Hk. destruct arrays as [[final binary] combined].
  intros (Hsf & Hsb & Hsc & Hfb & Hcomb).
  destruct (label_lookup j k Hj Hk) as (row & Hrow & Hcell & Hv).
  set (v := label_at img_clust j k) in *.
  set (q := Z.to_nat v).
  assert (Hq : v = Z.of_nat q) by (subst q; lia).
  assert (HqK : (q < K)%nat) by lia.
  destruct (Hfb q j k HqK Hj Hk) as [Hf Hb].
  rewrite before_self in Hf, Hb. cbn [andb] in Hf, Hb.
  destruct (pixel_lookup j k Hj Hk) as [_ Hps].
  pose proof (Hcomb j k Hj Hk) as Hc. rewrite before_self in Hc.
  destruct (color_of_spec q ltac:(lia)) as (c0 & c1 & c2 & Hcol & Hgetcol).
  set (final' := np.set final [q; j; k] black).
  set (binary' := np.set binary [q; j; k] (np.Num 1)).
  set (combined' := np.set (np.set (np.set combined [j; k; 0%nat] (np.Num c0))
                              [j; k; 1%nat] (np.Num c1)) [j; k; 2%nat] (np.Num c2)).
  exists (final', binary', combined'). split.
  - unfold paint_pixel.
    rewrite (getitem_get _ _ _ Hrow). cbn [bind].
    rewrite (getitem_get _ _ _ Hcell). cbn [bind np.int].
    rewrite Hq.
    change [Z.of_nat q; Z.of_nat j; Z.of_nat k] with (Z.of_nat <$> [q; j; k]).
    rewrite (setitem_set _ _ _ _ black Hf (assign_black _ Hps)). cbn [bind].
    rewrite (setitem_set _ _ _ _ (np.Num 1) Hb eq_refl). cbn [bind].
    assert (Hc0 : np.get combined [j; k; 0%nat] = Some (np.Num 0)).
    { change [j; k; 0%nat] with ([j; k] ++ [0%nat]). by rewrite get_app, Hc. }
    assert (Hc1 : np.get (np.set combined [j; k; 0%nat] (np.Num c0)) [j; k; 1%nat]
                  = Some (np.Num 0)).
    { change [j; k; 1%nat] with ([j; k] ++ [1%nat]). rewrite get_app.
      change [j; k; 0%nat] with ([j; k] ++ [0%nat]). by rewrite get_set_prefix, Hc. }
    assert (Hc2 : np.get (np.set (np.set combined [j; k; 0%nat] (np.Num c0))
                            [j; k; 1%nat] (np.Num c1)) [j; k; 2%nat]
                  = Some (np.Num 0)).
    { change [j; k; 2%nat] with ([j; k] ++ [2%nat]). rewrite get_app.
      change [j; k; 1%nat] with ([j; k] ++ [1%nat]). rewrite get_set_prefix.
      change [j; k; 0%nat] with ([j; k] ++ [0%nat]). by rewrite get_set_prefix, Hc. }
    change (range 3) with [0%nat; 1%nat; 2%nat]. cbn [for_each].
    rewrite Hgetcol. cbn [bind].
    change (np.getitem (np.array1 [c0; c1; c2]) (Z.of_nat 0)) with (Ok (np.Num c0)).
    change (np.getitem (np.array1 [c0; c1; c2]) (Z.of_nat 1)) with (Ok (np.Num c1)).
    change (np.getitem (np.array1 [c0; c1; c2]) (Z.of_nat 2)) with (Ok (np.Num c2)).
    cbn [bind].
    change [Z.of_nat j; Z.of_nat k; Z.of_nat 0] with (Z.of_nat <$> [j; k; 0%nat]).
    rewrite (setitem_set _ _ _ _ (np.Num c0) Hc0 eq_refl). cbn [bind].
    change [Z.of_nat j; Z.of_nat k; Z.of_nat 1] with (Z.of_nat <$> [j; k; 1%nat]).
    rewrite (setitem_set _ _ _ _ (np.Num c1) Hc1 eq_refl). cbn [bind].
    change [Z.of_nat j; Z.of_nat k; Z.of_nat 2] with (Z.of_nat <$> [j; k; 2%nat]).
    rewrite (setitem_set _ _ _ _ (np.Num c2) Hc2 eq_refl). cbn [bind].
    reflexivity.
  - split; [by apply has_shape_set |]. split; [by apply has_shape_set |].
    split; [by repeat apply has_shape_set |]. split.
    + intros q' r c Hq' Hr Hc'. destruct (Hfb q' r c Hq' Hr Hc') as [Hf' Hb'].
      rewrite before_next.
      destruct (decide ([q'; r; c] = [q; j; k])) as [[= -> -> ->] | Hne].
      * subst final' binary'. rewrite (get_set_eq _ _ _ _ Hf), (get_set_eq _ _ _ _ Hb).
        rewrite !Nat.eqb_refl, orb_true_r. fold v. rewrite Hq, Z.eqb_refl. by split.
      * subst final' binary'.
        rewrite !get_set_other by (reflexivity || exact Hne). rewrite Hf', Hb'.
        destruct (Nat.eqb_spec r j) as [-> | Hrj];
          [destruct (Nat.eqb_spec c k) as [-> | Hck] |];
          rewrite ?andb_false_r, ?orb_false_r; try (by split).
        rewrite before_self. cbn [orb andb]. fold v.
        destruct (Z.eqb_spec v (Z.of_nat q')) as [Hvq | _]; [| by split].
        exfalso. apply Hne. f_equal. lia.
    + intros r c Hr Hc'. rewrite before_next.
      destruct (decide ([r; c] = [j; k])) as [[= -> ->] | Hne].
      * subst combined'.
        change [j; k; 2%nat] with ([j; k] ++ [2%nat]). rewrite get_set_prefix.
        change [j; k; 1%nat] with ([j; k] ++ [1%nat]). rewrite get_set_prefix.
        change [j; k; 0%nat] with ([j; k] ++ [0%nat]). rewrite get_set_prefix, Hc.
        rewrite !Nat.eqb_refl, orb_true_r. fold v. rewrite Hq, Hcol. reflexivity.
      * subst combined'.
        change [j; k; 2%nat] with ([j; k] ++ [2%nat]).
        rewrite get_set_ne by (reflexivity || exact Hne).
        change [j; k; 1%nat] with ([j; k] ++ [1%nat]).
        rewrite get_set_ne by (reflexivity || exact Hne).
        change [j; k; 0%nat] with ([j; k] ++ [0%nat]).
        rewrite get_set_ne by (reflexivity || exact Hne).
        rewrite (Hcomb r c Hr Hc').
        destruct (Nat.eqb_spec r j) as [-> | Hrj];
          [destruct (Nat.eqb_spec c k) as [-> | Hck] |];
          rewrite ?andb_false_r, ?orb_false_r; try reflexivity.
        congruence.
Qed.

Lemma paint_row (j : nat) :
  (j < H)%nat ->
  forall (n k : nat) (arrays : ndarray * ndarray * ndarray),
    (k + n = W)%nat ->
    painted img_clust original_image H W K j k arrays ->
    exists arrays',
      for_each (fun arrays k => paint_pixel img_clust j k arrays) (seq k n) arrays
      = Ok arrays' /\
      painted img_clust original_image H W K j W arrays'.
Proof.
  intros Hj. induction n as [| n IH]; intros k arrays Hkn Hinv.
  - assert (k = W) as -> by lia. by exists arrays.
  - destruct (paint_pixel_step j k arrays Hj ltac:(lia) Hinv) as (arrays1 & Hstep & Hinv1).
    destruct (IH (S k) arrays1 ltac:(lia) Hinv1) as (arrays' & Hrun & Hinv').
    exists arrays'. cbn [seq for_each]. rewrite Hstep. cbn [bind]. by split.
Qed.

Lemma painted_next_row (j : nat) (arrays : ndarray * ndarray * ndarray) :
  painted img_clust original_image H W K j W arrays ->
  painted img_clust original_image H W K (S j) 0 arrays.
Proof.
  destruct arrays as [[final binary] combined].
  intros (Hsf & Hsb & Hsc & Hfb & Hcomb).
  split; [exact Hsf |]. split; [exact Hsb |]. split; [exact Hsc |]. split.
  - intros q r c Hq Hr Hc. rewrite (before_row W) by exact Hc. by apply Hfb.
  - intros r c Hr Hc. rewrite (before_row W) by exact Hc. by apply Hcomb.
Qed.

Lemma paint_rows (dims : list nat) :
  dims !! 1%nat = Some W ->
  forall (n j : nat) (arrays : ndarray * ndarray * ndarray),
    (j + n = H)%nat ->
    painted img_clust original_image H W K j 0 arrays ->
    exists arrays',
      for_each
        (fun arrays j =>
           do dims1 <- list_getitem dims 1 "tuple";
           for_each (fun arrays k => paint_pixel img_clust j k arrays)
             (range (Z.of_nat dims1)) arrays)
        (seq j n) arrays = Ok arrays' /\
      painted img_clust original_image H W K H 0 arrays'.
Proof.
  intros Hdims. induction n as [| n IH]; intros j arrays Hjn Hinv.
  - assert (j = H) as -> by lia. by exists arrays.
  - assert (Hj : (j < H)%nat) by lia.
    destruct (paint_row j Hj W 0%nat arrays eq_refl Hinv) as (arrays1 & Hrow & Hinv1).
    apply painted_next_row in Hinv1.
    assert (Hjn' : (S j + n = H)%nat) by lia.
    destruct (IH (S j) arrays1 Hjn' Hinv1) as (arrays' & Hrun & Hinv').
    exists arrays'. split; [| exact Hinv'].
    cbn [seq for_each]. rewrite <- Hrun.
    rewrite (list_getitem_Some _ _ _ _ Hdims). cbn [bind].
    rewrite range_of_nat, Hrow. reflexivity.
Qed.

End Painting.

Lemma stack_copies (image : ndarray) :
  forall (n a m : nat),
    for_each (fun final_array (_ : nat) => np.vstack final_array (np.expand_dims0 image))
      (seq a n) (np.Arr (replicate (S m) image))
    = Ok (np.Arr (replicate (S m + n) image)).
Proof.
  induction n as [| n IH]; intros a m.
  - by rewrite Nat.add_0_r.
  - cbn [seq for_each np.vstack np.expand_dims0 bind].
    rewrite <- replicate_S_end, (IH (S a) (S m)).
    by replace (S m + S n)%nat with (S (S m) + n)%nat by lia.
Qed.

Lemma gen_base_arrays_ok (ori_image : ndarray) (H W K : nat) :
  np.has_shape [H; W; 3%nat] ori_image = true ->
  (0 < H)%nat -> (0 < W)%nat -> (0 < K)%nat ->
  gen_base_arrays ori_image (Z.of_nat K) =
    Ok (np.Arr (replicate K ori_image), np.full 0 [K; H; W], np.full 0 [H; W; 3%nat]).
Proof.
  intros Hs HH HW HK. unfold gen_base_arrays.
  rewrite (has_shape_shape [H; W; 3%nat] ori_image) by (repeat constructor; lia || exact Hs).
  cbn [list_getitem lookup list_lookup bind].
  assert (Hz1 : np.zeros [Z.of_nat K; Z.of_nat H; Z.of_nat W] = Ok (np.full 0 [K; H; W])).
  { unfold np.zeros. cbn [forallb].
    rewrite !(proj2 (Z.leb_le _ _)) by lia. cbn [andb fmap list_fmap].
    by rewrite !Nat2Z.id. }
  assert (Hz2 : np.zeros [Z.of_nat H; Z.of_nat W; 3] = Ok (np.full 0 [H; W; 3%nat])).
  { unfold np.zeros. cbn [forallb].
    rewrite !(proj2 (Z.leb_le _ _)) by lia. cbn [andb fmap list_fmap].
    by rewrite !Nat2Z.id. }
  rewrite Hz1, Hz2. cbn [bind].
  destruct K as [| K]; [lia |].
  replace (range (Z.of_nat (S K) - 1)) with (seq 0 K)
    by (unfold range; f_equal; lia).
  pose proof (stack_copies ori_image K 0%nat 0%nat) as Hstack.
  cbn [replicate] in Hstack. unfold np.expand_dims0 in *. rewrite Hstack.
  reflexivity.
Qed.

Lemma get_full3 (v : Z) (a b c i j k : nat) :
  (i < a)%nat -> (j < b)%nat -> (k < c)%nat ->
  np.get (np.full v [a; b; c]) [i; j; k] = Some (np.Num v).
Proof.
  intros Hi Hj Hk. change [i; j; k] with ([i] ++ [j] ++ [k]).
  rewrite get_app, get_full, get_app, get_full, get_full by assumption. reflexivity.
Qed.

Lemma get_full2 (v : Z) (a b : nat) (s : list nat) (i j : nat) :
  (i < a)%nat -> (j < b)%nat ->
  np.get (np.full v (a :: b :: s)) [i; j] = Some (np.full v s).
Proof.
  intros Hi Hj. change [i; j] with ([i] ++ [j]).
  rewrite get_app, get_full, get_full by assumption. reflexivity.
Qed.

(** Before the loops nothing is painted. *)
Lemma painted_start (img_clust original_image : ndarray) (H W K : nat) :
  np.has_shape [H; W; 3%nat] original_image = true ->
  painted img_clust original_image H W K 0 0
    (np.Arr (replicate K original_image), np.full 0 [K; H; W], np.full 0 [H; W; 3%nat]).
Proof.
  intros Hs. split.
  { apply has_shape_intro; [apply length_replicate |].
    apply Forall_forall. intros x Hx. by apply elem_of_replicate in Hx as [-> _]. }
  split; [apply has_shape_full |]. split; [apply has_shape_full |]. split.
  - intros q r c Hq Hr Hc. rewrite before_start. cbn [andb]. split.
    + rewrite get_cons, lookup_replicate_2 by exact Hq.
      by apply (pixel_lookup original_image H W Hs).
    + by apply get_full3.
  - intros r c Hr Hc. rewrite before_start. by apply get_full2.
Qed.

Lemma final_array_is_view_spec (top : Z) :
  0 <= top -> final_array_is_view (top + 1) = (top =? 0).
Proof.
  intros Htop. unfold final_array_is_view, range.
  replace (top + 1 - 1) with top by lia.
  destruct (Z.eqb_spec top 0) as [-> | Hne]; [reflexivity |].
  destruct (Z.to_nat top) eqn:Hn; [lia | reflexivity].
Qed.

(** On an [H x W] label map with labels from 0 to 3 and an [H x W] RGB
    image, [result_image_generator] returns, with everything painted. *)
Lemma result_image_generator_returns (img_clust original_image : ndarray) (H W : nat) :
  np.has_shape [H; W] img_clust = true ->
  np.has_shape [H; W; 3%nat] original_image = true ->
  (0 < H)%nat -> (0 < W)%nat ->
  (forall v, v ∈ np.flatten img_clust -> 0 <= v <= 3) ->
  exists top final binary combined after,
    np.max img_clust = Ok top /\ 0 <= top <= 3 /\
    result_image_generator img_clust original_image
      = Ok ((final, binary, combined), after) /\
    painted img_clust original_image H W (Z.to_nat (top + 1)) H 0
      (final, binary, combined) /\
    (top = 0 -> np.get final [0%nat] = Some after) /\
    (0 < top -> after = original_image).
Proof.
  intros Hlabels Himage HH HW Hrange.
  destruct (has_shape_get _ _ _ 0%nat Hlabels HH) as (row & Hrow & Hrs).
  destruct (has_shape_get _ _ _ 0%nat Hrs HW) as (cell & Hcell & Hcs).
  apply has_shape_num in Hcs as [v0 ->].
  assert (Hv0 : v0 ∈ np.flatten img_clust).
  { apply (flatten_get [0%nat; 0%nat]).
    change [0%nat; 0%nat] with ([0%nat] ++ [0%nat]). by rewrite get_app, Hrow. }
  destruct (max_returns _ _ Hv0) as [top Hmax].
  destruct (max_spec _ _ Hmax) as [Hle Hin].
  pose proof (Hrange top Hin) as Htop.
  set (K := Z.to_nat (top + 1)).
  assert (HK : Z.of_nat K = top + 1) by (subst K; lia).
  assert (Hlt : forall v, v ∈ np.flatten img_clust -> 0 <= v < Z.of_nat K).
  { intros v Hv. specialize (Hle v Hv). specialize (Hrange v Hv). lia. }
  assert (HK4 : (K <= 4)%nat) by lia.
  assert (Hdims : np.shape img_clust = [H; W]).
  { apply has_shape_shape; [repeat constructor; lia | exact Hlabels]. }
  destruct (paint_rows img_clust original_image H W K Hlabels Himage Hlt HK4
              [H; W] eq_refl H 0%nat _ eq_refl (painted_start img_clust original_image H W K Himage))
    as ([[final binary] combined] & Hrun & Hinv).
  pose proof Hinv as (Hsf & _).
  assert (Hafter : exists after,
             (if final_array_is_view (top + 1) then np.getitem final 0
              else Ok original_image) = Ok after /\
             (top = 0 -> np.get final [0%nat] = Some after) /\
             (0 < top -> after = original_image)).
  { rewrite final_array_is_view_spec by lia.
    destruct (Z.eqb_spec top 0) as [-> | Hne].
    - destruct (has_shape_get _ _ _ 0%nat Hsf ltac:(subst K; cbn; lia)) as (x & Hx & _).
      exists x. split; [exact (getitem_get _ 0%nat _ Hx) |]. split; [done | lia].
    - exists original_image. split; [reflexivity |]. split; [lia | done]. }
  destruct Hafter as (after & Hafter & Hview & Hcopy).
  exists top, final, binary, combined, after.
  split; [exact Hmax |]. split; [exact Htop |].
  split; [| split; [exact Hinv | split; assumption]].
  unfold result_image_generator. rewrite Hmax. cbn [bind].
  rewrite <- HK, (gen_base_arrays_ok original_image H W K Himage HH HW ltac:(lia)).
  cbn [bind]. rewrite Hdims. cbn [list_getitem lookup list_lookup bind].
  cbn [list_getitem lookup list_lookup bind] in Hrun.
  rewrite !range_of_nat in Hrun. rewrite !range_of_nat, Hrun. cbn [bind].
  rewrite HK, Hafter. reflexivity.
Qed.

(** A loop raises when one of its steps raises whatever the state. *)
Lemma for_each_raises {A S : Type} (body : S -> A -> result S) (xs : list A) (x : A) :
  x ∈ xs -> (forall acc, exists e, body acc x = Raise e) ->
  forall acc, exists e, for_each body xs acc = Raise e.
Proof.
  intros Hx Hbad. induction xs as [| y xs IH]; intros acc.
  - by apply elem_of_nil in Hx.
  - cbn [for_each]. apply elem_of_cons in Hx as [<- | Hx].
    + destruct (Hbad acc) as [e ->]. by exists e.
    + destruct (body acc y) as [acc' | e]; [apply (IH Hx) | by exists e].
Qed.

Lemma index_too_large (n : nat) (i : Z) :
  Z.of_nat n <= i -> exists e, np.index n i = Raise e.
Proof.
  intros Hi. unfold np.index.
  rewrite (proj2 (Z.ltb_ge i (Z.of_nat n))) by exact Hi.
  rewrite (proj2 (Z.ltb_ge i 0)) by lia.
  rewrite !andb_false_r. eauto.
Qed.

(** A label above 3 has no colour: painting its pixel raises. *)
Lemma paint_pixel_raises (img_clust : ndarray) (r c : nat) (v : Z)
    (arrays : ndarray * ndarray * ndarray) :
  np.get img_clust [r; c] = Some (np.Num v) -> 4 <= v ->
  exists e, paint_pixel img_clust r c arrays = Raise e.
Proof.
  intros Hget Hv. destruct arrays as [[final binary] combined].
  change [r; c] with ([r] ++ [c]) in Hget. rewrite get_app in Hget.
  destruct (np.get img_clust [r]) as [row |] eqn:Hrow; [| discriminate].
  unfold paint_pixel.
  rewrite (getitem_get _ _ _ Hrow). cbn [bind].
  rewrite (getitem_get _ _ _ Hget). cbn [bind np.int].
  destruct (np.setitem final _ _) as [final' | e]; [| by exists e]. cbn [bind].
  destruct (np.setitem binary _ _) as [binary' | e]; [| by exists e]. cbn [bind].
  change (range 3) with [0%nat; 1%nat; 2%nat]. cbn [for_each].
  unfold np.getitem at 1. cbn [colors_overlay np.array2 fmap list_fmap length].
  destruct (index_too_large 4 v Hv) as [e ->]. by exists e.
Qed.

Lemma flatten_has_shape (H W : nat) (a : ndarray) (v : Z) :
  np.has_shape [H; W] a = true -> v ∈ np.flatten a ->
  exists r c, (r < H)%nat /\ (c < W)%nat /\ np.get a [r; c] = Some (np.Num v).
Proof.
  intros Ha Hv. apply has_shape_inv in Ha as (rows & -> & Hlen & Hrows).
  cbn [np.flatten] in Hv. apply list_elem_of_In, in_concat in Hv as (vs & Hvs & Hv).
  apply list_elem_of_In, list_elem_of_fmap in Hvs as (row & -> & Hrow).
  apply list_elem_of_lookup in Hrow as [r Hr].
  rewrite Forall_forall in Hrows.
  pose proof (Hrows row (list_elem_of_lookup_2 _ _ _ Hr)) as Hrs.
  apply has_shape_inv in Hrs as (cells & -> & Hlen' & Hcells).
  cbn [np.flatten] in Hv. apply in_concat in Hv as (ws & Hws & Hv).
  apply list_elem_of_In, list_elem_of_fmap in Hws as (cell & -> & Hcell).
  apply list_elem_of_lookup in Hcell as [c Hc].
  rewrite Forall_forall in Hcells.
  pose proof (Hcells cell (list_elem_of_lookup_2 _ _ _ Hc)) as Hcs.
  apply has_shape_num in Hcs as [w ->].
  cbn in Hv. destruct Hv as [<- | []].
  exists r, c. split; [apply lookup_lt_Some in Hr; lia |].
  split; [apply lookup_lt_Some in Hc; lia |].
  rewrite !get_cons, Hr, get_cons, Hc. reflexivity.
Qed.

(** [result_image_generator] raises on every label map with a label
    above 3. *)
Lemma result_image_generator_raises (img_clust original_image : ndarray) (H W : nat) (v : Z) :
  np.has_shape [H; W] img_clust = true ->
  v ∈ np.flatten img_clust -> 4 <= v ->
  exists e, result_image_generator img_clust original_image = Raise e.
Proof.
  intros Hlabels Hv Hv4.
  destruct (flatten_has_shape H W _ _ Hlabels Hv) as (r & c & Hr & Hc & Hget).
  assert (Hdims : np.shape img_clust = [H; W]).
  { apply has_shape_shape; [repeat constructor; lia | exact Hlabels]. }
  unfold result_image_generator.
  destruct (np.max img_clust) as [top | e]; [| by exists e]. cbn [bind].
  destruct (gen_base_arrays _ _) as [arrays | e]; [| by exists e]. cbn [bind].
  rewrite Hdims. cbn [list_getitem lookup list_lookup bind].
  rewrite !range_of_nat.
  match goal with
  | |- context [for_each ?body (seq 0 H) arrays] =>
      destruct (for_each_raises body (seq 0 H) r) with (acc := arrays) as [e He]
  end.
  - apply list_elem_of_lookup. exists r. by apply lookup_seq_lt.
  - intros acc. apply for_each_raises with (x := c).
    + apply list_elem_of_lookup. exists c. by apply lookup_seq_lt.
    + intros acc'. by apply paint_pixel_raises with (v := v).
  - rewrite He. by exists e.
Qed.

Lemma get_label (img_clust : ndarray) (H W r c : nat) (v : Z) :
  np.has_shape [H; W] img_clust = true ->
  np.get img_clust [r; c] = Some (np.Num v) ->
  (r < H)%nat /\ (c < W)%nat /\ label_at img_clust r c = v /\ v ∈ np.flatten img_clust.
Proof.
  intros Hs Hget. pose proof (flatten_get _ _ _ Hget) as Hv.
  unfold label_at. rewrite Hget.
  apply has_shape_inv in Hs as (rows & -> & Hlen & Hrows).
  rewrite get_cons in Hget. destruct (rows !! r) as [row |] eqn:Hr; [| discriminate].
  rewrite Forall_forall in Hrows.
  pose proof (Hrows row (list_elem_of_lookup_2 _ _ _ Hr)) as Hrs.
  apply has_shape_inv in Hrs as (cells & -> & Hlen' & _).
  rewrite get_cons in Hget. destruct (cells !! c) as [cell |] eqn:Hc; [| discriminate].
  apply lookup_lt_Some in Hr, Hc. repeat split; (lia || assumption).
Qed.

Lemma color_of_palette (v : Z) :
  0 <= v <= 3 ->
  exists rgb,
    [[0; 0; 0]; [255; 0; 0]; [0; 255; 0]; [0; 0; 255]] !! Z.to_nat v = Some rgb /\
    color_of v = np.array1 rgb.
Proof.
  intros Hv. assert (Hc : v = 0 \/ v = 1 \/ v = 2 \/ v = 3) by lia.
  destruct Hc as [-> | [-> | [-> | ->]]]; eexists; split; reflexivity.
Qed.

(** C7. On a label map with labels from 0 to 3 (at most 4 clusters),
    [result_image_generator] returns, and every pixel of the combined
    overlay is the entry of the palette black (0,0,0), red (255,0,0),
    green (0,255,0), blue (0,0,255) that the pixel's label indexes. *)
Theorem combined_overlay_palette (img_clust original_image : ndarray) (H W : nat) :
  np.has_shape [H; W] img_clust = true ->
  np.has_shape [H; W; 3%nat] original_image = true ->
  (0 < H)%nat -> (0 < W)%nat ->
  (forall v, v ∈ np.flatten img_clust -> 0 <= v <= 3) ->
  exists final_arrays binary_arrays all_masks after,
    result_image_generator img_clust original_image
      = Ok ((final_arrays, binary_arrays, all_masks), after) /\
    forall r c v,
      np.get img_clust [r; c] = Some (np.Num v) ->
      exists rgb,
        [[0; 0; 0]; [255; 0; 0]; [0; 255; 0]; [0; 0; 255]] !! Z.to_nat v = Some rgb /\
        np.get all_masks [r; c] = Some (np.array1 rgb).
Proof.
  intros Hlabels Himage HH HW Hrange.
  destruct (result_image_generator_returns _ _ H W Hlabels Himage HH HW Hrange)
    as (top & final & binary & combined & after & _ & _ & Hrun & Hinv & _).
  exists final, binary, combined, after. split; [exact Hrun |].
  intros r c v Hget.
  destruct (get_label _ H W r c v Hlabels Hget) as (Hr & Hc & Hlab & Hv).
  destruct Hinv as (_ & _ & _ & _ & Hcomb).
  destruct (color_of_palette v (Hrange v Hv)) as (rgb & Hrgb & Hcol).
  exists rgb. split; [exact Hrgb |].
  by rewrite (Hcomb r c Hr Hc), (before_end H r c Hr), Hlab, Hcol.
Qed.

(** C8. In the overlay of cluster [k] that [result_image_generator]
    returns, the pixels labelled [k] are black and every other pixel is the
    pixel of the original image. (It returns whenever the labels go from 0
    to 3.) *)
Theorem overlay_frame (img_clust original_image : ndarray) (H W : nat) :
  np.has_shape [H; W] img_clust = true ->
  np.has_shape [H; W; 3%nat] original_image = true ->
  (forall v, v ∈ np.flatten img_clust -> 0 <= v) ->
  (forall final_arrays binary_arrays all_masks after,
     result_image_generator img_clust original_image
       = Ok ((final_arrays, binary_arrays, all_masks), after) ->
     forall k overlay,
       np.get final_arrays [k] = Some overlay ->
       forall r c v pixel,
         np.get img_clust [r; c] = Some (np.Num v) ->
         np.get original_image [r; c] = Some pixel ->
         np.get overlay [r; c] = Some (if v =? Z.of_nat k then black else pixel)) /\
  ((0 < H)%nat -> (0 < W)%nat ->
   (forall v, v ∈ np.flatten img_clust -> v <= 3) ->
   exists out, result_image_generator img_clust original_image = Ok out).
Proof.
  intros Hlabels Himage Hpos. split.
  - intros final binary combined after Hrun k overlay Hk r c v pixel Hget Hpix.
    destruct (get_label _ H W r c v Hlabels Hget) as (Hr & Hc & Hlab & Hv).
    assert (Hrange : forall w, w ∈ np.flatten img_clust -> 0 <= w <= 3).
    { intros w Hw. split; [by apply Hpos |].
      destruct (Z_le_gt_dec w 3) as [Hle | Hgt]; [exact Hle |].
      destruct (result_image_generator_raises _ original_image H W w Hlabels Hw ltac:(lia))
        as [e He].
      congruence. }
    destruct (result_image_generator_returns _ _ H W Hlabels Himage
                ltac:(lia) ltac:(lia) Hrange)
      as (top & final' & binary' & combined' & after' & _ & _ & Hrun' & Hinv & _).
    rewrite Hrun' in Hrun. injection Hrun as -> -> -> ->.
    destruct Hinv as (Hsf & _ & _ & Hfb & _).
    assert (HkK : (k < Z.to_nat (top + 1))%nat).
    { apply has_shape_inv in Hsf as (items & -> & <- & _).
      rewrite get_cons in Hk. destruct (items !! k) eqn:Hi; [| discriminate].
      by eapply lookup_lt_Some. }
    destruct (Hfb k r c HkK Hr Hc) as [Hf _].
    change [k; r; c] with ([k] ++ [r; c]) in Hf. rewrite get_app, Hk in Hf.
    rewrite Hf, (before_end H r c Hr), Hlab. cbn [andb].
    unfold pixel_at. rewrite Hpix. reflexivity.
  - intros HH HW Hle.
    destruct (result_image_generator_returns _ _ H W Hlabels Himage HH HW)
      as (top & final & binary & combined & after & _ & _ & Hrun & _).
    { intros v Hv. split; [by apply Hpos | by apply Hle]. }
    eauto.
Qed.

(** X5. On a label map with labels from 0 to 3, [result_image_generator]
    returns [K = max + 1] masks, and mask [k] has 1 exactly where the label
    is [k] and 0 elsewhere: every pixel is foreground in exactly one mask. *)
Lemma result_image_generator_masks (img_clust original_image : ndarray) (H W : nat) :
  np.has_shape [H; W] img_clust = true ->
  np.has_shape [H; W; 3%nat] original_image = true ->
  (0 < H)%nat -> (0 < W)%nat ->
  (forall v, v ∈ np.flatten img_clust -> 0 <= v <= 3) ->
  exists top final_arrays masks all_masks after,
    np.max img_clust = Ok top /\
    result_image_generator img_clust original_image
      = Ok ((final_arrays, np.Arr masks, all_masks), after) /\
    length masks = Z.to_nat (top + 1) /\
    (forall k mask r c v,
       masks !! k = Some mask ->
       np.get img_clust [r; c] = Some (np.Num v) ->
       np.get mask [r; c] = Some (np.Num (if v =? Z.of_nat k then 1 else 0))) /\
    (forall r c v,
       np.get img_clust [r; c] = Some (np.Num v) ->
       exists mask,
         masks !! Z.to_nat v = Some mask /\ np.get mask [r; c] = Some (np.Num 1) /\
         forall k other, masks !! k = Some other ->
           np.get other [r; c] = Some (np.Num 1) -> k = Z.to_nat v).
Proof.
  intros Hlabels Himage HH HW Hrange.
  destruct (result_image_generator_returns _ _ H W Hlabels Himage HH HW Hrange)
    as (top & final & binary & combined & after & Hmax & Htop & Hrun & Hinv & _).
  destruct Hinv as (_ & Hsb & _ & Hfb & _).
  apply has_shape_inv in Hsb as (masks & -> & Hlen & _).
  exists top, final, masks, combined, after.
  split; [exact Hmax |]. split; [exact Hrun |]. split; [exact Hlen |].
  assert (Hmask : forall k mask r c v,
            masks !! k = Some mask ->
            np.get img_clust [r; c] = Some (np.Num v) ->
            np.get mask [r; c] = Some (np.Num (if v =? Z.of_nat k then 1 else 0))).
  { intros k mask r c v Hk Hget.
    destruct (get_label _ H W r c v Hlabels Hget) as (Hr & Hc & Hlab & _).
    pose proof (lookup_lt_Some _ _ _ Hk) as HkK. rewrite Hlen in HkK.
    destruct (Hfb k r c HkK Hr Hc) as [_ Hb].
    change [k; r; c] with ([k] ++ [r; c]) in Hb.
    rewrite get_app, get_cons, Hk, get_nil in Hb.
    by rewrite Hb, (before_end H r c Hr), Hlab. }
  split; [exact Hmask |].
  intros r c v Hget.
  destruct (get_label _ H W r c v Hlabels Hget) as (_ & _ & _ & Hv).
  destruct (max_spec _ _ Hmax) as [Hle _].
  pose proof (Hle v Hv) as Hvt. pose proof (Hrange v Hv) as Hv3.
  destruct (lookup_lt_is_Some_2 masks (Z.to_nat v)) as [mask Hm]; [lia |].
  exists mask. split; [exact Hm |]. split.
  - rewrite (Hmask _ _ _ _ _ Hm Hget), Z2Nat.id, Z.eqb_refl by lia. reflexivity.
  - intros k other Hk Hone. rewrite (Hmask _ _ _ _ _ Hk Hget) in Hone.
    destruct (Z.eqb_spec v (Z.of_nat k)) as [-> | _]; [lia | discriminate].
Qed.

(** Rectangular arrays of one shape are equal when they hold the same
    sub-arrays at depth [d]. *)
Lemma ndarray_ext (d : nat) :
  forall (s : list nat) (a b : ndarray),
    np.has_shape s a = true -> np.has_shape s b = true ->
    (forall path, Forall2 lt path (take d s) -> np.get a path = np.get b path) ->
    a = b.
Proof.
  induction d as [| d IH]; intros s a b Ha Hb Hget.
  - specialize (Hget [] ltac:(constructor)). rewrite !get_nil in Hget. congruence.
  - destruct s as [| n s].
    + specialize (Hget [] ltac:(constructor)). rewrite !get_nil in Hget. congruence.
    + apply has_shape_inv in Ha as (la & -> & Hla & Halla).
      apply has_shape_inv in Hb as (lb & -> & Hlb & Hallb).
      f_equal. apply list_eq. intros i.
      destruct (decide (i < n)%nat) as [Hi | Hi].
      * destruct (lookup_lt_is_Some_2 la i) as [x Hx]; [lia |].
        destruct (lookup_lt_is_Some_2 lb i) as [y Hy]; [lia |].
        rewrite Hx, Hy. f_equal.
        rewrite Forall_forall in Halla, Hallb.
        apply (IH s).
        -- by eapply Halla, list_elem_of_lookup_2.
        -- by eapply Hallb, list_elem_of_lookup_2.
        -- intros path Hpath.
           specialize (Hget (i :: path) ltac:(by constructor)).
           by rewrite !get_cons, Hx, Hy in Hget.
      * rewrite !lookup_ge_None_2 by lia. reflexivity.
Qed.

Lemma Forall2_lt_3 (path : list nat) (a b c : nat) (s : list nat) :
  Forall2 lt path (take 3 (a :: b :: c :: s)) ->
  exists i j k, path = [i; j; k] /\ (i < a)%nat /\ (j < b)%nat /\ (k < c)%nat.
Proof.
  cbn [take]. intros Hp.
  apply Forall2_cons_inv_r in Hp as (i & p1 & Hi & Hp & ->).
  apply Forall2_cons_inv_r in Hp as (j & p2 & Hj & Hp & ->).
  apply Forall2_cons_inv_r in Hp as (k & p3 & Hk & Hp & ->).
  apply Forall2_nil_inv_r in Hp as ->. by exists i, j, k.
Qed.

Lemma Forall2_lt_2 (path : list nat) (a b : nat) (s : list nat) :
  Forall2 lt path (take 2 (a :: b :: s)) ->
  exists i j, path = [i; j] /\ (i < a)%nat /\ (j < b)%nat.
Proof.
  cbn [take]. intros Hp.
  apply Forall2_cons_inv_r in Hp as (i & p1 & Hi & Hp & ->).
  apply Forall2_cons_inv_r in Hp as (j & p2 & Hj & Hp & ->).
  apply Forall2_nil_inv_r in Hp as ->. by exists i, j.
Qed.

(** When everything is painted, the arrays are determined by the label map
    and by the image where it shows through. *)
Lemma painted_agree (img_clust image1 image2 : ndarray) (H W K : nat)
    (arrays1 arrays2 : ndarray * ndarray * ndarray) :
  painted img_clust image1 H W K H 0 arrays1 ->
  painted img_clust image2 H W K H 0 arrays2 ->
  (forall q r c, (q < K)%nat -> (r < H)%nat -> (c < W)%nat ->
     label_at img_clust r c <> Z.of_nat q ->
     pixel_at image1 r c = pixel_at image2 r c) ->
  arrays1 = arrays2.
Proof.
  destruct arrays1 as [[f1 b1] c1], arrays2 as [[f2 b2] c2].
  intros (Hsf1 & Hsb1 & Hsc1 & Hfb1 & Hc1) (Hsf2 & Hsb2 & Hsc2 & Hfb2 & Hc2) Hpix.
  f_equal; [f_equal |].
  - apply (ndarray_ext 3 _ _ _ Hsf1 Hsf2). intros path Hpath.
    apply Forall2_lt_3 in Hpath as (q & r & c & -> & Hq & Hr & Hc).
    destruct (Hfb1 q r c Hq Hr Hc) as [-> _], (Hfb2 q r c Hq Hr Hc) as [-> _].
    rewrite (before_end H r c Hr). cbn [andb].
    destruct (Z.eqb_spec (label_at img_clust r c) (Z.of_nat q)) as [_ | Hne];
      [reflexivity |].
    by rewrite (Hpix q r c Hq Hr Hc Hne).
  - apply (ndarray_ext 3 _ _ _ Hsb1 Hsb2). intros path Hpath.
    apply Forall2_lt_3 in Hpath as (q & r & c & -> & Hq & Hr & Hc).
    destruct (Hfb1 q r c Hq Hr Hc) as [_ ->], (Hfb2 q r c Hq Hr Hc) as [_ ->].
    reflexivity.
  - apply (ndarray_ext 2 _ _ _ Hsc1 Hsc2). intros path Hpath.
    apply Forall2_lt_2 in Hpath as (r & c & -> & Hr & Hc).
    by rewrite (Hc1 r c Hr Hc), (Hc2 r c Hr Hc).
Qed.

(** C9. [result_image_generator] is deterministic: two runs on equal
    inputs give equal results, the overlays, the masks and the combined
    overlay included. This holds also of a second run on the very arrays of
    the first, though with a single cluster the first run has painted the
    image it was given: its overlays are a view of it. *)
Theorem result_image_generator_deterministic :
  (forall img_clust1 img_clust2 original_image1 original_image2 : ndarray,
     img_clust1 = img_clust2 -> original_image1 = original_image2 ->
     result_image_generator img_clust1 original_image1
       = result_image_generator img_clust2 original_image2) /\
  (forall (img_clust original_image : ndarray) (H W : nat)
          (arrays : ndarray * ndarray * ndarray) (after : ndarray),
     np.has_shape [H; W] img_clust = true ->
     np.has_shape [H; W; 3%nat] original_image = true ->
     (forall v, v ∈ np.flatten img_clust -> 0 <= v) ->
     result_image_generator img_clust original_image = Ok (arrays, after) ->
     exists after',
       result_image_generator img_clust after = Ok (arrays, after')).
Proof.
  split; [intros ? ? ? ? -> ->; reflexivity |].
  intros img_clust original_image H W arrays after Hlabels Himage Hpos Hrun.
  assert (Hrange : forall w, w ∈ np.flatten img_clust -> 0 <= w <= 3).
  { intros w Hw. split; [by apply Hpos |].
    destruct (Z_le_gt_dec w 3) as [Hle | Hgt]; [exact Hle |].
    destruct (result_image_generator_raises _ original_image H W w Hlabels Hw ltac:(lia))
      as [e He].
    congruence. }
  assert (Hsome : exists v, v ∈ np.flatten img_clust).
  { unfold result_image_generator, np.max in Hrun.
    destruct (np.flatten img_clust) as [| v vs]; [discriminate |].
    exists v. apply elem_of_cons. by left. }
  destruct Hsome as [v0 Hv0].
  destruct (flatten_has_shape H W _ _ Hlabels Hv0) as (r0 & c0 & Hr0 & Hc0 & _).
  assert (HH : (0 < H)%nat) by lia. assert (HW : (0 < W)%nat) by lia.
  destruct (result_image_generator_returns _ _ H W Hlabels Himage HH HW Hrange)
    as (top & final & binary & combined & after1 & Hmax & Htop & Hrun1 & Hinv & Hview & Hcopy).
  rewrite Hrun1 in Hrun. injection Hrun as <- <-.
  destruct (Z.eq_dec top 0) as [-> | Hne].
  - specialize (Hview eq_refl).
    assert (Hafter : np.has_shape [H; W; 3%nat] after1 = true).
    { destruct Hinv as (Hsf & _).
      apply has_shape_inv in Hsf as (items & -> & _ & Hall).
      rewrite get_cons in Hview. destruct (items !! 0%nat) as [x |] eqn:Hx; [| discriminate].
      rewrite get_nil in Hview. injection Hview as <-.
      rewrite Forall_forall in Hall. by eapply Hall, list_elem_of_lookup_2. }
    destruct (result_image_generator_returns _ _ H W Hlabels Hafter HH HW Hrange)
      as (top2 & final2 & binary2 & combined2 & after2 & Hmax2 & _ & Hrun2 & Hinv2 & _).
    rewrite Hmax in Hmax2. injection Hmax2 as <-.
    exists after2. rewrite Hrun2. do 2 f_equal.
    apply (painted_agree img_clust after1 original_image H W _ _ _ Hinv2 Hinv).
    intros q r c Hq Hr Hc Hlab. exfalso. apply Hlab.
    destruct (max_spec _ _ Hmax) as [Hle _].
    assert (Hlt : forall v, v ∈ np.flatten img_clust -> 0 <= v < Z.of_nat 1).
    { intros v Hv. specialize (Hle v Hv). specialize (Hpos v Hv). lia. }
    destruct (label_lookup img_clust H W 1 Hlabels Hlt r c Hr Hc) as (_ & _ & _ & Hl).
    cbn in Hq. lia.
  - assert (Hsame : after1 = original_image) by (apply Hcopy; lia).
    subst after1. by exists original_image.
Qed.

(** The scenario of the specification: the label map [[0,0],[1,1]] on a
    2 x 2 image. *)
Lemma combined_overlay_palette_witness :
  let img_clust := np.array2 [[0; 0]; [1; 1]] in
  let original_image :=
    np.Arr [np.array2 [[10; 20; 30]; [40; 50; 60]];
            np.array2 [[70; 80; 90]; [100; 110; 120]]] in
  (forall v, v ∈ np.flatten img_clust -> 0 <= v <= 3) /\
  exists final_arrays binary_arrays all_masks after,
    result_image_generator img_clust original_image
      = Ok ((final_arrays, binary_arrays, all_masks), after) /\
    forall r c v,
      np.get img_clust [r; c] = Some (np.Num v) ->
      exists rgb,
        [[0; 0; 0]; [255; 0; 0]; [0; 255; 0]; [0; 0; 255]] !! Z.to_nat v = Some rgb /\
        np.get all_masks [r; c] = Some (np.array1 rgb).
Proof.
  intros img_clust original_image.
  assert (Hrange : forall v, v ∈ np.flatten img_clust -> 0 <= v <= 3).
  { intros v Hv. cbn in Hv.
    repeat (apply elem_of_cons in Hv as [-> | Hv]; [lia |]). by apply elem_of_nil in Hv. }
  split; [exact Hrange |].
  apply (combined_overlay_palette img_clust original_image 2 2);
    [reflexivity | reflexivity | lia | lia | exact Hrange].
Defined.

Lemma overlay_frame_witness :
  let img_clust := np.array2 [[0; 0]; [1; 1]] in
  let original_image :=
    np.Arr [np.array2 [[10; 20; 30]; [40; 50; 60]];
            np.array2 [[70; 80; 90]; [100; 110; 120]]] in
  (forall v, v ∈ np.flatten img_clust -> 0 <= v) /\
  forall final_arrays binary_arrays all_masks after,
    result_image_generator img_clust original_image
      = Ok ((final_arrays, binary_arrays, all_masks), after) ->
    forall k overlay,
      np.get final_arrays [k] = Some overlay ->
      forall r c v pixel,
        np.get img_clust [r; c] = Some (np.Num v) ->
        np.get original_image [r; c] = Some pixel ->
        np.get overlay [r; c] = Some (if v =? Z.of_nat k then black else pixel).
Proof.
  intros img_clust original_image.
  assert (Hpos : forall v, v ∈ np.flatten img_clust -> 0 <= v).
  { intros v Hv. cbn in Hv.
    repeat (apply elem_of_cons in Hv as [-> | Hv]; [lia |]). by apply elem_of_nil in Hv. }
  split; [exact Hpos |].
  exact (proj1 (overlay_frame img_clust original_image 2 2 eq_refl eq_refl Hpos)).
Defined.

(** One cluster: the first run paints the image it was given black, and a
    second run on that image returns the same arrays. *)
Lemma result_image_generator_deterministic_witness :
  let img_clust := np.array2 [[0; 0]; [0; 0]] in
  let original_image :=
    np.Arr [np.array2 [[10; 20; 30]; [40; 50; 60]];
            np.array2 [[70; 80; 90]; [100; 110; 120]]] in
  let painted_black := np.full 0 [2; 2; 3]%nat in
  let arrays := (np.Arr [painted_black], np.full 1 [1; 2; 2]%nat, painted_black) in
  result_image_generator img_clust original_image = Ok (arrays, painted_black) /\
  exists after', result_image_generator img_clust painted_black = Ok (arrays, after').
Proof.
  intros img_clust original_image painted_black arrays.
  assert (Hrun : result_image_generator img_clust original_image
                 = Ok (arrays, painted_black)) by (vm_compute; reflexivity).
  split; [exact Hrun |].
  apply (proj2 result_image_generator_deterministic img_clust original_image 2%nat 2%nat
           arrays painted_black eq_refl eq_refl); [| exact Hrun].
  intros v Hv. cbn in Hv.
  repeat (apply elem_of_cons in Hv as [-> | Hv]; [lia |]). by apply elem_of_nil in Hv.
Defined.

(** C2 on five clusters: a 2 x 3 label map with the labels 0 to 4, so that
    [K = max + 1 = 5]. The masks and overlays of five clusters are
    allocated, the palette has no fifth colour, and [result_image_generator]
    raises instead of returning five masks. (With labels from 0 to 3 it
    returns the [K] masks: [result_image_generator_masks].) *)
Lemma result_image_generator_five_clusters :
  let img_clust := np.array2 [[0; 1; 2]; [3; 4; 4]] in
  let original_image :=
    np.Arr [np.array2 [[10; 20; 30]; [40; 50; 60]; [70; 80; 90]];
            np.array2 [[15; 25; 35]; [45; 55; 65]; [75; 85; 95]]] in
  np.max img_clust = Ok 4 /\
  result_image_generator img_clust original_image
    = Raise (IndexError "index is out of bounds for axis 0").
Proof. split; vm_compute; reflexivity. Qed.

(** The scenario of the specification: two masks [[1,1],[0,0]] and
    [[0,0],[1,1]], and no contour large enough in either. *)
Example result_image_generator_scenario :
  exists final_arrays all_masks after,
    result_image_generator (np.array2 [[0; 0]; [1; 1]])
      (np.Arr [np.array2 [[10; 20; 30]; [40; 50; 60]];
               np.array2 [[70; 80; 90]; [100; 110; 120]]])
    = Ok ((final_arrays,
           np.Arr [np.array2 [[1; 1]; [0; 0]]; np.array2 [[0; 0]; [1; 1]]],
           all_masks), after).
Proof. do 3 eexists. vm_compute. reflexivity. Qed.

(* ================================================================= *)
(** ** [image_postprocessing] *)

(** Splitting [do x <- r; k = Ok y]. *)
Lemma bind_Ok {A B : Type} (r : result A) (k : A -> result B) (y : B) :
  bind r k = Ok y -> exists x, r = Ok x /\ k x = Ok y.
Proof. destruct r as [x | e]; [eauto | discriminate]. Qed.

Tactic Notation "bind_inv" hyp(H) "as" ident(x) ident(Hx) :=
  apply bind_Ok in H as (x & Hx & H).

Lemma for_each_preserves {A S : Type} (P : S -> Prop) (body : S -> A -> result S)
    (xs : list A) :
  (forall acc x acc', P acc -> body acc x = Ok acc' -> P acc') ->
  forall acc r, P acc -> for_each body xs acc = Ok r -> P r.
Proof.
  intros Hstep. induction xs as [| x xs IH]; intros acc r Hacc Hrun.
  - injection Hrun as <-. exact Hacc.
  - cbn [for_each] in Hrun. bind_inv Hrun as acc' Hacc'. eauto.
Qed.

Lemma tile_shape (vs : list Z) (n : nat) :
  forall x, length (np.shape x) = n ->
            last (np.shape x) = Some (length vs) ->
            np.shape (np.tile vs x) = np.shape x.
Proof.
  induction n as [| n IH]; intros x Hn Hlast.
  - destruct x as [v | items]; [discriminate | discriminate].
  - destruct x as [v | items]; [discriminate |].
    destruct items as [| first rest]; [reflexivity |].
    destruct first as [w | items'].
    + cbn in Hlast. injection Hlast as Hlen. cbn [np.tile np.shape].
      rewrite length_fmap, <- Hlen. destruct vs; [discriminate | reflexivity].
    + change (np.tile vs (np.Arr (np.Arr items' :: rest)))
        with (np.Arr (np.tile vs (np.Arr items') :: (np.tile vs <$> rest))).
      change (np.shape (np.Arr (?y :: ?l))) with (S (length l) :: np.shape y).
      change (np.shape (np.Arr (np.Arr items' :: rest)))
        with (S (length rest) :: np.shape (np.Arr items')) in Hn, Hlast.
      rewrite length_fmap. f_equal. apply IH.
      * cbn [length] in Hn. by injection Hn.
      * exact Hlast.
Qed.

Lemma assign_black_shape (x y : ndarray) :
  assign black x = Ok y -> np.shape y = np.shape x.
Proof.
  unfold assign, black, np.array1, np.assign_vector. cbn [np.flatten fmap list_fmap concat app length].
  destruct (last (np.shape x)) as [n |] eqn:Hlast; [| discriminate].
  destruct (Nat.eqb_spec n 3) as [-> | _]; [| discriminate].
  intros [= <-]. by eapply tile_shape.
Qed.

Lemma setitem_shape (assign : ndarray -> result ndarray) :
  (forall x y, assign x = Ok y -> np.shape y = np.shape x) ->
  forall path a a', np.setitem a path assign = Ok a' -> np.shape a' = np.shape a.
Proof.
  intros Hassign. induction path as [| i path IH]; intros a a' Hset.
  - by apply Hassign.
  - destruct a as [v | items]; [discriminate |]. cbn [np.setitem] in Hset.
    bind_inv Hset as k Hk. bind_inv Hset as x Hx. bind_inv Hset as x' Hx'.
    injection Hset as <-.
    unfold list_getitem in Hx. destruct (items !! k) as [z |] eqn:Hz; [| discriminate].
    injection Hx as ->. apply IH in Hx'.
    cbn [np.shape]. rewrite length_insert. f_equal.
    destruct items as [| y rest]; [discriminate |].
    destruct k as [| k]; cbn in *; [| reflexivity]. congruence.
Qed.

Lemma paint_pixel_shape (img_clust : ndarray) (j k : nat)
    (arrays arrays' : ndarray * ndarray * ndarray) :
  paint_pixel img_clust j k arrays = Ok arrays' ->
  np.shape arrays'.1.1 = np.shape arrays.1.1.
Proof.
  destruct arrays as [[final binary] combined]. unfold paint_pixel. intros Hrun.
  bind_inv Hrun as row Hrow. bind_inv Hrun as label Hlabel. bind_inv Hrun as key Hkey.
  bind_inv Hrun as final' Hfinal. bind_inv Hrun as binary' Hbinary.
  bind_inv Hrun as combined' Hcombined. injection Hrun as <-. cbn [fst].
  eapply setitem_shape; [apply assign_black_shape | exact Hfinal].
Qed.

Lemma gen_base_arrays_view (ori_image : ndarray) (num_clusts : Z)
    (arrays : ndarray * ndarray * ndarray) :
  gen_base_arrays ori_image num_clusts = Ok arrays ->
  final_array_is_view num_clusts = true ->
  arrays.1.1 = np.Arr [ori_image].
Proof.
  unfold gen_base_arrays, final_array_is_view. intros Hrun Hview.
  bind_inv Hrun as dims0 Hdims0. bind_inv Hrun as dims1 Hdims1.
  bind_inv Hrun as binary Hbinary. bind_inv Hrun as combined Hcombined.
  bind_inv Hrun as final Hfinal. injection Hrun as <-. cbn [fst].
  destruct (range (num_clusts - 1)); [| discriminate].
  by injection Hfinal as <-.
Qed.

(** The image keeps its shape through [result_image_generator], painted
    or not. *)
Lemma result_image_generator_shape (img_clust original_image : ndarray)
    (arrays : ndarray * ndarray * ndarray) (after : ndarray) :
  result_image_generator img_clust original_image = Ok (arrays, after) ->
  np.shape after = np.shape original_image.
Proof.
  unfold result_image_generator. intros Hrun.
  bind_inv Hrun as top Htop. bind_inv Hrun as arrays0 Hbase. bind_inv Hrun as dims0 Hdims0.
  bind_inv Hrun as arrays1 Hloop. destruct arrays1 as [[final binary] combined].
  bind_inv Hrun as after' Hafter. injection Hrun as _ <-.
  destruct (final_array_is_view (top + 1)) eqn:Hview; [| by injection Hafter as <-].
  apply gen_base_arrays_view in Hbase; [| exact Hview].
  assert (Hshape : np.shape final = np.shape arrays0.1.1).
  { refine (for_each_preserves (fun st => np.shape st.1.1 = np.shape arrays0.1.1)
              _ _ _ arrays0 (final, binary, combined) eq_refl Hloop).
    intros acc j acc' Hacc Hrow. bind_inv Hrow as dims1 Hdims1.
    refine (for_each_preserves (fun st => np.shape st.1.1 = np.shape arrays0.1.1)
              _ _ _ acc acc' Hacc Hrow).
    intros acc1 k acc2 Hacc1 Hpix. by rewrite (paint_pixel_shape _ _ _ _ _ Hpix). }
  rewrite Hbase in Hshape.
  destruct final as [v | items]; [discriminate |]. cbn [np.getitem] in Hafter.
  bind_inv Hafter as i Hi. unfold list_getitem in Hafter.
  destruct (items !! i) as [z |] eqn:Hz; [| discriminate]. injection Hafter as ->.
  unfold np.index in Hi. cbn [np.shape length] in Hshape.
  injection Hshape as Hlen Hfirst. rewrite Hlen in Hi. cbn in Hi. injection Hi as <-.
  destruct items as [| y rest]; [discriminate |].
  change (Z.to_nat 0) with 0%nat in Hz. cbn in Hz. congruence.
Qed.

Section ImagePostprocessing.

Context {CV : cv2.api} {OS : os.api}.

(** [base_results_generator] refuses an image of a bad shape before it
    creates or writes anything. *)
Lemma base_results_generator_bad_shape (original_image all_clust_image : ndarray)
    (filepath : string) (tr : list event) :
  bad_shape original_image ->
  exists e,
    shape_validation_error e /\
    base_results_generator original_image all_clust_image filepath tr = (tr, Raise e).
Proof.
  intros Hbad. unfold base_results_generator, io_bind, io_raise, io_ret, io_lift.
  destruct (Nat.eqb_spec (np.ndim original_image) 3) as [Hnd | Hnd]; cbn [negb].
  2: { eexists. split; [| reflexivity]. left. by eexists. }
  destruct (Nat.eqb_spec (np.ndim all_clust_image) 3) as [Hnd' | Hnd']; cbn [negb].
  2: { eexists. split; [| reflexivity]. right. left. by eexists. }
  destruct Hbad as [Hbad | Hbad]; [congruence |].
  unfold np.ndim in Hnd. unfold list_getitem.
  destruct (np.shape original_image !! 2%nat) as [c |] eqn:Hc.
  - destruct (Nat.eqb_spec c 3) as [-> | Hc3]; [congruence |]. cbn [negb].
    eexists. split; [| reflexivity]. right. by right.
  - apply lookup_ge_None in Hc. lia.
Qed.

(** C5, as the code has it. On an image that has not exactly 3 dimensions
    or not 3 channels, [image_postprocessing] raises and nothing is created
    or written. The shape is checked by [base_results_generator], which
    runs after [result_image_generator]: when the overlays and masks could
    be built the error is the one of the shape check, and otherwise it is
    the error [result_image_generator] raised. *)
Theorem image_postprocessing_bad_shape (clusters ori_img : ndarray) (filepath : string)
    (gen_overlays gen_masks gen_csv : bool) (tr : list event) :
  bad_shape ori_img ->
  exists e,
    image_postprocessing clusters ori_img filepath gen_overlays gen_masks gen_csv tr
      = (tr, Raise e) /\
    match result_image_generator clusters ori_img with
    | Ok _ => shape_validation_error e
    | Raise e' => e = e'
    end.
Proof.
  intros Hbad. unfold image_postprocessing, io_bind at 1, io_lift at 1.
  destruct (result_image_generator clusters ori_img)
    as [[[[masked_images masks] all_masks] after] | e'] eqn:Hrun.
  - assert (Hafter : bad_shape after).
    { unfold bad_shape, np.ndim in *.
      by rewrite (result_image_generator_shape _ _ _ _ Hrun). }
    destruct (base_results_generator_bad_shape after all_masks filepath tr Hafter)
      as (e & Hval & Hbase).
    exists e. split; [| exact Hval].
    unfold io_bind. rewrite Hbase. reflexivity.
  - exists e'. split; reflexivity.
Qed.

End ImagePostprocessing.

(** A 2 x 2 image with four channels. *)
Lemma image_postprocessing_bad_shape_witness :
  let CV := Example.cv in
  let OS := Example.fs in
  let clusters := np.array2 [[0; 0]; [1; 1]] in
  let ori_img :=
    np.Arr [np.array2 [[10; 20; 30; 255]; [40; 50; 60; 255]];
            np.array2 [[70; 80; 90; 255]; [100; 110; 120; 255]]] in
  bad_shape ori_img /\
  exists e, image_postprocessing clusters ori_img "out" true false true [] = ([], Raise e).
Proof.
  intros CV OS clusters ori_img.
  assert (Hbad : bad_shape ori_img) by (right; cbn; discriminate).
  split; [exact Hbad |].
  destruct (image_postprocessing_bad_shape clusters ori_img "out" true false true [] Hbad)
    as (e & Hrun & _).
  by exists e.
Defined.

(** C5 as stated fails on a grey-level image of two dimensions: the error
    raised is numpy's, from the first pixel [result_image_generator]
    paints, and not one of the shape checks. *)
Lemma image_postprocessing_validates_late :
  let CV := Example.cv in
  let OS := Example.fs in
  let clusters := np.array2 [[0; 0]; [1; 1]] in
  let ori_img := np.array2 [[10; 20]; [30; 40]] in
  bad_shape ori_img /\
  result_image_generator clusters ori_img
    = Raise (ValueError "setting an array element with a sequence.") /\
  ~ (exists e,
       shape_validation_error e /\
       image_postprocessing clusters ori_img "out" true false true [] = ([], Raise e)).
Proof.
  intros CV OS clusters ori_img.
  split; [left; cbn; discriminate |]. split; [vm_compute; reflexivity |].
  intros (e & Hval & Hrun). vm_compute in Hrun. injection Hrun as <-.
  destruct Hval as [[n Hn] | [[n Hn] | Hn]]; cbn in Hn; discriminate Hn.
Qed.

(** With four channels the first pixel painted does not take the three
    numbers of black; with one dimension there is no width to read. *)
Example image_postprocessing_four_channels :
  image_postprocessing (CV := Example.cv) (OS := Example.fs)
    (np.array2 [[0; 0]; [1; 1]])
    (np.Arr [np.array2 [[10; 20; 30; 255]; [40; 50; 60; 255]];
             np.array2 [[70; 80; 90; 255]; [100; 110; 120; 255]]])
    "out" true false true []
  = ([], Raise (ValueError "could not broadcast input array")).
Proof. vm_compute. reflexivity. Qed.

Example image_postprocessing_one_dimension :
  image_postprocessing (CV := Example.cv) (OS := Example.fs)
    (np.array2 [[0; 0]; [1; 1]]) (np.array1 [10; 20; 30])
    "out" true false true []
  = ([], Raise (IndexError "tuple index out of range")).
Proof. vm_compute. reflexivity. Qed.

(** On an image of four dimensions the overlays and masks are built first,
    and the shape check raises afterwards. *)
Example image_postprocessing_validates_after_masks :
  let clusters := np.array2 [[0; 1]] in
  let pixel := np.array2 [[1; 2; 3]; [4; 5; 6]; [7; 8; 9]] in
  let ori_img := np.Arr [np.Arr [pixel; pixel]] in
  (exists out, result_image_generator clusters ori_img = Ok out) /\
  image_postprocessing (CV := Example.cv) (OS := Example.fs)
    clusters ori_img "out" true false true []
  = ([], Raise (ValueError "Original image has 3 dimensions but 4 were input")).
Proof. split; [eexists |]; vm_compute; reflexivity. Qed.

(* ================================================================= *)
(** * The rest of [seg.py]

    Properties of the functions read off the code: what the writers write
    and refuse, the edges of [gen_base_arrays] and
    [result_image_generator], the filters in closed form, and the entry
    points [cluster_model_fit] and [segment_TILs]. *)

Lemma io_bind_ok {A B : Type} (m : io A) (k : A -> io B) (tr tr' : list event) (a : A) :
  m tr = (tr', Ok a) -> io_bind m k tr = k a tr'.
Proof. unfold io_bind. by intros ->. Qed.

Lemma io_bind_raise {A B : Type} (m : io A) (k : A -> io B) (tr tr' : list event)
    (e : exn) :
  m tr = (tr', Raise e) -> io_bind m k tr = (tr', Raise e).
Proof. unfold io_bind. by intros ->. Qed.

(* ================================================================= *)
(** ** [base_results_generator] and [generate_image_series] *)

Section Writers.

Context {CV : cv2.api} {OS : os.api}.

Lemma made_dir_step (path : string) (tr : list event) :
  (if negb (os.path_exists tr path) then emit (os_mkdir path) else io_ret tt) tr
  = (tr ++ made_dir tr path, Ok tt).
Proof.
  unfold made_dir. destruct (os.path_exists tr path); cbn [negb].
  - unfold io_ret. by rewrite app_nil_r.
  - reflexivity.
Qed.

(** X1. [base_results_generator] writes exactly when both arrays have 3
    dimensions and 3 channels: it then makes the directory unless it
    exists and writes [Original.jpg] and [AllClusters.jpg], in this order;
    when either array has another shape it raises one of the errors of its
    shape checks and nothing is created or written. (The heights and the
    widths of the two arrays are not compared.) *)
Theorem base_results_generator_outcome (original_image all_clust_image : ndarray)
    (filepath : string) (tr : list event) :
  (~ bad_shape original_image -> ~ bad_shape all_clust_image ->
   base_results_generator original_image all_clust_image filepath tr =
     (tr ++ made_dir tr filepath
         ++ [cv2_imwrite (os.path_join filepath "Original.jpg") original_image;
             cv2_imwrite (os.path_join filepath "AllClusters.jpg") all_clust_image],
      Ok tt)) /\
  (bad_shape original_image \/ bad_shape all_clust_image ->
   exists e,
     shape_validation_error e /\
     base_results_generator original_image all_clust_image filepath tr = (tr, Raise e)).
Proof.
  assert (Hgood : forall a, ~ bad_shape a ->
            np.ndim a = 3%nat /\ np.shape a !! 2%nat = Some 3%nat).
  { intros a Ha. unfold bad_shape in Ha.
    destruct (decide (np.ndim a = 3%nat)) as [Hn | Hn]; [| tauto].
    destruct (decide (np.shape a !! 2%nat = Some 3%nat)) as [Hc | Hc]; tauto. }
  split.
  - intros Ha Hb. apply Hgood in Ha as [Han Hac], Hb as [Hbn Hbc].
    unfold base_results_generator. rewrite Han, Hbn. cbn [Nat.eqb negb].
    unfold list_getitem. rewrite Hac, Hbc. cbn [Nat.eqb negb].
    rewrite (io_bind_ok _ _ tr tr tt) by reflexivity.
    rewrite (io_bind_ok _ _ tr tr tt) by reflexivity.
    rewrite (io_bind_ok _ _ tr tr 3%nat) by reflexivity.
    rewrite (io_bind_ok _ _ tr tr false) by reflexivity.
    rewrite (io_bind_ok _ _ tr tr tt) by reflexivity.
    erewrite io_bind_ok by apply made_dir_step.
    erewrite io_bind_ok by reflexivity.
    unfold emit. by rewrite <- !app_assoc.
  - intros [Ha | Hb]; [by apply base_results_generator_bad_shape |].
    destruct (decide (bad_shape original_image)) as [Ha | Ha];
      [by apply base_results_generator_bad_shape |].
    apply Hgood in Ha as [Han Hac].
    unfold base_results_generator. rewrite Han. cbn [Nat.eqb negb].
    rewrite (io_bind_ok _ _ tr tr tt) by reflexivity.
    destruct (Nat.eqb_spec (np.ndim all_clust_image) 3) as [Hnd | Hnd]; cbn [negb].
    2: { eexists. split; [| reflexivity]. right. left. by eexists. }
    rewrite (io_bind_ok _ _ tr tr tt) by reflexivity.
    destruct Hb as [Hb | Hb]; [congruence |].
    unfold list_getitem. rewrite Hac.
    rewrite (io_bind_ok _ _ tr tr 3%nat) by reflexivity. cbn [Nat.eqb negb].
    unfold np.ndim in Hnd.
    destruct (np.shape all_clust_image !! 2%nat) as [c |] eqn:Hc.
    + destruct (Nat.eqb_spec c 3) as [-> | Hc3]; [congruence |].
      eexists. split; [| unfold io_bind, io_lift, io_ret, io_raise;
                         rewrite (proj2 (Nat.eqb_neq c 3) Hc3); reflexivity].
      right. by right.
    + apply lookup_ge_None in Hc. lia.
Qed.

(** The loop of [generate_image_series] saves the images in order, with
    names counted from 1. *)
Lemma image_series_loop (items : list ndarray) :
  forall (suf pre : list ndarray) (tr : list event),
    items = pre ++ suf ->
    io_for_each
      (fun count =>
         run img <- io_lift (np.getitem (np.Arr items) (Z.of_nat count));
         emit (plt_imsave ("Image" ++ str (count + 1) ++ ".jpg")%string img))
      (seq (length pre) (length suf)) tr
    = (tr ++ imap (fun i img =>
                     plt_imsave ("Image" ++ str (length pre + i + 1) ++ ".jpg")%string img)
               suf, Ok tt).
Proof.
  induction suf as [| x suf IH]; intros pre tr Hitems.
  - cbn. by rewrite app_nil_r.
  - cbn [length seq io_for_each]. unfold io_bind at 1, io_bind at 1, io_lift at 1.
    assert (Hget : np.getitem (np.Arr items) (Z.of_nat (length pre)) = Ok x).
    { apply getitem_get. rewrite get_cons. subst items.
      rewrite list_lookup_middle by reflexivity. apply get_nil. }
    rewrite Hget. unfold emit at 1.
    specialize (IH (pre ++ [x])). rewrite length_app, Nat.add_1_r in IH.
    rewrite IH by (by rewrite <- app_assoc).
    rewrite <- app_assoc. cbn [app imap]. rewrite Nat.add_0_r.
    do 3 f_equal. apply imap_ext. intros i y _. cbn [compose].
    by replace (S (length pre) + i)%nat with (length pre + S i)%nat by lia.
Qed.

Lemma generate_image_series_ndim (image_array : ndarray) (filepath prefix : string)
    (tr : list event) :
  np.ndim image_array <> 4%nat ->
  generate_image_series image_array filepath prefix tr =
    (tr, Raise (ValueError ("All cluster image has 3 dimensions but "
                            ++ str (np.ndim image_array) ++ " were input")%string)).
Proof.
  intros Hnd. unfold generate_image_series.
  rewrite (proj2 (Nat.eqb_neq _ _) Hnd). reflexivity.
Qed.

Lemma generate_image_series_run (image_array : ndarray) (K H W : nat)
    (filepath prefix : string) (tr : list event) :
  np.shape image_array = [K; H; W; 3%nat] ->
  exists items,
    image_array = np.Arr items /\ length items = K /\
    generate_image_series image_array filepath prefix tr =
      (tr ++ image_series tr items filepath prefix, Ok tt).
Proof.
  intros Hshape.
  destruct image_array as [v | items]; [discriminate |].
  assert (Hlen : length items = K) by (by injection Hshape).
  exists items. split; [reflexivity |]. split; [exact Hlen |].
  unfold generate_image_series, np.ndim. rewrite Hshape.
  cbn [length Nat.eqb negb list_getitem lookup list_lookup].
  rewrite (io_bind_ok _ _ tr tr tt) by reflexivity.
  rewrite (io_bind_ok _ _ tr tr 3%nat) by reflexivity.
  rewrite (io_bind_ok _ _ tr tr tt) by reflexivity.
  erewrite io_bind_ok by apply made_dir_step.
  erewrite io_bind_ok by reflexivity.
  erewrite io_bind_ok by reflexivity.
  rewrite range_of_nat.
  pose proof (fun tr' => image_series_loop items items [] tr' eq_refl) as Hloop.
  cbn [length Nat.add] in Hloop. rewrite Hlen in Hloop.
  rewrite Hloop. unfold image_series, image_files. by rewrite <- !app_assoc.
Qed.


(** X3. [generate_image_series] refuses an array that has not 4
    dimensions, and one of 4 dimensions whose last is not 3, before it
    makes a directory or saves anything. The message for the number of
    dimensions always says "has 3 dimensions" and quotes the number found,
    so an array of 3 dimensions is refused with "All cluster image has 3
    dimensions but 3 were input". *)
Theorem generate_image_series_rejects (image_array : ndarray)
    (filepath prefix : string) (tr : list event) :
  (np.ndim image_array <> 4%nat ->
   generate_image_series image_array filepath prefix tr =
     (tr, Raise (ValueError ("All cluster image has 3 dimensions but "
                             ++ str (np.ndim image_array) ++ " were input")%string))) /\
  (np.ndim image_array = 3%nat ->
   generate_image_series image_array filepath prefix tr =
     (tr, Raise (ValueError "All cluster image has 3 dimensions but 3 were input"))) /\
  (np.ndim image_array = 4%nat -> np.shape image_array !! 3%nat <> Some 3%nat ->
   generate_image_series image_array filepath prefix tr =
     (tr, Raise (ValueError "Images should have 3 channels for RGB"))).
Proof.
  split; [apply generate_image_series_ndim |]. split.
  - intros Hnd. rewrite generate_image_series_ndim by lia. by rewrite Hnd.
  - intros Hnd Hc. unfold generate_image_series. rewrite Hnd. cbn [Nat.eqb negb].
    rewrite (io_bind_ok _ _ tr tr tt) by reflexivity.
    unfold np.ndim in Hnd. unfold list_getitem.
    destruct (np.shape image_array !! 3%nat) as [c |] eqn:Hc'.
    + rewrite (io_bind_ok _ _ tr tr c) by reflexivity.
      destruct (Nat.eqb_spec c 3) as [-> | Hc3]; [congruence | reflexivity].
    + apply lookup_ge_None in Hc'. lia.
Qed.

End Writers.


(* ================================================================= *)
(** ** [gen_base_arrays] and [result_image_generator], at the edges *)

(** X4. For an image of two dimensions or more, of height [H] and width
    [W]: [gen_base_arrays] raises [ValueError] for a negative number of
    clusters, and otherwise returns [max(1, num_clusts)] copies of the
    image, [num_clusts] zero masks of [H x W], and one zero [H x W x 3]
    array. For [num_clusts = 0] this is one copy of the image and no mask:
    the number of copies and the number of masks then differ. *)
Theorem gen_base_arrays_outcome (ori_image : ndarray) (H W : nat) (rest : list nat)
    (num_clusts : Z) :
  np.shape ori_image = H :: W :: rest ->
  (num_clusts < 0 ->
   gen_base_arrays ori_image num_clusts
     = Raise (ValueError "negative dimensions are not allowed")) /\
  (0 <= num_clusts ->
   gen_base_arrays ori_image num_clusts
     = Ok (np.Arr (replicate (Nat.max 1 (Z.to_nat num_clusts)) ori_image),
           np.full 0 [Z.to_nat num_clusts; H; W], np.full 0 [H; W; 3%nat])).
Proof.
  intros Hshape. unfold gen_base_arrays. rewrite Hshape.
  cbn [list_getitem lookup list_lookup bind]. unfold np.zeros. cbn [forallb].
  rewrite !(proj2 (Z.leb_le 0 (Z.of_nat _))) by lia. cbn [andb].
  split; intros Hn.
  - rewrite (proj2 (Z.leb_gt 0 num_clusts)) by lia. reflexivity.
  - rewrite (proj2 (Z.leb_le 0 num_clusts)) by lia.
    cbn [andb bind fmap list_fmap]. rewrite !Nat2Z.id.
    change (Z.to_nat 3) with 3%nat.
    pose proof (stack_copies ori_image (Z.to_nat (num_clusts - 1)) 0%nat 0%nat) as Hstack.
    cbn [replicate] in Hstack. unfold range, np.expand_dims0 in *. rewrite Hstack.
    assert (Hk : (1 + Z.to_nat (num_clusts - 1))%nat = Nat.max 1 (Z.to_nat num_clusts))
      by lia.
    rewrite Hk. reflexivity.
Qed.

(** No cluster asked for: one copy of the image, and no mask. *)
Lemma gen_base_arrays_outcome_witness :
  let ori_image := np.Arr [np.array2 [[1; 2; 3]; [4; 5; 6]]] in
  np.shape ori_image = [1; 2; 3]%nat /\
  gen_base_arrays ori_image (-1) = Raise (ValueError "negative dimensions are not allowed") /\
  gen_base_arrays ori_image 0 =
    Ok (np.Arr [ori_image], np.Arr [], np.Arr [np.array2 [[0; 0; 0]; [0; 0; 0]]]).
Proof.
  intros ori_image.
  assert (Hshape : np.shape ori_image = [1; 2; 3]%nat) by reflexivity.
  split; [exact Hshape |]. split.
  - apply (proj1 (gen_base_arrays_outcome ori_image 1 2 [3%nat] (-1) Hshape)). lia.
  - apply (proj2 (gen_base_arrays_outcome ori_image 1 2 [3%nat] 0 Hshape)). lia.
Defined.

(** A 2 x 2 label map with two clusters. *)
Lemma result_image_generator_masks_witness :
  let img_clust := np.array2 [[0; 1]; [1; 0]] in
  let original_image :=
    np.Arr [np.array2 [[10; 20; 30]; [40; 50; 60]];
            np.array2 [[70; 80; 90]; [100; 110; 120]]] in
  np.has_shape [2; 2]%nat img_clust = true /\
  np.has_shape [2; 2; 3]%nat original_image = true /\
  (forall v, v ∈ np.flatten img_clust -> 0 <= v <= 3) /\
  exists final_arrays masks all_masks after,
    result_image_generator img_clust original_image
      = Ok ((final_arrays, np.Arr masks, all_masks), after) /\
    length masks = 2%nat.
Proof.
  intros img_clust original_image.
  assert (Hlabels : np.has_shape [2; 2]%nat img_clust = true) by reflexivity.
  assert (Himage : np.has_shape [2; 2; 3]%nat original_image = true) by reflexivity.
  assert (Hrange : forall v, v ∈ np.flatten img_clust -> 0 <= v <= 3).
  { intros v Hv. cbn in Hv. rewrite !elem_of_cons, elem_of_nil in Hv. lia. }
  split; [exact Hlabels |]. split; [exact Himage |]. split; [exact Hrange |].
  destruct (result_image_generator_masks img_clust original_image 2 2 Hlabels Himage
              ltac:(lia) ltac:(lia) Hrange)
    as (top & final_arrays & masks & all_masks & after & Hmax & Hrun & Hlen & _).
  exists final_arrays, masks, all_masks, after. split; [exact Hrun |].
  assert (Htop : np.max img_clust = Ok 1) by reflexivity.
  rewrite Htop in Hmax. injection Hmax as <-. exact Hlen.
Defined.

(** X6. [result_image_generator] returns only on label maps without a
    label above 3: whatever the image, an [H x W] label map holding a label
    of 4 or more makes it raise, although the callers admit up to 8
    clusters. *)
Theorem result_image_generator_label_bound (img_clust original_image : ndarray)
    (H W : nat) (out : (ndarray * ndarray * ndarray) * ndarray) :
  np.has_shape [H; W] img_clust = true ->
  result_image_generator img_clust original_image = Ok out ->
  forall v, v ∈ np.flatten img_clust -> v <= 3.
Proof.
  intros Hlabels Hrun v Hv.
  destruct (Z_le_gt_dec v 3) as [Hle | Hgt]; [exact Hle |].
  destruct (result_image_generator_raises _ original_image H W v Hlabels Hv ltac:(lia))
    as [e He].
  congruence.
Qed.

Lemma result_image_generator_label_bound_witness :
  let img_clust := np.array2 [[0; 3]] in
  let original_image := np.Arr [np.array2 [[10; 20; 30]; [40; 50; 60]]] in
  np.has_shape [1; 2]%nat img_clust = true /\
  (exists out, result_image_generator img_clust original_image = Ok out) /\
  forall v, v ∈ np.flatten img_clust -> v <= 3.
Proof.
  intros img_clust original_image.
  assert (Hlabels : np.has_shape [1; 2]%nat img_clust = true) by reflexivity.
  assert (Hrun : exists out, result_image_generator img_clust original_image = Ok out)
    by (eexists; vm_compute; reflexivity).
  split; [exact Hlabels |]. split; [exact Hrun |].
  destruct Hrun as [out Hrun].
  exact (result_image_generator_label_bound img_clust original_image 1 2 out Hlabels Hrun).
Defined.

(** The arrays [result_image_generator] returns on a label map with labels
    from 0 to 3, and the image of the caller after the call: with a single
    cluster the overlays are a view of the image, and painting its only
    overlay has painted the image black. *)
Lemma result_image_generator_arrays (img_clust original_image : ndarray) (H W : nat) :
  np.has_shape [H; W] img_clust = true ->
  np.has_shape [H; W; 3%nat] original_image = true ->
  (0 < H)%nat -> (0 < W)%nat ->
  (forall v, v ∈ np.flatten img_clust -> 0 <= v <= 3) ->
  exists top overlays masks combined,
    np.max img_clust = Ok top /\ 0 <= top <= 3 /\
    result_image_generator img_clust original_image
      = Ok ((np.Arr overlays, np.Arr masks, combined),
            if top =? 0 then np.full 0 [H; W; 3%nat] else original_image) /\
    np.has_shape [Z.to_nat (top + 1); H; W; 3%nat] (np.Arr overlays) = true /\
    np.has_shape [Z.to_nat (top + 1); H; W] (np.Arr masks) = true /\
    np.has_shape [H; W; 3%nat] combined = true.
Proof.
  intros Hlabels Himage HH HW Hrange.
  destruct (result_image_generator_returns _ _ H W Hlabels Himage HH HW Hrange)
    as (top & final & binary & combined & after & Hmax & Htop & Hrun & Hinv
        & Hview & Hcopy).
  pose proof Hinv as (Hsf & Hsb & Hsc & Hfb & _).
  destruct (has_shape_inv _ _ _ Hsf) as (overlays & -> & _ & _).
  destruct (has_shape_inv _ _ _ Hsb) as (masks & -> & _ & _).
  exists top, overlays, masks, combined.
  split; [exact Hmax |]. split; [exact Htop |].
  split; [| by repeat split]. rewrite Hrun. do 2 f_equal.
  destruct (Z.eqb_spec top 0) as [-> | Hne]; [| apply Hcopy; lia].
  specialize (Hview eq_refl). change (Z.to_nat (0 + 1)) with 1%nat in *.
  destruct (has_shape_get _ _ _ 0%nat Hsf ltac:(lia)) as (x & Hx & Hxs).
  rewrite Hx in Hview. injection Hview as ->.
  apply (ndarray_ext 2 _ _ _ Hxs (has_shape_full 0 _)). intros path Hpath.
  apply Forall2_lt_2 in Hpath as (r & c & -> & Hr & Hc).
  rewrite get_full2 by assumption.
  destruct (Hfb 0%nat r c ltac:(lia) Hr Hc) as [Hget _].
  change [0%nat; r; c] with ([0%nat] ++ [r; c]) in Hget.
  rewrite get_app, Hx in Hget. rewrite Hget, (before_end H r c Hr).
  destruct (max_spec _ _ Hmax) as [Hle _].
  assert (Hlt : forall v, v ∈ np.flatten img_clust -> 0 <= v < Z.of_nat 1).
  { intros v Hv. specialize (Hle v Hv). specialize (Hrange v Hv). lia. }
  destruct (label_lookup img_clust H W 1 Hlabels Hlt r c Hr Hc) as (_ & _ & _ & Hlab).
  replace (label_at img_clust r c) with 0 by lia. reflexivity.
Qed.

(** X7. [result_image_generator] changes the image it is given exactly
    when there is a single cluster. On an [H x W] label map with labels
    from 0 to 3 and an [H x W] RGB image: when every label is 0 the image
    of the caller is all black after the call (the one overlay is a view of
    it, and every pixel of it is painted); when some label is 1 or more the
    overlays are copies and the image is left as it was. *)
Theorem result_image_generator_image_after (img_clust original_image : ndarray)
    (H W : nat) :
  np.has_shape [H; W] img_clust = true ->
  np.has_shape [H; W; 3%nat] original_image = true ->
  (0 < H)%nat -> (0 < W)%nat ->
  (forall v, v ∈ np.flatten img_clust -> 0 <= v <= 3) ->
  exists top arrays,
    np.max img_clust = Ok top /\
    result_image_generator img_clust original_image
      = Ok (arrays, if top =? 0 then np.full 0 [H; W; 3%nat] else original_image).
Proof.
  intros Hlabels Himage HH HW Hrange.
  destruct (result_image_generator_arrays _ _ H W Hlabels Himage HH HW Hrange)
    as (top & overlays & masks & combined & Hmax & _ & Hrun & _).
  by exists top, (np.Arr overlays, np.Arr masks, combined).
Qed.

(** One cluster on a 1 x 2 image: the image comes back black. *)
Lemma result_image_generator_image_after_witness :
  let img_clust := np.array2 [[0; 0]] in
  let original_image := np.Arr [np.array2 [[10; 20; 30]; [40; 50; 60]]] in
  np.has_shape [1; 2]%nat img_clust = true /\
  np.has_shape [1; 2; 3]%nat original_image = true /\
  (forall v, v ∈ np.flatten img_clust -> 0 <= v <= 3) /\
  exists arrays,
    result_image_generator img_clust original_image
      = Ok (arrays, np.Arr [np.array2 [[0; 0; 0]; [0; 0; 0]]]).
Proof.
  intros img_clust original_image.
  assert (Hlabels : np.has_shape [1; 2]%nat img_clust = true) by reflexivity.
  assert (Himage : np.has_shape [1; 2; 3]%nat original_image = true) by reflexivity.
  assert (Hrange : forall v, v ∈ np.flatten img_clust -> 0 <= v <= 3).
  { intros v Hv. cbn in Hv. rewrite !elem_of_cons, elem_of_nil in Hv. lia. }
  split; [exact Hlabels |]. split; [exact Himage |]. split; [exact Hrange |].
  destruct (result_image_generator_image_after img_clust original_image 1 2 Hlabels
              Himage ltac:(lia) ltac:(lia) Hrange) as (top & arrays & Hmax & Hrun).
  exists arrays.
  assert (Htop : np.max img_clust = Ok 0) by reflexivity.
  rewrite Htop in Hmax. injection Hmax as <-. exact Hrun.
Defined.

(* ================================================================= *)
(** ** The filters and the table, in closed form *)

Module F64zero.

Lemma SFeqb_zero_true (x : spec_float) :
  SFeqb x (S754_zero false) = true -> exists s, x = S754_zero s.
Proof.
  unfold SFeqb. destruct x as [s | s | | s m e]; cbn; try discriminate.
  - by exists s.
  - destruct s; discriminate.
  - destruct s; discriminate.
Qed.

(** [4 * np.pi * x] is zero when [x] is. *)
Lemma four_pi_mul_zero (x : float) :
  (x =? 0)%float = true -> (4 * np.pi * x =? 0)%float = true.
Proof.
  rewrite !FloatAxioms.eqb_spec, F64.Prim2SF_zero, FloatAxioms.mul_spec.
  intros Hx. apply SFeqb_zero_true in Hx as [s ->].
  change (Prim2SF (4 * np.pi)) with (S754_finite false 7074237752028440 (-49)).
  destruct s; reflexivity.
Qed.

End F64zero.

Section Filters.

Context {CV : cv2.api} {OS : os.api}.

Local Open Scope float_scope.

(** X8. [filter_boolean] never raises, whatever OpenCV measures (zero,
    subnormal, infinite or NaN areas and perimeters included): it returns
    the conjunction of [area != 0], [perimeter != 0], [area > 200],
    [area < 2000] and [perimeter**2 / (4 * np.pi * area) < 3.0]; the guard
    on the area keeps the divisor away from zero. *)
Theorem filter_boolean_closed_form (c : contour) :
  filter_boolean c =
    Ok (float_ne (cv2.contourArea c) 0 && float_ne (cv2.arcLength c true) 0
        && float_gt (cv2.contourArea c) 200 && float_lt (cv2.contourArea c) 2000
        && float_lt (roundness c) 3).
Proof.
  rewrite filter_boolean_unfold. unfold float_ne, float_gt, float_lt.
  destruct (cv2.contourArea c =? 0) eqn:Ha; cbn [negb andb]; [reflexivity |].
  destruct (cv2.arcLength c true =? 0); cbn [negb andb]; [reflexivity |].
  rewrite (F64.four_pi_mul_ne_zero _ Ha).
  by rewrite !andb_true_r, !andb_assoc.
Qed.

Lemma contour_generator_filter_loop (contours : list contour) :
  forall (suf pre kept : list contour),
    contours = pre ++ suf ->
    for_each
      (fun contours_mod (ele : nat * contour) =>
         do c <- list_getitem contours (fst ele) "list";
         do keep <- filter_boolean c;
         if keep then
           do c <- list_getitem contours (fst ele) "list";
           Ok (contours_mod ++ [c])
         else Ok contours_mod)
      (zip (seq (length pre) (length suf)) suf) kept
    = Ok (kept ++ List.filter accepted suf).
Proof.
  induction suf as [| c suf IH]; intros pre kept Hc.
  - cbn. by rewrite app_nil_r.
  - rewrite enumerate_cons. cbn [for_each fst].
    assert (Hget : list_getitem contours (length pre) "list" = Ok c).
    { apply list_getitem_Some. subst contours. by apply list_lookup_middle. }
    destruct (filter_boolean_total c) as [b Hb].
    specialize (IH (pre ++ [c])).
    rewrite length_app, Nat.add_1_r in IH.
    rewrite Hget. cbn [bind]. rewrite Hb. cbn [bind List.filter].
    unfold accepted at 1. rewrite Hb.
    destruct b.
    + cbn [bind]. rewrite IH by (by rewrite <- app_assoc).
      by rewrite <- app_assoc.
    + apply IH. by rewrite <- app_assoc.
Qed.

(** X9. [contour_generator] never raises and returns the contours OpenCV
    found on the mask, filtered by [filter_boolean]: the accepted ones, in
    OpenCV's order and as often as OpenCV lists them, together with their
    number. *)
Theorem contour_generator_filter (img_mask : ndarray) :
  let contours := cv2.findContours (np.astype_int32 img_mask)
                    cv2.RETR_FLOODFILL cv2.CHAIN_APPROX_NONE in
  contour_generator img_mask
    = Ok (List.filter accepted contours, length (List.filter accepted contours)).
Proof.
  intros contours. unfold contour_generator, enumerate. fold contours.
  pose proof (contour_generator_filter_loop contours contours [] [] eq_refl) as Hrun.
  cbn [length app] in Hrun. rewrite Hrun. reflexivity.
Qed.

Lemma contour_metrics_zero (c : contour) :
  (cv2.contourArea c =? 0) = true ->
  contour_metrics c = Raise (ZeroDivisionError "float division by zero").
Proof.
  intros Hz. unfold contour_metrics.
  destruct (cv2.minEnclosingCircle c) as [centre radius].
  unfold float_truediv. rewrite (F64zero.four_pi_mul_zero _ Hz). reflexivity.
Qed.

Lemma store_metrics_raises (cont_list : list contour) :
  forall (suf pre : list contour) (done : list (list float)),
    cont_list = pre ++ suf ->
    length done = length pre ->
    Exists (fun c => (cv2.contourArea c =? 0) = true) suf ->
    for_each (store_metrics cont_list) (zip (seq (length pre) (length suf)) suf)
      (done ++ replicate (length suf) [0; 0; 0; 0]%float)
    = Raise (ZeroDivisionError "float division by zero").
Proof.
  induction suf as [| c suf IH]; intros pre done Hc Hlen Hex.
  - by apply Exists_nil in Hex.
  - rewrite enumerate_cons. cbn [for_each length replicate].
    unfold store_metrics at 1. cbn [fst].
    rewrite (list_getitem_Some cont_list (length pre) c)
      by (subst cont_list; by apply list_lookup_middle).
    cbn [bind].
    destruct (cv2.contourArea c =? 0) eqn:Hz.
    { by rewrite (contour_metrics_zero c Hz). }
    apply Exists_cons in Hex as [Hex | Hex]; [congruence |].
    rewrite (contour_metrics_ok c (F64.four_pi_mul_ne_zero _ Hz)). cbn [bind].
    unfold setrow.
    rewrite (list_getitem_Some _ (length pre) [0; 0; 0; 0]%float)
      by (by apply list_lookup_middle).
    cbn [bind].
    rewrite <- Hlen, <- (Nat.add_0_r (length done)), insert_app_r. cbn [insert list_insert].
    specialize (IH (pre ++ [c]) (done ++ [metrics_row c])).
    rewrite !length_app in IH. cbn [length] in IH.
    rewrite !Nat.add_1_r, <- !app_assoc in IH. cbn [app] in IH.
    rewrite Nat.add_0_r, Hlen.
    apply IH; [exact Hc | lia | exact Hex].
Qed.

Lemma csv_results_compiler_measured (cont_list : list contour) (filepath : string)
    (tr : list event) :
  Forall (fun c => (cv2.contourArea c =? 0) = false) cont_list ->
  csv_results_compiler cont_list filepath tr =
    (tr ++ [to_csv (metrics_table cont_list)
              (os.path_join filepath "Compiled_Data.csv") false], Ok tt).
Proof.
  intros Hall. unfold csv_results_compiler, io_bind, io_lift, emit, metrics_table.
  rewrite compile_table_ok; [reflexivity |].
  eapply Forall_impl; [exact Hall |]. intros c. apply F64.four_pi_mul_ne_zero.
Qed.

(** X10. [csv_results_compiler] does not filter its contours: it raises
    [ZeroDivisionError], writing nothing, exactly when some contour of the
    list has area zero ([0.0] or [-0.0]); when no area is zero it writes
    the table with one row per contour (a NaN or infinite area gives a NaN
    or zero roundness, and no error). *)
Theorem csv_results_compiler_zero_area (cont_list : list contour) (filepath : string)
    (tr : list event) :
  (Exists (fun c => (cv2.contourArea c =? 0) = true) cont_list ->
   csv_results_compiler cont_list filepath tr
     = (tr, Raise (ZeroDivisionError "float division by zero"))) /\
  (Forall (fun c => (cv2.contourArea c =? 0) = false) cont_list ->
   csv_results_compiler cont_list filepath tr
     = (tr ++ [to_csv {| values := metrics_row <$> cont_list;
                         columns := ["Area"; "Perimeter"; "Roundness";
                                     "Bounding Circle Area"]%string |}
                 (os.path_join filepath "Compiled_Data.csv") false], Ok tt)).
Proof.
  split.
  - intros Hex. unfold csv_results_compiler, io_bind, io_lift, compile_table, enumerate.
    pose proof (store_metrics_raises cont_list cont_list [] [] eq_refl eq_refl Hex) as H.
    cbn [app length] in H. rewrite H. reflexivity.
  - apply csv_results_compiler_measured.
Qed.

(** On one mask or more [immune_cluster_analyzer] writes the table of the
    accepted contours of the mask it picks. *)
Lemma immune_cluster_analyzer_winner (masks : list ndarray) :
  masks <> [] ->
  exists idx mask winner,
    masks !! idx = Some mask /\
    contour_generator mask = Ok (winner, length winner) /\
    forall filepath tr,
      immune_cluster_analyzer masks filepath tr =
        (tr ++ [to_csv (metrics_table winner)
                  (os.path_join filepath "Compiled_Data.csv") false], Ok tt).
Proof.
  intros Hne.
  destruct (scan_clusters_returns masks) as (contour_list & idx & Hrun & Hall & Hbest).
  destruct Hbest as [[Hnil _] | (v & Hv & _)].
  { apply fmap_nil_inv in Hnil. subst contour_list.
    apply Forall2_nil_inv_r in Hall. contradiction. }
  rewrite list_lookup_fmap in Hv.
  destruct (contour_list !! idx) as [winner |] eqn:Hw; [| discriminate].
  destruct (Forall2_lookup_r _ _ _ _ _ Hall Hw) as (mask & Hmask & Hgen).
  exists idx, mask, winner. split; [exact Hmask |]. split; [exact Hgen |].
  intros filepath tr.
  unfold immune_cluster_analyzer, io_bind at 1, io_lift at 1. rewrite Hrun.
  unfold io_bind at 1, io_lift at 1, list_getitem. rewrite Hw.
  apply csv_results_compiler_measured.
  eapply Forall_impl; [exact (contour_generator_accepted _ _ _ Hgen) |].
  intros c Hc. apply filter_boolean_true in Hc as (Ha & _). exact Ha.
Qed.

(** X11. [immune_cluster_analyzer] on an empty list of masks raises
    [IndexError] (it indexes the empty list of contour lists) and writes
    nothing; on one mask or more it always returns, having written exactly
    one table: the metrics of the accepted contours of one of the masks,
    a table without rows when that mask has none. *)
Theorem immune_cluster_analyzer_outcome (masks : list ndarray) :
  (masks = [] ->
   forall filepath tr,
     immune_cluster_analyzer masks filepath tr
       = (tr, Raise (IndexError "list index out of range"))) /\
  (masks <> [] ->
   exists idx mask winner,
     masks !! idx = Some mask /\
     contour_generator mask = Ok (winner, length winner) /\
     forall filepath tr,
       immune_cluster_analyzer masks filepath tr =
         (tr ++ [to_csv {| values := metrics_row <$> winner;
                           columns := ["Area"; "Perimeter"; "Roundness";
                                       "Bounding Circle Area"]%string |}
                   (os.path_join filepath "Compiled_Data.csv") false], Ok tt)).
Proof.
  split; [intros ->; reflexivity |]. apply immune_cluster_analyzer_winner.
Qed.

End Filters.

(** In the example world a contour of one point has area zero; beside an
    accepted square it makes [csv_results_compiler] raise. *)
Lemma csv_results_compiler_zero_area_witness :
  let CV := Example.cv in
  let OS := Example.fs in
  let cont_list := [Example.square 0 0; [(5, 5)]] in
  Exists (fun c => (cv2.contourArea c =? 0)%float = true) cont_list /\
  csv_results_compiler cont_list "out" []
    = ([], Raise (ZeroDivisionError "float division by zero")).
Proof.
  intros CV OS cont_list.
  assert (Hex : Exists (fun c => (cv2.contourArea c =? 0)%float = true) cont_list).
  { apply Exists_cons_tl, Exists_cons_hd. vm_compute. reflexivity. }
  split; [exact Hex |].
  exact (proj1 (csv_results_compiler_zero_area cont_list "out" []) Hex).
Defined.

(** A single mask without foreground: the table written has no row. *)
Lemma immune_cluster_analyzer_outcome_witness :
  let CV := Example.cv in
  let OS := Example.fs in
  let masks := [np.array2 [[0; 0]; [0; 0]]] in
  masks <> [] /\
  exists winner,
    immune_cluster_analyzer masks "out" [] =
      ([to_csv {| values := metrics_row <$> winner;
                  columns := ["Area"; "Perimeter"; "Roundness";
                              "Bounding Circle Area"]%string |}
          "out/Compiled_Data.csv" false], Ok tt).
Proof.
  intros CV OS masks.
  assert (Hne : masks <> []) by discriminate.
  split; [exact Hne |].
  destruct (proj2 (immune_cluster_analyzer_outcome masks) Hne)
    as (idx & mask & winner & _ & _ & Hrun).
  exists winner. exact (Hrun "out"%string []).
Defined.

(* ================================================================= *)
(** ** [image_postprocessing], switch by switch *)

(** The elementwise product keeps the shape. *)
Lemma has_shape_mul (k : Z) (s : list nat) :
  forall a, np.has_shape s a = true -> np.has_shape s (np.mul a k) = true.
Proof.
  induction s as [| n s IH]; intros a Ha.
  - apply has_shape_num in Ha as [v ->]. reflexivity.
  - apply has_shape_inv in Ha as (items & -> & Hlen & Hall).
    cbn [np.mul]. apply has_shape_intro; [by rewrite length_fmap |].
    apply Forall_fmap. eapply Forall_impl; [exact Hall |]. intros x. apply IH.
Qed.

Lemma good_shape (a : ndarray) (H W : nat) :
  np.has_shape [H; W; 3%nat] a = true -> (0 < H)%nat -> (0 < W)%nat ->
  np.shape a = [H; W; 3%nat] /\ ~ bad_shape a.
Proof.
  intros Ha HH HW.
  assert (Hs : np.shape a = [H; W; 3%nat]).
  { apply has_shape_shape; [repeat constructor; lia | exact Ha]. }
  split; [exact Hs |]. unfold bad_shape, np.ndim. rewrite Hs. cbn. tauto.
Qed.

Section Postprocessing.

Context {CV : cv2.api} {OS : os.api}.

(** [image_postprocessing] on an [H x W] label map with labels from 0 to 3
    and an [H x W] RGB image: the arrays and the calls made, for every
    choice of the three switches. *)
Lemma image_postprocessing_run (clusters ori_img : ndarray) (H W : nat)
    (filepath : string) (gen_overlays gen_csv : bool) (tr : list event) :
  np.has_shape [H; W] clusters = true ->
  np.has_shape [H; W; 3%nat] ori_img = true ->
  (0 < H)%nat -> (0 < W)%nat ->
  (forall v, v ∈ np.flatten clusters -> 0 <= v <= 3) ->
  exists top overlays masks combined idx mask winner,
    np.max clusters = Ok top /\
    result_image_generator clusters ori_img
      = Ok ((np.Arr overlays, np.Arr masks, combined),
            if top =? 0 then np.full 0 [H; W; 3%nat] else ori_img) /\
    masks !! idx = Some mask /\
    contour_generator mask = Ok (winner, length winner) /\
    let after := if top =? 0 then np.full 0 [H; W; 3%nat] else ori_img in
    let tr1 := tr ++ base_results tr after combined filepath in
    let tr2 := if gen_overlays
               then tr1 ++ image_series tr1 overlays filepath "Overlaid Images"
               else tr1 in
    image_postprocessing clusters ori_img filepath gen_overlays false gen_csv tr =
      (if gen_csv
       then tr2 ++ [to_csv (metrics_table winner)
                      (os.path_join filepath "Compiled_Data.csv") false]
       else tr2, Ok tt) /\
    image_postprocessing clusters ori_img filepath gen_overlays true gen_csv tr =
      (tr2, Raise (ValueError "All cluster image has 3 dimensions but 3 were input")).
Proof.
  intros Hlabels Himage HH HW Hrange.
  destruct (result_image_generator_arrays _ _ H W Hlabels Himage HH HW Hrange)
    as (top & overlays & masks & combined & Hmax & Htop & Hrun & Hso & Hsm & Hsc).
  set (K := Z.to_nat (top + 1)) in *.
  assert (HK : (0 < K)%nat) by (subst K; lia).
  assert (Hne : masks <> []).
  { apply has_shape_inv in Hsm as (items & [= <-] & Hlen & _).
    intros ->. cbn in Hlen. lia. }
  destruct (immune_cluster_analyzer_winner masks Hne)
    as (idx & mask & winner & Hmask & Hgen & Hwin).
  exists top, overlays, masks, combined, idx, mask, winner.
  split; [exact Hmax |]. split; [exact Hrun |]. split; [exact Hmask |].
  split; [exact Hgen |]. intros after tr1 tr2.
  assert (Hafter : np.has_shape [H; W; 3%nat] after = true).
  { subst after. destruct (top =? 0); [apply has_shape_full | exact Himage]. }
  destruct (good_shape _ _ _ Hafter HH HW) as [_ Hga].
  destruct (good_shape _ _ _ Hsc HH HW) as [_ Hgc].
  pose proof (proj1 (base_results_generator_outcome after combined filepath tr) Hga Hgc)
    as Hbase.
  assert (Hover : (if gen_overlays
                   then generate_image_series (np.Arr overlays) filepath "Overlaid Images"
                   else io_ret tt) tr1 = (tr2, Ok tt)).
  { subst tr2. destruct gen_overlays; [| reflexivity].
    destruct (generate_image_series_run (np.Arr overlays) K H W filepath
                "Overlaid Images" tr1) as (items & [= <-] & _ & Hser).
    { apply has_shape_shape; [repeat constructor; lia | exact Hso]. }
    exact Hser. }
  assert (Hmul : generate_image_series (np.mul (np.Arr masks) 255) filepath "Masks" tr2
                 = (tr2, Raise (ValueError
                      "All cluster image has 3 dimensions but 3 were input"))).
  { rewrite generate_image_series_ndim.
    - unfold np.ndim.
      rewrite (has_shape_shape [K; H; W]);
        [reflexivity | repeat constructor; lia | by apply has_shape_mul].
    - unfold np.ndim.
      rewrite (has_shape_shape [K; H; W]);
        [cbn; lia | repeat constructor; lia | by apply has_shape_mul]. }
  assert (Hcsv : (if gen_csv
                  then run masks <- io_lift (np.iter (np.Arr masks));
                       immune_cluster_analyzer masks filepath
                  else io_ret tt) tr2
                 = (if gen_csv
                    then tr2 ++ [to_csv (metrics_table winner)
                                   (os.path_join filepath "Compiled_Data.csv") false]
                    else tr2, Ok tt)).
  { destruct gen_csv; [| reflexivity].
    cbn [np.iter]. rewrite (io_bind_ok _ _ tr2 tr2 masks) by reflexivity.
    apply Hwin. }
  unfold image_postprocessing.
  split.
  - rewrite (io_bind_ok _ _ tr tr _ ) by (unfold io_lift; rewrite Hrun; reflexivity).
    cbv beta iota zeta.
    erewrite io_bind_ok by exact Hbase.
    erewrite io_bind_ok by exact Hover.
    erewrite io_bind_ok by reflexivity.
    exact Hcsv.
  - rewrite (io_bind_ok _ _ tr tr _ ) by (unfold io_lift; rewrite Hrun; reflexivity).
    cbv beta iota zeta.
    erewrite io_bind_ok by exact Hbase.
    erewrite io_bind_ok by exact Hover.
    erewrite io_bind_raise by exact Hmul. reflexivity.
Qed.


(** X13. With [gen_masks] on, [image_postprocessing] never completes: on
    an [H x W] label map with labels from 0 to 3 and an [H x W] RGB image
    it raises [ValueError] "All cluster image has 3 dimensions but 3 were
    input", because the masks form an array of 3 dimensions [(K, H, W)]
    and [generate_image_series] wants 4. By then [Original.jpg],
    [AllClusters.jpg] and, with [gen_overlays], the overlays are written;
    no mask image is saved and, whatever [gen_csv], no table is written. *)
Theorem image_postprocessing_masks_fail (clusters ori_img : ndarray) (H W : nat)
    (filepath : string) (gen_overlays gen_csv : bool) (tr : list event) :
  np.has_shape [H; W] clusters = true ->
  np.has_shape [H; W; 3%nat] ori_img = true ->
  (0 < H)%nat -> (0 < W)%nat ->
  (forall v, v ∈ np.flatten clusters -> 0 <= v <= 3) ->
  exists overlays masks combined after,
    result_image_generator clusters ori_img
      = Ok ((np.Arr overlays, np.Arr masks, combined), after) /\
    let tr1 :=
      tr ++ made_dir tr filepath
         ++ [cv2_imwrite (os.path_join filepath "Original.jpg") after;
             cv2_imwrite (os.path_join filepath "AllClusters.jpg") combined] in
    let tr2 :=
      if gen_overlays
      then tr1 ++ made_dir tr1 (os.path_join filepath "Overlaid Images")
               ++ [os_chdir (os.path_join filepath "Overlaid Images")]
               ++ image_files overlays
      else tr1 in
    image_postprocessing clusters ori_img filepath gen_overlays true gen_csv tr =
      (tr2, Raise (ValueError "All cluster image has 3 dimensions but 3 were input")).
Proof.
  intros Hlabels Himage HH HW Hrange.
  destruct (image_postprocessing_run clusters ori_img H W filepath gen_overlays gen_csv
              tr Hlabels Himage HH HW Hrange)
    as (top & overlays & masks & combined & idx & mask & winner & _ & Hrun & _ & _
        & Hpost).
  cbv zeta in Hpost. destruct Hpost as [_ Hpost].
  exists overlays, masks, combined, (if top =? 0 then np.full 0 [H; W; 3%nat] else ori_img).
  split; [exact Hrun |]. exact Hpost.
Qed.

(** X14. With a single cluster the file [Original.jpg] does not hold the
    original: on an [H x W] label map of zeros and an [H x W] RGB image,
    whatever the switches, the image [image_postprocessing] writes as
    [Original.jpg] is all black. ([result_image_generator] has painted the
    caller's image through its one overlay before
    [base_results_generator] writes it.) *)
Theorem image_postprocessing_black_original (clusters ori_img : ndarray) (H W : nat)
    (filepath : string) (gen_overlays gen_masks gen_csv : bool) (tr : list event) :
  np.has_shape [H; W] clusters = true ->
  np.has_shape [H; W; 3%nat] ori_img = true ->
  (0 < H)%nat -> (0 < W)%nat ->
  (forall v, v ∈ np.flatten clusters -> v = 0) ->
  exists rest r,
    image_postprocessing clusters ori_img filepath gen_overlays gen_masks gen_csv tr =
      (tr ++ made_dir tr filepath
          ++ cv2_imwrite (os.path_join filepath "Original.jpg") (np.full 0 [H; W; 3%nat])
          :: rest, r).
Proof.
  intros Hlabels Himage HH HW Hzero.
  assert (Hrange : forall v, v ∈ np.flatten clusters -> 0 <= v <= 3).
  { intros v Hv. rewrite (Hzero v Hv). lia. }
  destruct (image_postprocessing_run clusters ori_img H W filepath gen_overlays gen_csv
              tr Hlabels Himage HH HW Hrange)
    as (top & overlays & masks & combined & idx & mask & winner & Hmax & _ & _ & _
        & Hpost).
  destruct (max_spec _ _ Hmax) as [_ Hin]. rewrite (Hzero top Hin) in Hpost.
  change (0 =? 0) with true in Hpost. cbv zeta iota in Hpost.
  unfold base_results, image_series in Hpost.
  destruct Hpost as [Hoff Hon].
  destruct gen_masks; [rewrite Hon | rewrite Hoff];
    destruct gen_overlays, gen_csv; rewrite <- ?app_assoc; cbn [app];
    do 2 eexists; reflexivity.
Qed.

End Postprocessing.


Lemma image_postprocessing_masks_fail_witness :
  let CV := Example.cv in
  let OS := Example.fs in
  let clusters := np.array2 [[0; 0]; [1; 1]] in
  let ori_img :=
    np.Arr [np.array2 [[10; 20; 30]; [40; 50; 60]];
            np.array2 [[70; 80; 90]; [100; 110; 120]]] in
  np.has_shape [2; 2]%nat clusters = true /\
  np.has_shape [2; 2; 3]%nat ori_img = true /\
  (forall v, v ∈ np.flatten clusters -> 0 <= v <= 3) /\
  exists tr',
    image_postprocessing clusters ori_img "out" false true true [] =
      (tr', Raise (ValueError "All cluster image has 3 dimensions but 3 were input")).
Proof.
  intros CV OS clusters ori_img.
  assert (Hlabels : np.has_shape [2; 2]%nat clusters = true) by reflexivity.
  assert (Himage : np.has_shape [2; 2; 3]%nat ori_img = true) by reflexivity.
  assert (Hrange : forall v, v ∈ np.flatten clusters -> 0 <= v <= 3).
  { intros v Hv. cbn in Hv. rewrite !elem_of_cons, elem_of_nil in Hv. lia. }
  split; [exact Hlabels |]. split; [exact Himage |]. split; [exact Hrange |].
  destruct (image_postprocessing_masks_fail clusters ori_img 2 2 "out" false true []
              Hlabels Himage ltac:(lia) ltac:(lia) Hrange)
    as (overlays & masks & combined & after & _ & Hrun).
  eexists. exact Hrun.
Defined.

Lemma image_postprocessing_black_original_witness :
  let CV := Example.cv in
  let OS := Example.fs in
  let clusters := np.array2 [[0; 0]] in
  let ori_img := np.Arr [np.array2 [[10; 20; 30]; [40; 50; 60]]] in
  np.has_shape [1; 2]%nat clusters = true /\
  np.has_shape [1; 2; 3]%nat ori_img = true /\
  (forall v, v ∈ np.flatten clusters -> v = 0) /\
  exists rest r,
    image_postprocessing clusters ori_img "out" false false false [] =
      (os_mkdir "out"
       :: cv2_imwrite "out/Original.jpg" (np.Arr [np.array2 [[0; 0; 0]; [0; 0; 0]]])
       :: rest, r).
Proof.
  intros CV OS clusters ori_img.
  assert (Hlabels : np.has_shape [1; 2]%nat clusters = true) by reflexivity.
  assert (Himage : np.has_shape [1; 2; 3]%nat ori_img = true) by reflexivity.
  assert (Hzero : forall v, v ∈ np.flatten clusters -> v = 0).
  { intros v Hv. cbn in Hv. rewrite !elem_of_cons, elem_of_nil in Hv. lia. }
  split; [exact Hlabels |]. split; [exact Himage |]. split; [exact Hzero |].
  destruct (image_postprocessing_black_original clusters ori_img 1 2 "out" false false
              false [] Hlabels Himage ltac:(lia) ltac:(lia) Hzero) as (rest & r & Hrun).
  exists rest, r. exact Hrun.
Defined.

(* ================================================================= *)
(** ** The entry points *)

Lemma prog_bind_done {A B : Type} (m : prog A) (k : A -> prog B) (tr tr' : list event)
    (a : A) :
  m tr = (tr', Done a) -> prog_bind m k tr = k a tr'.
Proof. unfold prog_bind. by intros ->. Qed.

Lemma prog_bind_failed {A B : Type} (m : prog A) (k : A -> prog B) (tr tr' : list event)
    (e : raised) :
  m tr = (tr', Failed e) -> prog_bind m k tr = (tr', Failed e).
Proof. unfold prog_bind. by intros ->. Qed.

(** Reshaping keeps the elements, in order. *)
Lemma flatten_array1 (vs : list Z) : np.flatten (np.array1 vs) = vs.
Proof.
  unfold np.array1. cbn [np.flatten]. induction vs as [| v vs IH]; [reflexivity |].
  cbn. f_equal. exact IH.
Qed.

Lemma has_shape_array1 (vs : list Z) : np.has_shape [length vs] (np.array1 vs) = true.
Proof.
  unfold np.array1. apply has_shape_intro; [by rewrite length_fmap |].
  apply Forall_fmap, Forall_forall. by intros v _.
Qed.

Lemma concat_rows (w : nat) :
  forall (h : nat) (vs : list Z),
    length vs = (h * w)%nat ->
    concat ((fun i => take w (drop (i * w) vs)) <$> seq 0 h) = vs.
Proof.
  induction h as [| h IH]; intros vs Hlen.
  - destruct vs; [reflexivity | discriminate].
  - cbn [seq fmap list_fmap concat]. rewrite <- fmap_S_seq, <- list_fmap_compose.
    transitivity (take w vs ++ drop w vs); [| apply take_drop].
    cbn [Nat.mul drop]. f_equal.
    rewrite <- (IH (drop w vs)) by (rewrite length_drop; lia).
    f_equal. apply list_fmap_ext. intros i x _. cbn [compose].
    rewrite drop_drop. reflexivity.
Qed.

Lemma reshape2_spec (a : ndarray) (h w : nat) :
  length (np.flatten a) = (h * w)%nat ->
  exists clusters,
    np.reshape2 a h w = Ok clusters /\
    np.has_shape [h; w] clusters = true /\
    np.flatten clusters = np.flatten a.
Proof.
  intros Hlen. unfold np.reshape2. rewrite (proj2 (Nat.eqb_eq _ _) Hlen).
  eexists. split; [reflexivity |]. split.
  - apply has_shape_intro; [by rewrite length_fmap, length_seq |].
    apply Forall_fmap, Forall_forall. intros i Hi. cbn [compose].
    apply elem_of_seq in Hi.
    assert (Hw : length (take w (drop (i * w) (np.flatten a))) = w).
    { rewrite length_take, length_drop. nia. }
    rewrite <- Hw at 1. apply has_shape_array1.
  - cbn [np.flatten]. rewrite <- list_fmap_compose.
    etransitivity; [| exact (concat_rows w h (np.flatten a) Hlen)]. f_equal.
    apply list_fmap_ext. intros i x _. cbn [compose]. apply flatten_array1.
Qed.

(** At most four different labels between 0 and 3. *)
Lemma unique_count_palette (labels : ndarray) :
  (forall v, v ∈ np.flatten labels -> 0 <= v <= 3) ->
  (np.unique_count labels <= 4)%nat.
Proof.
  intros Hrange. unfold np.unique_count.
  change 4%nat with (length [0; 1; 2; 3]).
  apply submseteq_length, NoDup_submseteq; [apply NoDup_remove_dups |].
  intros v Hv. apply elem_of_remove_dups, Hrange in Hv.
  assert (Hc : v = 0 \/ v = 1 \/ v = 2 \/ v = 3) by lia.
  rewrite !elem_of_cons. tauto.
Qed.

Section EntryProps.

Context {CV : cv2.api} {OS : os.api} {HOST : host.api}.

(** X15. [cluster_model_fit] returns a model only for a [str] path to a
    file that exists, the algorithm ['KMeans'] and an [int] number of
    clusters of at most 8; it never returns [None] (the branch for another
    algorithm cannot be reached) and it writes nothing. With such
    arguments it is the pipeline of the libraries: read the image, put its
    values in rows of three, fit [KMeans(n_clusters)]. The check has no
    lower bound, so 0 and negative numbers of clusters reach scikit-learn;
    and it admits up to 8 clusters where [result_image_generator] can
    paint 4. *)
Theorem cluster_model_fit_validation (patch_path algorithm n_clusters : pyobj)
    (tr : list event) :
  (forall tr' m,
     cluster_model_fit patch_path algorithm n_clusters tr = (tr', Done m) ->
     tr' = tr /\
     exists path n model,
       patch_path = PyStr path /\ host.is_file tr path = true /\
       algorithm = PyStr "KMeans" /\ n_clusters = PyInt n /\ n <= 8 /\
       m = Some model) /\
  (forall path n,
     patch_path = PyStr path -> host.is_file tr path = true ->
     algorithm = PyStr "KMeans" -> n_clusters = PyInt n -> n <= 8 ->
     cluster_model_fit patch_path algorithm n_clusters tr =
       (tr, outcome_bind (host.imread tr path) (fun fit_patch =>
            outcome_bind (of_result (np.reshape_rows3 fit_patch)) (fun fit_patch_n =>
            outcome_bind (host.fit (host.KMeans n) fit_patch_n) (fun model =>
            Done (Some model)))))).
Proof.
  split.
  - intros tr' m. unfold cluster_model_fit, prog_bind, prog_lift, raise_if, prog_raise,
      prog_ret.
    destruct patch_path as [| z | path |]; try discriminate.
    destruct (host.is_file tr path) eqn:Hfile; cbn [negb]; [| discriminate].
    destruct (is_KMeans algorithm) eqn:Halg; cbn [negb andb]; [| discriminate].
    destruct n_clusters as [| n | s |]; cbn [is_None]; try discriminate.
    destruct (Z.gtb_spec n 8) as [Hn | Hn]; [discriminate |].
    destruct (host.imread tr path) as [fit_patch | e]; [| discriminate].
    destruct (of_result _) as [fit_patch_n | e]; [| discriminate].
    destruct (host.fit _ _) as [model | e]; [| discriminate].
    intros [= <- <-]. split; [reflexivity |]. exists path, n, model.
    destruct algorithm as [| z | s |]; try discriminate.
    apply String.eqb_eq in Halg as ->. by repeat split.
  - intros path n -> Hfile -> -> Hn.
    unfold cluster_model_fit, prog_bind, prog_lift, raise_if, prog_raise, prog_ret.
    rewrite Hfile. cbn [negb is_KMeans is_None andb String.eqb Ascii.eqb Bool.eqb].
    destruct (Z.gtb_spec n 8) as [Hn' | _]; [lia |].
    destruct (host.imread tr path) as [fit_patch | e]; [| reflexivity].
    cbn [outcome_bind].
    destruct (of_result _) as [fit_patch_n | e]; [| reflexivity].
    cbn [outcome_bind].
    destruct (host.fit _ _) as [model | e]; reflexivity.
Qed.

(** The loop of [segment_TILs] stops at the first patch that fails. *)
Lemma prog_for_each_first {A : Type} (body : A -> prog unit) (x : A) (xs : list A)
    (tr tr' : list event) (e : raised) :
  body x tr = (tr', Failed e) -> prog_for_each body (x :: xs) tr = (tr', Failed e).
Proof. intros H. cbn [prog_for_each]. by apply prog_bind_failed. Qed.

(** Without an output directory a patch is never written. *)
Lemma segment_patch_no_out_dir (model : host.model) (in_dir_path : string)
    (save_cluster_masks save_cluster_overlays save_csv : bool) (file : string)
    (tr : list event) :
  exists e,
    segment_patch model in_dir_path None save_cluster_masks save_cluster_overlays
      save_csv file tr = (tr, Failed e) /\
    forall pred_patch pred_patch_n labels height width clusters,
      host.check_is_fitted model = Done tt ->
      host.imread tr (os.path_join in_dir_path file) = Done pred_patch ->
      np.reshape_rows3 pred_patch = Ok pred_patch_n ->
      host.predict model pred_patch_n = Done labels ->
      (np.unique_count labels <= 8)%nat ->
      np.shape pred_patch !! 0%nat = Some height ->
      np.shape pred_patch !! 1%nat = Some width ->
      np.reshape2 labels height width = Ok clusters ->
      e = Builtin (TypeError "expected str, bytes or os.PathLike object, not NoneType").
Proof.
  unfold segment_patch.
  rewrite (prog_bind_done _ _ tr tr tt) by reflexivity.
  unfold prog_bind at 1, prog_lift at 1.
  destruct (host.check_is_fitted model) as [[] | e] eqn:Hfit.
  2: { exists e. split; [reflexivity |]. intros. congruence. }
  unfold prog_bind at 1, prog_lift at 1.
  destruct (host.imread tr _) as [pred_patch | e] eqn:Hread.
  2: { exists e. split; [reflexivity |]. intros. congruence. }
  unfold prog_bind at 1, prog_lift at 1.
  destruct (np.reshape_rows3 pred_patch) as [pred_patch_n | e] eqn:Hrows;
    cbn [of_result].
  2: { eexists. split; [reflexivity |]. intros. congruence. }
  unfold prog_bind at 1, prog_lift at 1.
  destruct (host.predict model pred_patch_n) as [labels | e] eqn:Hpred.
  2: { exists e. split; [reflexivity |]. intros. congruence. }
  unfold prog_bind at 1.
  destruct (Nat.leb_spec (np.unique_count labels) 8) as [Hu | Hu].
  2: { eexists. split; [reflexivity |]. intros pp pn lb h w cl ? ? ? ? Hle.
       assert (lb = labels) as -> by congruence. lia. }
  unfold prog_ret at 1.
  unfold prog_bind at 1, prog_lift at 1, list_getitem.
  destruct (np.shape pred_patch !! 0%nat) as [height |] eqn:Hh; cbn [of_result].
  2: { eexists. split; [reflexivity |]. intros. congruence. }
  unfold prog_bind at 1, prog_lift at 1.
  destruct (np.shape pred_patch !! 1%nat) as [width |] eqn:Hw; cbn [of_result].
  2: { eexists. split; [reflexivity |]. intros. congruence. }
  unfold prog_bind at 1, prog_lift at 1.
  destruct (np.reshape2 labels height width) as [clusters | e] eqn:Hcl;
    cbn [of_result].
  2: { eexists. split; [reflexivity |]. intros. congruence. }
  eexists. split; [reflexivity |]. reflexivity.
Qed.

(** X16. With [out_dir_path] left at its default [None], [segment_TILs]
    never writes anything, and it completes only when the input directory
    is empty: for the first patch the [TypeError] of
    [os.path.join(None, ...)] is swallowed where the directory should be
    made, and raised where the results should be written, after the patch
    has been read and clustered. *)
Theorem segment_TILs_no_out_dir (model : host.model) (in_dir_path : string)
    (algorithm : pyobj)
    (save_cluster_masks save_composite_cluster_mask save_cluster_overlays save_csv : bool)
    (tr : list event) :
  exists r,
    segment_TILs model in_dir_path None algorithm save_cluster_masks
      save_composite_cluster_mask save_cluster_overlays save_csv tr = (tr, r) /\
    (r = Done tt <->
     host.isdir tr in_dir_path = true /\ host.listdir tr in_dir_path = Done []) /\
    (forall file files pred_patch labels H W,
       host.isdir tr in_dir_path = true ->
       host.listdir tr in_dir_path = Done (file :: files) ->
       patch_predicted model tr (os.path_join in_dir_path file) pred_patch labels H W ->
       (np.unique_count labels <= 8)%nat ->
       r = Failed (Builtin (TypeError
                     "expected str, bytes or os.PathLike object, not NoneType"))).
Proof.
  unfold segment_TILs, raise_if.
  unfold prog_bind at 1.
  destruct (host.isdir tr in_dir_path); cbn [negb].
  2: { eexists. split; [reflexivity |]. split; [| intros; discriminate].
       split; [discriminate | intros [? _]; discriminate]. }
  unfold prog_ret at 1. rewrite (prog_bind_done _ _ tr tr tt) by reflexivity.
  unfold prog_bind at 1, prog_lift at 1.
  destruct (host.listdir tr in_dir_path) as [[| file files] | e].
  - eexists. split; [reflexivity |]. split; [by split | intros; discriminate].
  - destruct (segment_patch_no_out_dir model in_dir_path save_cluster_masks
                save_cluster_overlays save_csv file tr) as (e & He & Hgood).
    rewrite (prog_for_each_first _ _ _ _ _ _ He).
    eexists. split; [reflexivity |]. split.
    + split; [discriminate | intros [_ ?]; discriminate].
    + intros file' files' pred_patch labels H W _ [= <- <-]
        (Hfit & Hread & Hpatch & HH & HW & rows & Hrows & Hpred & Hlen) Hu.
      destruct (reshape2_spec labels H W Hlen) as (clusters & Hcl & _).
      f_equal.
      apply (Hgood pred_patch rows labels H W clusters); try assumption.
      * by rewrite (has_shape_shape [H; W; 3%nat] pred_patch)
          by (repeat constructor; lia || exact Hpatch).
      * by rewrite (has_shape_shape [H; W; 3%nat] pred_patch)
          by (repeat constructor; lia || exact Hpatch).
  - eexists. split; [reflexivity |]. split; [| intros; discriminate].
    split; [discriminate | intros [_ ?]; discriminate].
Qed.

(** With an output directory: the directory of the patch is made unless it
    exists, and the labels predicted for an [H x W] RGB patch go to
    [image_postprocessing] as an [H x W] label map. *)
Lemma segment_patch_runs (model : host.model) (in_dir_path out_dir_path : string)
    (save_cluster_masks save_cluster_overlays save_csv : bool) (file : string)
    (tr : list event) (pred_patch pred_patch_n labels : ndarray) (H W : nat) :
  let filepath := os.path_join out_dir_path (drop_last4 file) in
  let tr1 := tr ++ made_dir tr filepath in
  host.check_is_fitted model = Done tt ->
  host.imread tr1 (os.path_join in_dir_path file) = Done pred_patch ->
  np.has_shape [H; W; 3%nat] pred_patch = true -> (0 < H)%nat -> (0 < W)%nat ->
  np.reshape_rows3 pred_patch = Ok pred_patch_n ->
  host.predict model pred_patch_n = Done labels ->
  length (np.flatten labels) = (H * W)%nat ->
  exists clusters,
    np.has_shape [H; W] clusters = true /\
    np.flatten clusters = np.flatten labels /\
    segment_patch model in_dir_path (Some out_dir_path) save_cluster_masks
      save_cluster_overlays save_csv file tr =
      if (np.unique_count labels <=? 8)%nat then
        of_io (image_postprocessing clusters pred_patch filepath
                 save_cluster_overlays save_cluster_masks save_csv) tr1
      else (tr1, Failed (RuntimeError "No active exception to reraise")).
Proof.
  intros filepath tr1 Hfit Hread Hpatch HH HW Hrows Hpred Hlen.
  destruct (reshape2_spec labels H W Hlen) as (clusters & Hcl & Hcs & Hcf).
  exists clusters. split; [exact Hcs |]. split; [exact Hcf |].
  unfold segment_patch.
  assert (Hmk : try_pass (call path <- prog_lift (join_out (Some out_dir_path)
                                                     (drop_last4 file));
                          os_mkdir_call path) tr = (tr1, Done tt)).
  { unfold try_pass, prog_bind, prog_lift, join_out, os_mkdir_call.
    subst tr1 filepath. unfold made_dir.
    destruct (os.path_exists tr _); [by rewrite app_nil_r | reflexivity]. }
  rewrite (prog_bind_done _ _ _ _ _ Hmk).
  rewrite (prog_bind_done _ _ tr1 tr1 tt) by (unfold prog_lift; by rewrite Hfit).
  rewrite (prog_bind_done _ _ tr1 tr1 pred_patch) by (unfold prog_lift; by rewrite Hread).
  rewrite (prog_bind_done _ _ tr1 tr1 pred_patch_n)
    by (unfold prog_lift; by rewrite Hrows).
  rewrite (prog_bind_done _ _ tr1 tr1 labels) by (unfold prog_lift; by rewrite Hpred).
  destruct (np.unique_count labels <=? 8)%nat; [| reflexivity].
  rewrite (prog_bind_done _ _ tr1 tr1 tt) by reflexivity.
  rewrite (has_shape_shape [H; W; 3%nat] pred_patch)
    by (repeat constructor; lia || exact Hpatch).
  cbn [list_getitem lookup list_lookup of_result].
  rewrite (prog_bind_done _ _ tr1 tr1 H) by reflexivity.
  rewrite (prog_bind_done _ _ tr1 tr1 W) by reflexivity.
  rewrite (prog_bind_done _ _ tr1 tr1 clusters) by (unfold prog_lift; by rewrite Hcl).
  rewrite (prog_bind_done _ _ tr1 tr1 filepath) by reflexivity.
  reflexivity.
Qed.

(** The checks of [segment_TILs] passed, the loop starts on the files. *)
Lemma segment_TILs_loop (model : host.model) (in_dir_path out_dir_path : string)
    (algorithm : pyobj)
    (save_cluster_masks save_composite_cluster_mask save_cluster_overlays save_csv : bool)
    (files : list string) (tr : list event) :
  host.isdir tr in_dir_path = true ->
  host.isdir tr out_dir_path = true ->
  host.listdir tr in_dir_path = Done files ->
  segment_TILs model in_dir_path (Some out_dir_path) algorithm save_cluster_masks
    save_composite_cluster_mask save_cluster_overlays save_csv tr =
  prog_for_each
    (segment_patch model in_dir_path (Some out_dir_path)
       save_cluster_masks save_cluster_overlays save_csv) files tr.
Proof.
  intros Hin Hout Hls. unfold segment_TILs, raise_if.
  rewrite (prog_bind_done _ _ tr tr tt) by (by rewrite Hin).
  rewrite (prog_bind_done _ _ tr tr tt) by (by rewrite Hout).
  rewrite (prog_bind_done _ _ tr tr files) by (unfold prog_lift; by rewrite Hls).
  reflexivity.
Qed.


Lemma prog_for_each_one {A : Type} (body : A -> prog unit) (x : A) (tr : list event) :
  prog_for_each body [x] tr = body x tr.
Proof.
  cbn [prog_for_each]. unfold prog_bind, prog_ret.
  destruct (body x tr) as [tr' [[] | e]]; reflexivity.
Qed.

Lemma segment_patch_predicted (model : host.model) (in_dir_path out_dir_path : string)
    (save_cluster_masks save_cluster_overlays save_csv : bool) (file : string)
    (tr : list event) (pred_patch labels : ndarray) (H W : nat) :
  let filepath := os.path_join out_dir_path (drop_last4 file) in
  let tr1 := tr ++ made_dir tr filepath in
  patch_predicted model tr1 (os.path_join in_dir_path file) pred_patch labels H W ->
  exists clusters,
    np.has_shape [H; W] clusters = true /\
    np.flatten clusters = np.flatten labels /\
    segment_patch model in_dir_path (Some out_dir_path) save_cluster_masks
      save_cluster_overlays save_csv file tr =
      if (np.unique_count labels <=? 8)%nat then
        of_io (image_postprocessing clusters pred_patch filepath
                 save_cluster_overlays save_cluster_masks save_csv) tr1
      else (tr1, Failed (RuntimeError "No active exception to reraise")).
Proof.
  intros filepath tr1 (Hfit & Hread & Hpatch & HH & HW & rows & Hrows & Hpred & Hlen).
  by eapply segment_patch_runs.
Qed.

(** X17. [segment_TILs] on a directory holding one patch is
    [image_postprocessing] on the reshaped labels: when the model is
    fitted, the patch read is an [H x W] RGB image and the model predicts
    [H * W] labels with at most 8 different values, [segment_TILs] makes
    the directory [out_dir_path/file[:-4]] unless it exists and then does
    exactly what [image_postprocessing] does on the [H x W] label map
    holding the labels row by row, the patch, that directory, and the
    switches [save_cluster_overlays], [save_cluster_masks], [save_csv] (in
    this order; [save_composite_cluster_mask] and [algorithm] play no
    part). *)
Theorem segment_TILs_single_patch (model : host.model) (in_dir_path out_dir_path : string)
    (algorithm : pyobj)
    (save_cluster_masks save_composite_cluster_mask save_cluster_overlays save_csv : bool)
    (file : string) (tr : list event) (pred_patch labels : ndarray) (H W : nat) :
  let filepath := os.path_join out_dir_path (drop_last4 file) in
  let tr1 := tr ++ made_dir tr filepath in
  host.isdir tr in_dir_path = true ->
  host.isdir tr out_dir_path = true ->
  host.listdir tr in_dir_path = Done [file] ->
  patch_predicted model tr1 (os.path_join in_dir_path file) pred_patch labels H W ->
  (np.unique_count labels <= 8)%nat ->
  exists clusters,
    np.has_shape [H; W] clusters = true /\
    np.flatten clusters = np.flatten labels /\
    segment_TILs model in_dir_path (Some out_dir_path) algorithm save_cluster_masks
      save_composite_cluster_mask save_cluster_overlays save_csv tr =
      of_io (image_postprocessing clusters pred_patch filepath
               save_cluster_overlays save_cluster_masks save_csv) tr1.
Proof.
  intros filepath tr1 Hin Hout Hls Hpatch Hu.
  destruct (segment_patch_predicted model in_dir_path out_dir_path save_cluster_masks
              save_cluster_overlays save_csv file tr pred_patch labels H W Hpatch)
    as (clusters & Hcs & Hcf & Hrun).
  exists clusters. split; [exact Hcs |]. split; [exact Hcf |].
  rewrite (segment_TILs_loop _ _ _ _ _ _ _ _ _ _ Hin Hout Hls), prog_for_each_one, Hrun.
  by rewrite (proj2 (Nat.leb_le _ _) Hu).
Qed.

(** X18. When the labels predicted for the first patch take more than 8
    different values, [segment_TILs] raises [RuntimeError] ("No active
    exception to reraise": its [raise] stands outside any handler), after
    making the directory of the patch and before writing any file. *)
Theorem segment_TILs_too_many_labels (model : host.model)
    (in_dir_path out_dir_path : string) (algorithm : pyobj)
    (save_cluster_masks save_composite_cluster_mask save_cluster_overlays save_csv : bool)
    (file : string) (files : list string) (tr : list event)
    (pred_patch labels : ndarray) (H W : nat) :
  let filepath := os.path_join out_dir_path (drop_last4 file) in
  let tr1 := tr ++ made_dir tr filepath in
  host.isdir tr in_dir_path = true ->
  host.isdir tr out_dir_path = true ->
  host.listdir tr in_dir_path = Done (file :: files) ->
  patch_predicted model tr1 (os.path_join in_dir_path file) pred_patch labels H W ->
  (8 < np.unique_count labels)%nat ->
  segment_TILs model in_dir_path (Some out_dir_path) algorithm save_cluster_masks
    save_composite_cluster_mask save_cluster_overlays save_csv tr =
    (tr1, Failed (RuntimeError "No active exception to reraise")).
Proof.
  intros filepath tr1 Hin Hout Hls Hpatch Hu.
  destruct (segment_patch_predicted model in_dir_path out_dir_path save_cluster_masks
              save_cluster_overlays save_csv file tr pred_patch labels H W Hpatch)
    as (clusters & _ & _ & Hrun).
  rewrite (proj2 (Nat.leb_gt _ _) Hu) in Hrun.
  rewrite (segment_TILs_loop _ _ _ _ _ _ _ _ _ _ Hin Hout Hls).
  by apply prog_for_each_first.
Qed.

(** X19. Five to eight clusters pass the check of [segment_TILs] and
    fail behind it: when the labels predicted for the first patch take at
    most 8 different values and one of them is 4 or more, [segment_TILs]
    raises (the error of [result_image_generator]); the directory of the
    patch is made unless it exists and nothing is written into it. *)
Theorem segment_TILs_label_without_colour (model : host.model)
    (in_dir_path out_dir_path : string) (algorithm : pyobj)
    (save_cluster_masks save_composite_cluster_mask save_cluster_overlays save_csv : bool)
    (file : string) (files : list string) (tr : list event)
    (pred_patch labels : ndarray) (H W : nat) (v : Z) :
  let filepath := os.path_join out_dir_path (drop_last4 file) in
  let tr1 := tr ++ made_dir tr filepath in
  host.isdir tr in_dir_path = true ->
  host.isdir tr out_dir_path = true ->
  host.listdir tr in_dir_path = Done (file :: files) ->
  patch_predicted model tr1 (os.path_join in_dir_path file) pred_patch labels H W ->
  (np.unique_count labels <= 8)%nat ->
  v ∈ np.flatten labels -> 4 <= v ->
  exists e,
    segment_TILs model in_dir_path (Some out_dir_path) algorithm save_cluster_masks
      save_composite_cluster_mask save_cluster_overlays save_csv tr =
      (tr1, Failed (Builtin e)).
Proof.
  intros filepath tr1 Hin Hout Hls Hpatch Hu Hv Hv4.
  destruct (segment_patch_predicted model in_dir_path out_dir_path save_cluster_masks
              save_cluster_overlays save_csv file tr pred_patch labels H W Hpatch)
    as (clusters & Hcs & Hcf & Hrun).
  rewrite (proj2 (Nat.leb_le _ _) Hu) in Hrun. rewrite <- Hcf in Hv.
  destruct (result_image_generator_raises clusters pred_patch H W v Hcs Hv Hv4)
    as [e He].
  exists e. rewrite (segment_TILs_loop _ _ _ _ _ _ _ _ _ _ Hin Hout Hls).
  apply prog_for_each_first. rewrite Hrun.
  unfold of_io, image_postprocessing, io_bind at 1, io_lift at 1. by rewrite He.
Qed.

(** X20. [save_cluster_masks=True] makes [segment_TILs] fail on its
    first patch: with labels from 0 to 3 predicted for an [H x W] RGB patch
    it raises [ValueError] "All cluster image has 3 dimensions but 3 were
    input" (from [generate_image_series] on the masks), and no table is
    written for the patch, whatever [save_csv]. *)
Theorem segment_TILs_cluster_masks_fail (model : host.model)
    (in_dir_path out_dir_path : string) (algorithm : pyobj)
    (save_composite_cluster_mask save_cluster_overlays save_csv : bool)
    (file : string) (files : list string) (tr : list event)
    (pred_patch labels : ndarray) (H W : nat) :
  let filepath := os.path_join out_dir_path (drop_last4 file) in
  let tr1 := tr ++ made_dir tr filepath in
  host.isdir tr in_dir_path = true ->
  host.isdir tr out_dir_path = true ->
  host.listdir tr in_dir_path = Done (file :: files) ->
  patch_predicted model tr1 (os.path_join in_dir_path file) pred_patch labels H W ->
  (forall v, v ∈ np.flatten labels -> 0 <= v <= 3) ->
  exists tr',
    segment_TILs model in_dir_path (Some out_dir_path) algorithm true
      save_composite_cluster_mask save_cluster_overlays save_csv tr =
      (tr', Failed (Builtin (ValueError
                      "All cluster image has 3 dimensions but 3 were input"))) /\
    forall df path index, to_csv df path index ∈ tr' -> to_csv df path index ∈ tr.
Proof.
  intros filepath tr1 Hin Hout Hls Hpatch Hrange.
  pose proof (unique_count_palette labels Hrange) as Hu.
  destruct (segment_patch_predicted model in_dir_path out_dir_path true
              save_cluster_overlays save_csv file tr pred_patch labels H W Hpatch)
    as (clusters & Hcs & Hcf & Hrun).
  assert (Hu8 : (np.unique_count labels <= 8)%nat) by lia.
  rewrite (proj2 (Nat.leb_le _ _) Hu8) in Hrun. rewrite <- Hcf in Hrange.
  destruct Hpatch as (_ & _ & Hps & HH & HW & _).
  destruct (image_postprocessing_run clusters pred_patch H W filepath
              save_cluster_overlays save_csv tr1 Hcs Hps HH HW Hrange)
    as (top & overlays & masks & combined & idx & mask & winner & _ & _ & _ & _ & Hpost).
  cbv zeta in Hpost. destruct Hpost as [_ Hmasks].
  match type of Hmasks with _ = (?t, _) => exists t end. split.
  - rewrite (segment_TILs_loop _ _ _ _ _ _ _ _ _ _ Hin Hout Hls).
    apply prog_for_each_first. rewrite Hrun. unfold of_io.
    subst filepath tr1. rewrite Hmasks. reflexivity.
  - intros df path index Hin'.
    assert (Hno : forall l : list ndarray, to_csv df path index ∉ image_files l).
    { intros l Hl. unfold image_files in Hl.
      apply elem_of_lookup_imap in Hl as (i & x & Hl & _). discriminate. }
    unfold base_results, image_series, made_dir in Hin'. subst tr1. unfold made_dir in Hin'.
    destruct save_cluster_overlays;
      repeat match type of Hin' with
        | _ ∈ _ ++ _ => apply elem_of_app in Hin' as [Hin' | Hin']
        | _ ∈ _ :: _ => apply elem_of_cons in Hin' as [Hin' | Hin']
        | _ ∈ [] => by apply elem_of_nil in Hin'
        | _ ∈ (if ?b then _ else _) => destruct b
        | _ ∈ image_files _ => by apply Hno in Hin'
        | _ = _ => discriminate Hin'
        | _ ∈ tr => exact Hin'
        end.
Qed.

End EntryProps.

(** In the example world no check of [cluster_model_fit] refuses 0
    clusters. *)
Lemma cluster_model_fit_validation_witness :
  let OS := Example.fs in
  let HOST := Example.lab in
  host.is_file [] "four/cells.jpg" = true /\
  cluster_model_fit (PyStr "four/cells.jpg") (PyStr "KMeans") (PyInt 0) []
    = ([], Done (Some 0)).
Proof.
  intros OS HOST.
  assert (Hfile : host.is_file [] "four/cells.jpg" = true) by reflexivity.
  split; [exact Hfile |].
  exact (proj2 (cluster_model_fit_validation (PyStr "four/cells.jpg") (PyStr "KMeans")
                  (PyInt 0) [])
           "four/cells.jpg"%string 0 eq_refl Hfile eq_refl eq_refl ltac:(lia)).
Defined.

(** The directory [four] holds a patch: without an output directory
    [segment_TILs] fails on it, with the [TypeError]. *)
Lemma segment_TILs_no_out_dir_witness :
  let CV := Example.cv in
  let OS := Example.fs in
  let HOST := Example.lab in
  segment_TILs 4 "four" None (PyStr "KMeans") false false true true []
    = ([], Failed (Builtin (TypeError
                     "expected str, bytes or os.PathLike object, not NoneType"))).
Proof.
  intros CV OS HOST.
  destruct (segment_TILs_no_out_dir (CV := CV) (OS := OS) (HOST := HOST)
              4 "four" (PyStr "KMeans") false false true true [])
    as (r & Hrun & _ & Hgood).
  rewrite Hrun. f_equal.
  apply (Hgood "cells.jpg"%string [] (Example.patch [[0; 1]; [2; 3]])
           (np.array1 [0; 1; 2; 3]) 2%nat 2%nat); try reflexivity.
  - repeat split; try reflexivity; try lia.
    eexists. repeat split; reflexivity.
  - vm_compute. lia.
Defined.

(** The patch of [four]: a 2 x 2 image with the labels 0, 1, 2, 3. *)
Lemma segment_TILs_single_patch_witness :
  let CV := Example.cv in
  let OS := Example.fs in
  let HOST := Example.lab in
  let pred_patch := Example.patch [[0; 1]; [2; 3]] in
  let labels := np.array1 [0; 1; 2; 3] in
  host.isdir [] "four" = true /\
  host.isdir [] "out" = true /\
  host.listdir [] "four" = Done ["cells.jpg"%string] /\
  patch_predicted 4 [os_mkdir "out/cells"] "four/cells.jpg" pred_patch labels 2 2 /\
  (np.unique_count labels <= 8)%nat /\
  exists clusters,
    np.has_shape [2; 2]%nat clusters = true /\
    np.flatten clusters = [0; 1; 2; 3] /\
    segment_TILs 4 "four" (Some "out"%string) (PyStr "KMeans") false false true true []
      = of_io (image_postprocessing clusters pred_patch "out/cells" true false true)
          [os_mkdir "out/cells"].
Proof.
  intros CV OS HOST pred_patch labels.
  assert (Hin : host.isdir [] "four" = true) by reflexivity.
  assert (Hout : host.isdir [] "out" = true) by reflexivity.
  assert (Hls : host.listdir [] "four" = Done ["cells.jpg"%string]) by reflexivity.
  assert (Hpatch : patch_predicted 4 [os_mkdir "out/cells"] "four/cells.jpg"
                     pred_patch labels 2 2).
  { repeat split; try reflexivity; try lia. eexists. repeat split; reflexivity. }
  assert (Hu : (np.unique_count labels <= 8)%nat) by (vm_compute; lia).
  split; [exact Hin |]. split; [exact Hout |]. split; [exact Hls |].
  split; [exact Hpatch |]. split; [exact Hu |].
  exact (segment_TILs_single_patch (CV := CV) (OS := OS) (HOST := HOST)
           4 "four" "out" (PyStr "KMeans") false false true true
           "cells.jpg" [] pred_patch labels 2 2 Hin Hout Hls Hpatch Hu).
Defined.

(** The patch of [nine]: a 3 x 3 image with nine different labels. *)
Lemma segment_TILs_too_many_labels_witness :
  let CV := Example.cv in
  let OS := Example.fs in
  let HOST := Example.lab in
  let pred_patch := Example.patch [[0; 1; 2]; [3; 4; 5]; [6; 7; 8]] in
  let labels := np.array1 [0; 1; 2; 3; 4; 5; 6; 7; 8] in
  host.isdir [] "nine" = true /\
  host.isdir [] "out" = true /\
  host.listdir [] "nine" = Done ["cells.jpg"%string] /\
  patch_predicted 9 [os_mkdir "out/cells"] "nine/cells.jpg" pred_patch labels 3 3 /\
  (8 < np.unique_count labels)%nat /\
  segment_TILs 9 "nine" (Some "out"%string) (PyStr "KMeans") false false true true []
    = ([os_mkdir "out/cells"], Failed (RuntimeError "No active exception to reraise")).
Proof.
  intros CV OS HOST pred_patch labels.
  assert (Hin : host.isdir [] "nine" = true) by reflexivity.
  assert (Hout : host.isdir [] "out" = true) by reflexivity.
  assert (Hls : host.listdir [] "nine" = Done ["cells.jpg"%string]) by reflexivity.
  assert (Hpatch : patch_predicted 9 [os_mkdir "out/cells"] "nine/cells.jpg"
                     pred_patch labels 3 3).
  { repeat split; try reflexivity; try lia. eexists. repeat split; reflexivity. }
  assert (Hu : (8 < np.unique_count labels)%nat) by (vm_compute; lia).
  split; [exact Hin |]. split; [exact Hout |]. split; [exact Hls |].
  split; [exact Hpatch |]. split; [exact Hu |].
  exact (segment_TILs_too_many_labels (CV := CV) (OS := OS) (HOST := HOST)
           9 "nine" "out" (PyStr "KMeans") false false true true
           "cells.jpg" [] [] pred_patch labels 3 3 Hin Hout Hls Hpatch Hu).
Defined.

(** The patch of [five]: a 2 x 3 image with the labels 0 to 4. *)
Lemma segment_TILs_label_without_colour_witness :
  let CV := Example.cv in
  let OS := Example.fs in
  let HOST := Example.lab in
  let pred_patch := Example.patch [[0; 1; 2]; [3; 4; 4]] in
  let labels := np.array1 [0; 1; 2; 3; 4; 4] in
  host.isdir [] "five" = true /\
  host.isdir [] "out" = true /\
  host.listdir [] "five" = Done ["cells.jpg"%string] /\
  patch_predicted 5 [os_mkdir "out/cells"] "five/cells.jpg" pred_patch labels 2 3 /\
  (np.unique_count labels <= 8)%nat /\
  4 ∈ np.flatten labels /\
  exists e,
    segment_TILs 5 "five" (Some "out"%string) (PyStr "KMeans") false false true true []
      = ([os_mkdir "out/cells"], Failed (Builtin e)).
Proof.
  intros CV OS HOST pred_patch labels.
  assert (Hin : host.isdir [] "five" = true) by reflexivity.
  assert (Hout : host.isdir [] "out" = true) by reflexivity.
  assert (Hls : host.listdir [] "five" = Done ["cells.jpg"%string]) by reflexivity.
  assert (Hpatch : patch_predicted 5 [os_mkdir "out/cells"] "five/cells.jpg"
                     pred_patch labels 2 3).
  { repeat split; try reflexivity; try lia. eexists. repeat split; reflexivity. }
  assert (Hu : (np.unique_count labels <= 8)%nat) by (vm_compute; lia).
  assert (Hv : 4 ∈ np.flatten labels).
  { cbn. rewrite !elem_of_cons. tauto. }
  split; [exact Hin |]. split; [exact Hout |]. split; [exact Hls |].
  split; [exact Hpatch |]. split; [exact Hu |]. split; [exact Hv |].
  exact (segment_TILs_label_without_colour (CV := CV) (OS := OS) (HOST := HOST)
           5 "five" "out" (PyStr "KMeans") false false true true
           "cells.jpg" [] [] pred_patch labels 2 3 4 Hin Hout Hls Hpatch Hu Hv
           ltac:(lia)).
Defined.

(** The patch of [four], with the masks asked for. *)
Lemma segment_TILs_cluster_masks_fail_witness :
  let CV := Example.cv in
  let OS := Example.fs in
  let HOST := Example.lab in
  let pred_patch := Example.patch [[0; 1]; [2; 3]] in
  let labels := np.array1 [0; 1; 2; 3] in
  host.isdir [] "four" = true /\
  host.isdir [] "out" = true /\
  host.listdir [] "four" = Done ["cells.jpg"%string] /\
  patch_predicted 4 [os_mkdir "out/cells"] "four/cells.jpg" pred_patch labels 2 2 /\
  (forall v, v ∈ np.flatten labels -> 0 <= v <= 3) /\
  exists tr',
    segment_TILs 4 "four" (Some "out"%string) (PyStr "KMeans") true false true true []
      = (tr', Failed (Builtin (ValueError
                        "All cluster image has 3 dimensions but 3 were input"))).
Proof.
  intros CV OS HOST pred_patch labels.
  assert (Hin : host.isdir [] "four" = true) by reflexivity.
  assert (Hout : host.isdir [] "out" = true) by reflexivity.
  assert (Hls : host.listdir [] "four" = Done ["cells.jpg"%string]) by reflexivity.
  assert (Hpatch : patch_predicted 4 [os_mkdir "out/cells"] "four/cells.jpg"
                     pred_patch labels 2 2).
  { repeat split; try reflexivity; try lia. eexists. repeat split; reflexivity. }
  assert (Hrange : forall v, v ∈ np.flatten labels -> 0 <= v <= 3).
  { intros v Hv. cbn in Hv. rewrite !elem_of_cons, elem_of_nil in Hv. lia. }
  split; [exact Hin |]. split; [exact Hout |]. split; [exact Hls |].
  split; [exact Hpatch |]. split; [exact Hrange |].
  destruct (segment_TILs_cluster_masks_fail (CV := CV) (OS := OS) (HOST := HOST)
              4 "four" "out" (PyStr "KMeans") false true true
              "cells.jpg" [] [] pred_patch labels 2 2 Hin Hout Hls Hpatch Hrange)
    as (tr' & Hrun & _).
  by exists tr'.
Defined.
